(** * Ghostwriter: the chapter-generation pipeline

    A shallow embedding of the chapter generator of [services/gemini.ts]
    ([isFatalError], [writeChapter]) and of the background generator of
    [App.tsx] ([requestWakeLock], [releaseWakeLock], [startBookGeneration],
    [handleUpdateProject]), together with the auto-start effect of
    [components/ProjectEditor.tsx].

    Asynchronous code is written in a state-and-exception monad over a
    [World] that holds the React state of [App] (the project collection, the
    id of the generating project, the wake-lock ref), the number of backend
    requests issued so far and a chronological trace of the observable
    actions.  The backend, the wake-lock capability and the clock are the
    oracles of a [Host]. *)

From Stdlib Require Import String Ascii ZArith List Bool Arith Lia DecimalString.
Import ListNotations.
Local Open Scope Z_scope.

(* ================================================================== *)
(** ** JavaScript primitives *)

(** [s.includes(sub)] *)
Fixpoint includes (s sub : string) : bool :=
  String.prefix sub s ||
  match s with
  | EmptyString => false
  | String _ s' => includes s' sub
  end.

(** Template-literal rendering of an integral [number]. *)
Definition numberToString (n : Z) : string :=
  NilZero.string_of_int (Z.to_int n).

(** Truthiness of a string: only the empty string is falsy. *)
Definition truthy (s : string) : bool :=
  match s with
  | EmptyString => false
  | String _ _ => true
  end.

(** [x || d] on an optional string ([undefined] and [""] are falsy). *)
Definition orElse (x : option string) (d : string) : string :=
  match x with
  | Some s => if truthy s then s else d
  | None => d
  end.

(** Rendering of an optional string inside a template literal. *)
Definition render (x : option string) : string :=
  match x with
  | Some s => s
  | None => "undefined"%string
  end.

(** A value caught by [catch (e: any)]: the two properties the code reads. *)
Module JsError.
Record t := mk { message : option string; status : option Z }.
End JsError.

(** [new Error(msg)] *)
Definition newError (msg : string) : JsError.t :=
  JsError.mk (Some msg) None.

(** [e.message?.includes(sub)], as a truth value. *)
Definition messageIncludes (e : JsError.t) (sub : string) : bool :=
  match JsError.message e with
  | Some m => includes m sub
  | None => false
  end.

(** [e.status === n] *)
Definition statusIs (e : JsError.t) (n : Z) : bool :=
  match JsError.status e with
  | Some s => s =? n
  | None => false
  end.

(* ================================================================== *)
(** ** types.ts *)

Inductive SourceType := AUDIO | TEXT | IMAGE.

Module Source.
Record t := mk {
  id : string;
  type : SourceType;
  content : string;
  mimeType : option string;
  name : string;
  transcription : option string;
  isProcessing : bool }.
End Source.

Module ChapterOutline.
Record t := mk { chapterNumber : Z; title : string; summary : string }.
End ChapterOutline.

Inductive WritingStyle :=
  standard | literary | humorous | technical | simple | sarcastic.

Module BookOutline.
Record t := mk {
  title : string;
  description : string;
  chapters : list ChapterOutline.t;
  coverImage : option string;
  backCoverImage : option string }.
End BookOutline.

Module ChapterContent.
Record t := mk {
  chapterNumber : Z;
  title : string;
  content : string;
  isGenerating : bool }.
End ChapterContent.

Module BookProject.
Record t := mk {
  id : string;
  title : string;
  lastModified : Z;
  sources : list Source.t;
  outline : option BookOutline.t;
  chapters : list ChapterContent.t;
  currentStep : Z;
  seriesId : option string;
  seriesIndex : option Z;
  audioVoice : option string }.

(** [{ ...p, chapters }] *)
Definition withChapters (p : t) (cs : list ChapterContent.t) : t :=
  mk (id p) (title p) (lastModified p) (sources p) (outline p) cs
     (currentStep p) (seriesId p) (seriesIndex p) (audioVoice p).

(** [{ ...p, chapters, lastModified }] *)
Definition withChaptersAt (p : t) (cs : list ChapterContent.t) (now : Z) : t :=
  mk (id p) (title p) now (sources p) (outline p) cs
     (currentStep p) (seriesId p) (seriesIndex p) (audioVoice p).

(** Every field of a project except [chapters] and [lastModified]. *)
Definition frame (p : t) :=
  (id p, title p, sources p, outline p, currentStep p,
   seriesId p, seriesIndex p, audioVoice p).
End BookProject.

(* ================================================================== *)
(** ** The world the asynchronous code runs in *)

Definition WakeLockSentinel := nat.

(** A functional update handed to [setProjects]. *)
Inductive Updater :=
| UpdReplaceProject (updatedProject : BookProject.t)
| UpdChapterWritten (projectId : string) (chapterNumber : Z)
                    (content : string) (now : Z)
| UpdChapterFailed (projectId : string) (chapterNumber : Z) (isFatal : bool).

Inductive Event :=
| EvSetGeneratingProjectId (v : option string)
| EvWakeLockRequest
| EvWakeLockRelease (s : WakeLockSentinel)
| EvGenerateContent (chapterNumber : Z)
| EvSleep (ms : Z)
| EvConsoleError (msg : string)
| EvAlert (msg : string)
| EvSetProjects (u : Updater).

(** What [ai.models.generateContent] settles to. *)
Inductive Settled :=
| Resolved (text : option string)
| Rejected (error : JsError.t).

Record Host := mkHost {
  generateContent : nat -> Settled;
  wakeLockInNavigator : bool;
  wakeLockRequest : nat -> option WakeLockSentinel;
  wakeLockRelease : WakeLockSentinel -> bool;
  dateNow : nat -> Z }.

Record World := mkWorld {
  projects : list BookProject.t;
  generatingProjectId : option string;
  wakeLockRef : option WakeLockSentinel;
  requests : nat;
  trace : list Event }.

(** The number of wake-lock requests made so far. *)
Definition wakeLockRequestsMade (w : World) : nat :=
  length (filter (fun ev => match ev with
                            | EvWakeLockRequest => true
                            | _ => false
                            end) (trace w)).

Inductive Outcome (A : Type) :=
| Returned (a : A)
| Thrown (e : JsError.t)
| OutOfFuel.
Arguments Returned {A} a.
Arguments Thrown {A} e.
Arguments OutOfFuel {A}.

Definition M (A : Type) : Type := World -> Outcome A * World.

Definition ret {A} (a : A) : M A := fun w => (Returned a, w).

Definition bind {A B} (m : M A) (k : A -> M B) : M B :=
  fun w =>
    match m w with
    | (Returned a, w') => k a w'
    | (Thrown e, w') => (Thrown e, w')
    | (OutOfFuel, w') => (OutOfFuel, w')
    end.

Definition throw {A} (e : JsError.t) : M A := fun w => (Thrown e, w).

Definition outOfFuel {A} : M A := fun w => (OutOfFuel, w).

(** [try { body } catch (e) { handler }] *)
Definition tryCatch {A} (body : M A) (handler : JsError.t -> M A) : M A :=
  fun w =>
    match body w with
    | (Thrown e, w') => handler e w'
    | r => r
    end.

Declare Scope js_scope.
Delimit Scope js_scope with js.
Notation "x <- m ;; k" := (bind m (fun x => k))
  (at level 100, m at next level, right associativity) : js_scope.
Notation "m ;; k" := (bind m (fun _ => k))
  (at level 100, right associativity) : js_scope.
Local Open Scope js_scope.

Definition emit (ev : Event) : M unit :=
  fun w =>
    (Returned tt,
     mkWorld (projects w) (generatingProjectId w) (wakeLockRef w)
             (requests w) (trace w ++ [ev])).

Definition consoleError (msg : string) : M unit := emit (EvConsoleError msg).

Definition alert (msg : string) : M unit := emit (EvAlert msg).

(** [await new Promise(resolve => setTimeout(resolve, ms))] *)
Definition sleep (ms : Z) : M unit := emit (EvSleep ms).

(* ================================================================== *)
(** ** services/gemini.ts *)

Module Gemini.

(** [isFatalError]: fail fast on permission denied (leaked key, no quota). *)
Definition isFatalError (error : JsError.t) : bool :=
  let msg := orElse (JsError.message error) "" in
  if statusIs error 403 || statusIs error 401 then true
  else if includes msg "leaked" || includes msg "API key"
          || includes msg "PERMISSION_DENIED" then true
  else false.

Definition maxAttempts : nat := 3.

(** [await ai.models.generateContent({ model, contents: { parts } })] on
    behalf of [chapter].  The prompt parts are assembled once, before the
    retry loop, and are the same at every attempt; the backend's answer to
    the n-th request of the session is the oracle [generateContent h n]. *)
Definition requestContent (h : Host) (chapter : ChapterOutline.t)
  : M (option string) :=
  fun w =>
    let w' := mkWorld (projects w) (generatingProjectId w) (wakeLockRef w)
                      (S (requests w))
                      (trace w ++ [EvGenerateContent
                                     (ChapterOutline.chapterNumber chapter)]) in
    match generateContent h (requests w) with
    | Resolved text => (Returned text, w')
    | Rejected error => (Thrown error, w')
    end.

(** [`Attempt ${attempt + 1} failed for chapter ${chapter.chapterNumber}:`] *)
Definition attemptFailed (attempt : nat) (chapter : ChapterOutline.t) : string :=
  "Attempt " ++ numberToString (Z.of_nat (attempt + 1))
  ++ " failed for chapter "
  ++ numberToString (ChapterOutline.chapterNumber chapter) ++ ":".
Arguments attemptFailed : simpl never.

(** The [while (attempt < maxAttempts)] loop of [writeChapter]; [fuel]
    bounds the number of iterations. *)
Fixpoint retryLoop (h : Host) (chapter : ChapterOutline.t)
                   (fuel : nat) (attempt : nat) : M string :=
  if (attempt <? maxAttempts)%nat then
    match fuel with
    | O => outOfFuel
    | S fuel' =>
        tryCatch
          (text <- requestContent h chapter ;;
           ret (orElse text ""))
          (fun error =>
             consoleError (attemptFailed attempt chapter) ;;
             if isFatalError error then throw error
             else
               let attempt := S attempt in
               if (maxAttempts <=? attempt)%nat then
                 throw (newError
                          ("Failed to write chapter "
                           ++ numberToString
                                (ChapterOutline.chapterNumber chapter)))
               else
                 (sleep (1000 * 2 ^ Z.of_nat attempt) ;;
                  retryLoop h chapter fuel' attempt))
    end
  else ret ""%string.

Definition writeChapter (h : Host) (chapter : ChapterOutline.t)
    (outline : BookOutline.t) (sources : list Source.t)
    (style : WritingStyle) : M string :=
  retryLoop h chapter maxAttempts 0.

End Gemini.

(* ================================================================== *)
(** ** App.tsx *)

Module App.

Definition failedContent (isFatal : bool) : string :=
  if isFatal then "Stopped due to API error."%string
  else "Generation failed. Please retry."%string.

(** The functional updates of [startBookGeneration] and [handleUpdateProject],
    applied to the latest collection [prevProjects]. *)
Definition applyUpdater (u : Updater) (prevProjects : list BookProject.t)
  : list BookProject.t :=
  match u with
  | UpdReplaceProject updatedProject =>
      map (fun p =>
             if String.eqb (BookProject.id p) (BookProject.id updatedProject)
             then updatedProject else p)
          prevProjects
  | UpdChapterWritten projectId chapterNumber content now =>
      map (fun p =>
             if negb (String.eqb (BookProject.id p) projectId) then p
             else
               let updatedChapters :=
                 map (fun c =>
                        if ChapterContent.chapterNumber c =? chapterNumber
                        then ChapterContent.mk
                               (ChapterContent.chapterNumber c)
                               (ChapterContent.title c) content false
                        else c)
                     (BookProject.chapters p) in
               BookProject.withChaptersAt p updatedChapters now)
          prevProjects
  | UpdChapterFailed projectId chapterNumber isFatal =>
      map (fun p =>
             if negb (String.eqb (BookProject.id p) projectId) then p
             else
               let updatedChapters :=
                 map (fun c =>
                        if ChapterContent.chapterNumber c =? chapterNumber
                        then ChapterContent.mk
                               (ChapterContent.chapterNumber c)
                               (ChapterContent.title c)
                               (failedContent isFatal) false
                        else c)
                     (BookProject.chapters p) in
               BookProject.withChapters p updatedChapters)
          prevProjects
  end.

(** [setProjects(updater)] *)
Definition setProjects (u : Updater) : M unit :=
  fun w =>
    (Returned tt,
     mkWorld (applyUpdater u (projects w)) (generatingProjectId w)
             (wakeLockRef w) (requests w) (trace w ++ [EvSetProjects u])).

Definition handleUpdateProject (updatedProject : BookProject.t) : M unit :=
  setProjects (UpdReplaceProject updatedProject).

Definition setGeneratingProjectId (v : option string) : M unit :=
  fun w =>
    (Returned tt,
     mkWorld (projects w) v (wakeLockRef w) (requests w)
             (trace w ++ [EvSetGeneratingProjectId v])).

Definition setWakeLockRef (v : option WakeLockSentinel) : M unit :=
  fun w =>
    (Returned tt,
     mkWorld (projects w) (generatingProjectId w) v (requests w) (trace w)).

Definition getWakeLockRef : M (option WakeLockSentinel) :=
  fun w => (Returned (wakeLockRef w), w).

(** [await navigator.wakeLock.request('screen')]: every request that is
    granted yields a sentinel of its own; what the k-th request of the
    session resolves to is the oracle [wakeLockRequest h k]. *)
Definition navigatorWakeLockRequest (h : Host) : M WakeLockSentinel :=
  fun w =>
    (emit EvWakeLockRequest ;;
     match wakeLockRequest h (wakeLockRequestsMade w) with
     | Some s => ret s
     | None => throw (newError "NotAllowedError")
     end) w.

(** [await sentinel.release()] *)
Definition sentinelRelease (h : Host) (s : WakeLockSentinel) : M unit :=
  emit (EvWakeLockRelease s) ;;
  if wakeLockRelease h s then ret tt
  else throw (newError "release failed").

(** [`Wake Lock failed: ${err}`] *)
Definition wakeLockFailed (err : JsError.t) : string :=
  "Wake Lock failed: Error: " ++ render (JsError.message err).
Arguments wakeLockFailed : simpl never.

(** [`Wake Lock release failed: ${err}`] *)
Definition wakeLockReleaseFailed (err : JsError.t) : string :=
  "Wake Lock release failed: Error: " ++ render (JsError.message err).
Arguments wakeLockReleaseFailed : simpl never.

Definition requestWakeLock (h : Host) : M unit :=
  tryCatch
    (if wakeLockInNavigator h then
       (s <- navigatorWakeLockRequest h ;;
        setWakeLockRef (Some s))
     else ret tt)
    (fun err => consoleError (wakeLockFailed err)).

Definition releaseWakeLock (h : Host) : M unit :=
  current <- getWakeLockRef ;;
  match current with
  | Some s =>
      tryCatch
        (sentinelRelease h s ;;
         setWakeLockRef None)
        (fun err => consoleError (wakeLockReleaseFailed err))
  | None => ret tt
  end.

(** [array.find(c => c.chapterNumber === n)] *)
Definition findChapter (cs : list ChapterContent.t) (n : Z)
  : option ChapterContent.t :=
  find (fun c => ChapterContent.chapterNumber c =? n) cs.

(** [projects.find(p => p.id === projectId)] *)
Definition findProject (ps : list BookProject.t) (projectId : string)
  : option BookProject.t :=
  find (fun p => String.eqb (BookProject.id p) projectId) ps.

(** The resumption test
    [existingChap && existingChap.content && !existingChap.isGenerating]. *)
Definition alreadyDone (existingChap : option ChapterContent.t) : bool :=
  match existingChap with
  | Some c =>
      truthy (ChapterContent.content c) && negb (ChapterContent.isGenerating c)
  | None => false
  end.

(** The inline classification of the [catch] block. *)
Definition isFatal (e : JsError.t) : bool :=
  messageIncludes e "leaked" || messageIncludes e "PERMISSION_DENIED"
  || statusIs e 403.

(** [currentChapters.map(c => c.chapterNumber === n
                               ? { ...c, content, isGenerating: false } : c)] *)
Definition markWritten (cs : list ChapterContent.t) (n : Z) (content : string)
  : list ChapterContent.t :=
  map (fun c =>
         if ChapterContent.chapterNumber c =? n
         then ChapterContent.mk (ChapterContent.chapterNumber c)
                                (ChapterContent.title c) content false
         else c) cs.

(** The chapters created when the project has none. *)
Definition initialChapters (outline : BookOutline.t) : list ChapterContent.t :=
  map (fun c =>
         ChapterContent.mk (ChapterOutline.chapterNumber c)
                           (ChapterOutline.title c) ""%string true)
      (BookOutline.chapters outline).

(** The mutable locals of the chapter loop. *)
Record Locals := mkLocals {
  currentChapters : list ChapterContent.t;
  hasFatalError : bool }.

(** [`Error generating chapter ${chapOutline.chapterNumber}`] *)
Definition errorGenerating (n : Z) : string :=
  "Error generating chapter " ++ numberToString n.
Arguments errorGenerating : simpl never.

(** [`Generation Stopped: ${e.message}`] *)
Definition generationStopped (e : JsError.t) : string :=
  "Generation Stopped: " ++ render (JsError.message e).
Arguments generationStopped : simpl never.

(** The [try { ... } catch (e: any) { ... }] statement of one iteration. *)
Definition attemptChapter (h : Host) (project : BookProject.t)
    (outline : BookOutline.t) (projectId : string) (style : WritingStyle)
    (chapOutline : ChapterOutline.t) (st : Locals) : M Locals :=
  let n := ChapterOutline.chapterNumber chapOutline in
  tryCatch
    (content <- Gemini.writeChapter h chapOutline outline
                  (BookProject.sources project) style ;;
     now <- (fun w => (Returned (dateNow h (requests w)), w)) ;;
     setProjects (UpdChapterWritten projectId n content now) ;;
     ret (mkLocals (markWritten (currentChapters st) n content)
                   (hasFatalError st)))
    (fun e =>
       consoleError (errorGenerating n) ;;
       let isFatal := isFatal e in
       (if isFatal then alert (generationStopped e) else ret tt) ;;
       setProjects (UpdChapterFailed projectId n isFatal) ;;
       ret (mkLocals (currentChapters st)
                     (if isFatal then true else hasFatalError st))).

(** [for (const chapOutline of project.outline.chapters) { ... }] *)
Fixpoint chapterLoop (h : Host) (project : BookProject.t)
    (outline : BookOutline.t) (projectId : string) (style : WritingStyle)
    (todo : list ChapterOutline.t) (st : Locals) : M Locals :=
  match todo with
  | [] => ret st
  | chapOutline :: rest =>
      let existingChap :=
        findChapter (currentChapters st)
                    (ChapterOutline.chapterNumber chapOutline) in
      if alreadyDone existingChap then
        chapterLoop h project outline projectId style rest st
      else if hasFatalError st then ret st
      else
        (st' <- attemptChapter h project outline projectId style
                               chapOutline st ;;
         chapterLoop h project outline projectId style rest st')
  end.

Definition startBookGeneration (h : Host) (projectId : string)
    (style : WritingStyle) : M unit :=
  fun w =>
    match findProject (projects w) projectId with
    | None => (Returned tt, w)
    | Some project =>
        match BookProject.outline project with
        | None => (Returned tt, w)
        | Some outline =>
            (setGeneratingProjectId (Some projectId) ;;
             requestWakeLock h ;;
             let currentChapters :=
               if (0 <? length (BookProject.chapters project))%nat
               then BookProject.chapters project
               else initialChapters outline in
             handleUpdateProject
               (BookProject.withChapters project currentChapters) ;;
             chapterLoop h project outline projectId style
                         (BookOutline.chapters outline)
                         (mkLocals currentChapters false) ;;
             setGeneratingProjectId None ;;
             releaseWakeLock h) w
        end
    end.

End App.

(* ================================================================== *)
(** ** components/ProjectEditor.tsx *)

Module ProjectEditor.

(** The auto-start effect: [Some style] when it calls
    [onStartGeneration(selectedStyle)], [None] when it does nothing. *)
Definition autoStartEffect (project : BookProject.t) (isProcessing : bool)
    (isGeneratingGlobal : bool) (error : option string)
    (selectedStyle : WritingStyle) : option WritingStyle :=
  if (BookProject.currentStep project =? 2)
     && (match BookProject.outline project with Some _ => true | None => false end)
     && (length (BookProject.chapters project) =? 0)%nat
     && negb isProcessing && negb isGeneratingGlobal
     && negb (match error with Some m => truthy m | None => false end)
  then Some selectedStyle
  else None.

(** [isGeneratingGlobal={generatingProjectId === activeProject.id}] *)
Definition isGeneratingGlobal (w : World) (activeProject : BookProject.t) : bool :=
  match generatingProjectId w with
  | Some g => String.eqb g (BookProject.id activeProject)
  | None => false
  end.

End ProjectEditor.

(* ================================================================== *)
(** ** Observations *)


(** The error raised when the retries are exhausted. *)
Definition exhausted (chapter : ChapterOutline.t) : JsError.t :=
  newError ("Failed to write chapter "
            ++ numberToString (ChapterOutline.chapterNumber chapter)).

(** The world after [k] more backend requests and the actions [evs], the
    React state being left as it is. *)
Definition advance (w : World) (k : nat) (evs : list Event) : World :=
  mkWorld (projects w) (generatingProjectId w) (wakeLockRef w)
          (requests w + k) (trace w ++ evs).

(** The chapters for which the backend was called, in order. *)
Definition generated (evs : list Event) : list Z :=
  flat_map (fun ev => match ev with EvGenerateContent n => [n] | _ => [] end) evs.

(** The backoff sleeps, in order. *)
Definition sleeps (evs : list Event) : list Z :=
  flat_map (fun ev => match ev with EvSleep ms => [ms] | _ => [] end) evs.

(** The alerts shown to the user, in order. *)
Definition alerts (evs : list Event) : list string :=
  flat_map (fun ev => match ev with EvAlert m => [m] | _ => [] end) evs.

(** The functional updates of the project collection, in order. *)
Definition updates (evs : list Event) : list Updater :=
  flat_map (fun ev => match ev with EvSetProjects u => [u] | _ => [] end) evs.

(** The wake-lock requests made. *)
Definition lockRequests (evs : list Event) : list unit :=
  flat_map (fun ev => match ev with EvWakeLockRequest => [tt] | _ => [] end) evs.

(** The sentinels on which [release()] was called, in order. *)
Definition releases (evs : list Event) : list WakeLockSentinel :=
  flat_map (fun ev => match ev with EvWakeLockRelease s => [s] | _ => [] end) evs.

(** [delay i]: the backoff after the failure of attempt [i], in ms. *)
Definition delay (i : nat) : Z := 1000 * 2 ^ Z.of_nat i.

(** One call of the retry loop, seen from outside: the request index and the
    (1-based) number of the attempt it starts with, what it settles to and
    the actions it performs. *)
Inductive Retry (h : Host) (chapter : ChapterOutline.t)
  : nat -> nat -> Outcome string -> list Event -> Prop :=
| Retry_success r a text :
    generateContent h r = Resolved text ->
    Retry h chapter r a (Returned (orElse text ""))
          [EvGenerateContent (ChapterOutline.chapterNumber chapter)]
| Retry_fatal r a e :
    generateContent h r = Rejected e ->
    Gemini.isFatalError e = true ->
    Retry h chapter r a (Thrown e)
          [EvGenerateContent (ChapterOutline.chapterNumber chapter);
           EvConsoleError (Gemini.attemptFailed (pred a) chapter)]
| Retry_exhausted r e :
    generateContent h r = Rejected e ->
    Gemini.isFatalError e = false ->
    Retry h chapter r Gemini.maxAttempts (Thrown (exhausted chapter))
          [EvGenerateContent (ChapterOutline.chapterNumber chapter);
           EvConsoleError
             (Gemini.attemptFailed (pred Gemini.maxAttempts) chapter)]
| Retry_again r a e res evs :
    generateContent h r = Rejected e ->
    Gemini.isFatalError e = false ->
    (a < Gemini.maxAttempts)%nat ->
    Retry h chapter (S r) (S a) res evs ->
    Retry h chapter r a res
          (EvGenerateContent (ChapterOutline.chapterNumber chapter)
           :: EvConsoleError (Gemini.attemptFailed (pred a) chapter)
           :: EvSleep (delay a) :: evs).



(** The world reached from [w] by the actions [evs] of code that leaves
    [generatingProjectId] and the wake-lock ref alone: the functional updates
    are applied in order to the latest collection. *)
Definition replay (w : World) (evs : list Event) : World :=
  mkWorld (fold_left (fun ps u => App.applyUpdater u ps) (updates evs)
                     (projects w))
          (generatingProjectId w) (wakeLockRef w)
          (requests w + length (generated evs)) (trace w ++ evs).

(** One iteration of the chapter loop that reaches the [try] statement, seen
    from outside: the actions performed and the locals afterwards. *)
Inductive Attempt (h : Host) (chapOutline : ChapterOutline.t)
    (projectId : string) (st : App.Locals) (r : nat)
  : list Event -> App.Locals -> Prop :=
| Attempt_written content evs :
    Retry h chapOutline r 1 (Returned content) evs ->
    Attempt h chapOutline projectId st r
      (evs ++ [EvSetProjects
                 (UpdChapterWritten projectId
                    (ChapterOutline.chapterNumber chapOutline) content
                    (dateNow h (r + length (generated evs))))])
      (App.mkLocals
         (App.markWritten (App.currentChapters st)
            (ChapterOutline.chapterNumber chapOutline) content)
         (App.hasFatalError st))
| Attempt_failed e evs :
    Retry h chapOutline r 1 (Thrown e) evs ->
    App.isFatal e = false ->
    Attempt h chapOutline projectId st r
      (evs ++ [EvConsoleError
                 (App.errorGenerating (ChapterOutline.chapterNumber chapOutline));
               EvSetProjects
                 (UpdChapterFailed projectId
                    (ChapterOutline.chapterNumber chapOutline) false)])
      st
| Attempt_fatal e evs :
    Retry h chapOutline r 1 (Thrown e) evs ->
    App.isFatal e = true ->
    Attempt h chapOutline projectId st r
      (evs ++ [EvConsoleError
                 (App.errorGenerating (ChapterOutline.chapterNumber chapOutline));
               EvAlert (App.generationStopped e);
               EvSetProjects
                 (UpdChapterFailed projectId
                    (ChapterOutline.chapterNumber chapOutline) true)])
      (App.mkLocals (App.currentChapters st) true).

(** The chapter loop, seen from outside. *)
Inductive Loop (h : Host) (projectId : string)
  : list ChapterOutline.t -> App.Locals -> nat -> list Event -> App.Locals
    -> Prop :=
| Loop_end st r : Loop h projectId [] st r [] st
| Loop_continue chapOutline rest st r evs st' :
    App.alreadyDone
      (App.findChapter (App.currentChapters st)
         (ChapterOutline.chapterNumber chapOutline)) = true ->
    Loop h projectId rest st r evs st' ->
    Loop h projectId (chapOutline :: rest) st r evs st'
| Loop_break chapOutline rest st r :
    App.alreadyDone
      (App.findChapter (App.currentChapters st)
         (ChapterOutline.chapterNumber chapOutline)) = false ->
    App.hasFatalError st = true ->
    Loop h projectId (chapOutline :: rest) st r [] st
| Loop_attempt chapOutline rest st r evs1 st1 evs2 st2 :
    App.alreadyDone
      (App.findChapter (App.currentChapters st)
         (ChapterOutline.chapterNumber chapOutline)) = false ->
    App.hasFatalError st = false ->
    Attempt h chapOutline projectId st r evs1 st1 ->
    Loop h projectId rest st1 (r + length (generated evs1)) evs2 st2 ->
    Loop h projectId (chapOutline :: rest) st r (evs1 ++ evs2) st2.

(** The actions of [requestWakeLock] in the world [w]. *)
Definition acquireEvents (h : Host) (w : World) : list Event :=
  if wakeLockInNavigator h then
    EvWakeLockRequest
    :: match wakeLockRequest h (wakeLockRequestsMade w) with
       | Some _ => []
       | None => [EvConsoleError
                    (App.wakeLockFailed (newError "NotAllowedError"))]
       end
  else [].

(** The sentinel obtained by [requestWakeLock] in the world [w], if any. *)
Definition acquired (h : Host) (w : World) : option WakeLockSentinel :=
  if wakeLockInNavigator h then wakeLockRequest h (wakeLockRequestsMade w)
  else None.

(** The wake-lock ref after [requestWakeLock]. *)
Definition held (h : Host) (w : World) : option WakeLockSentinel :=
  match acquired h w with
  | Some s => Some s
  | None => wakeLockRef w
  end.

(** The actions of [releaseWakeLock] when the ref holds [current]. *)
Definition releaseEvents (h : Host) (current : option WakeLockSentinel)
  : list Event :=
  match current with
  | Some s =>
      EvWakeLockRelease s
      :: (if wakeLockRelease h s then []
          else [EvConsoleError
                  (App.wakeLockReleaseFailed (newError "release failed"))])
  | None => []
  end.

(** The wake-lock ref after [releaseWakeLock]. *)
Definition afterRelease (h : Host) (current : option WakeLockSentinel)
  : option WakeLockSentinel :=
  match current with
  | Some s => if wakeLockRelease h s then None else Some s
  | None => None
  end.

(** The chapter array a run starts from. *)
Definition startingChapters (project : BookProject.t) (outline : BookOutline.t)
  : list ChapterContent.t :=
  if (0 <? length (BookProject.chapters project))%nat
  then BookProject.chapters project
  else App.initialChapters outline.

(** The write made at the start of a run. *)
Definition startingWrite (project : BookProject.t) (outline : BookOutline.t)
  : Updater :=
  UpdReplaceProject
    (BookProject.withChapters project (startingChapters project outline)).

(** The actions of a whole run whose chapter loop performs [loopEvs]. *)
Definition runEvents (h : Host) (w : World) (projectId : string)
    (project : BookProject.t) (outline : BookOutline.t)
    (loopEvs : list Event) : list Event :=
  EvSetGeneratingProjectId (Some projectId)
  :: acquireEvents h w
  ++ EvSetProjects (startingWrite project outline)
  :: loopEvs
  ++ EvSetGeneratingProjectId None
  :: releaseEvents h (held h w).

(** [u] rewrites, in project [projectId], the chapters numbered [n]. *)
Definition chapterUpdate (projectId : string) (n : Z) (u : Updater) : Prop :=
  match u with
  | UpdReplaceProject _ => False
  | UpdChapterWritten projectId' n' _ _ => projectId' = projectId /\ n' = n
  | UpdChapterFailed projectId' n' _ => projectId' = projectId /\ n' = n
  end.

(** The stored result for chapter [n] of project [projectId]. *)
Definition stored (ps : list BookProject.t) (projectId : string) (n : Z)
  : option ChapterContent.t :=
  match App.findProject ps projectId with
  | Some p => App.findChapter (BookProject.chapters p) n
  | None => None
  end.

(** The actions performed before the first backend request. *)
Fixpoint beforeGeneration (evs : list Event) : list Event :=
  match evs with
  | [] => []
  | EvGenerateContent _ :: _ => []
  | ev :: rest => ev :: beforeGeneration rest
  end.

(** [cs] has an entry for exactly the chapter numbers of [outline]. *)
Definition reconciled (outline : BookOutline.t) (cs : list ChapterContent.t)
  : Prop :=
  forall n,
    In n (map ChapterContent.chapterNumber cs)
    <-> In n (map ChapterOutline.chapterNumber (BookOutline.chapters outline)).

(** The editor's title edit: [handleTitleBlur] calls
    [onUpdateProject({ ...project, title, lastModified: Date.now() })] with
    the project it was rendered with. *)
Definition titleEdit (project : BookProject.t) (title : string) (now : Z)
  : Updater :=
  UpdReplaceProject
    (BookProject.mk (BookProject.id project) title now
       (BookProject.sources project) (BookProject.outline project)
       (BookProject.chapters project) (BookProject.currentStep project)
       (BookProject.seriesId project) (BookProject.seriesIndex project)
       (BookProject.audioVoice project)).

(** [w] with another value of [generatingProjectId]. *)
Definition withGenerating (w : World) (g : option string) : World :=
  mkWorld (projects w) g (wakeLockRef w) (requests w) (trace w).

(* ================================================================== *)
(** ** Further observations on runs *)

(** The backend requests of a pass over [todo] that makes [ks_i] requests
    for its i-th chapter. *)
Definition requestsPer (todo : list ChapterOutline.t) (ks : list nat)
  : list Z :=
  flat_map (fun ck => repeat (ChapterOutline.chapterNumber (fst ck)) (snd ck))
           (combine todo ks).

(** The numbers and titles of a chapter array, in order. *)
Definition shape (cs : list ChapterContent.t) : list (Z * string) :=
  map (fun c => (ChapterContent.chapterNumber c, ChapterContent.title c)) cs.

(** What a functional update makes of one project of the collection. *)
Definition updated (u : Updater) (p : BookProject.t) : BookProject.t :=
  match u with
  | UpdReplaceProject updatedProject =>
      if String.eqb (BookProject.id p) (BookProject.id updatedProject)
      then updatedProject else p
  | UpdChapterWritten projectId n content now =>
      if negb (String.eqb (BookProject.id p) projectId) then p
      else BookProject.withChaptersAt p
             (App.markWritten (BookProject.chapters p) n content) now
  | UpdChapterFailed projectId n isFatal =>
      if negb (String.eqb (BookProject.id p) projectId) then p
      else BookProject.withChapters p
             (App.markWritten (BookProject.chapters p) n
                (App.failedContent isFatal))
  end.

(** The functional updates of a whole run, in order. *)
Definition runUpdates (project : BookProject.t) (outline : BookOutline.t)
    (loopEvs : list Event) : list Updater :=
  startingWrite project outline :: updates loopEvs.

(** What a chapter update makes of the chapter array of its project. *)
Definition chaptersAfter (u : Updater) (cs : list ChapterContent.t)
  : list ChapterContent.t :=
  match u with
  | UpdReplaceProject _ => cs
  | UpdChapterWritten _ n content _ => App.markWritten cs n content
  | UpdChapterFailed _ n isFatal =>
      App.markWritten cs n (App.failedContent isFatal)
  end.

(** Chapter [n] passes the resumption test on the array [cs]. *)
Definition isDone (cs : list ChapterContent.t) (n : Z) : Prop :=
  App.alreadyDone (App.findChapter cs n) = true.

(* ================================================================== *)
(** ** services/gemini.ts, the other generators *)

(** The parts of a [GenerateContentResponse] that the services read. *)
Module GenAI.
Record InlineData := mkInlineData { data : option string }.
Record Part := mkPart { inlineData : option InlineData }.
Record Content := mkContent { parts : option (list Part) }.
Record Candidate := mkCandidate { content : option Content }.
Record PromptFeedback := mkPromptFeedback { blockReason : option string }.
Record Response := mkResponse {
  text : option string;
  candidates : option (list Candidate);
  promptFeedback : option PromptFeedback }.

(** What a call of [ai.models.generateContent] settles to. *)
Inductive Settled :=
| Fulfilled (response : Response)
| Failed (error : JsError.t).
End GenAI.

Module GeminiServices.

(** [await ai.models.generateContent(...)], answered by [settled]. *)
Definition generate (settled : GenAI.Settled) : M GenAI.Response :=
  fun w =>
    let w' := mkWorld (projects w) (generatingProjectId w) (wakeLockRef w)
                      (S (requests w)) (trace w) in
    match settled with
    | GenAI.Fulfilled response => (Returned response, w')
    | GenAI.Failed error => (Thrown error, w')
    end.

Definition transcribeAudio (settled : GenAI.Settled) : M string :=
  tryCatch
    (response <- generate settled ;;
     ret (orElse (GenAI.text response) ""))
    (fun error =>
       consoleError "Transcription error:" ;;
       throw (newError "Failed to transcribe audio.")).

(** [generateOutline]; [jsonParse] stands for [JSON.parse], which returns a
    value or throws. *)
Definition generateOutline (jsonParse : string -> BookOutline.t + JsError.t)
    (settled : GenAI.Settled) : M BookOutline.t :=
  tryCatch
    (response <- generate settled ;;
     match GenAI.text response with
     | Some text =>
         if truthy text then
           match jsonParse text with
           | inl outline => ret outline
           | inr error => throw error
           end
         else throw (newError "No response generated")
     | None => throw (newError "No response generated")
     end)
    (fun error =>
       consoleError "Outline generation error:" ;;
       if Gemini.isFatalError error then throw error
       else throw (newError "Failed to generate outline.")).

(** [for (const part of candidate.content.parts)
       if (part.inlineData && part.inlineData.data) return ...] *)
Fixpoint firstInParts (parts : list GenAI.Part) : option string :=
  match parts with
  | [] => None
  | part :: rest =>
      match GenAI.inlineData part with
      | Some inline =>
          match GenAI.data inline with
          | Some data => if truthy data then Some data else firstInParts rest
          | None => firstInParts rest
          end
      | None => firstInParts rest
      end
  end.

(** [for (const candidate of response.candidates)
       if (candidate.content && candidate.content.parts) ...] *)
Fixpoint firstInCandidates (candidates : list GenAI.Candidate)
  : option string :=
  match candidates with
  | [] => None
  | candidate :: rest =>
      match GenAI.content candidate with
      | Some content =>
          match GenAI.parts content with
          | Some parts =>
              match firstInParts parts with
              | Some data => Some data
              | None => firstInCandidates rest
              end
          | None => firstInCandidates rest
          end
      | None => firstInCandidates rest
      end
  end.

Definition generateImage (settled : GenAI.Settled) : M string :=
  tryCatch
    (response <- generate settled ;;
     match match GenAI.candidates response with
           | Some candidates => firstInCandidates candidates
           | None => None
           end with
     | Some data => ret data
     | None =>
         match match GenAI.promptFeedback response with
               | Some feedback => GenAI.blockReason feedback
               | None => None
               end with
         | Some reason =>
             if truthy reason then
               throw (newError ("Image generation blocked: " ++ reason))
             else throw (newError "No image data found in response.")
         | None => throw (newError "No image data found in response.")
         end
     end)
    (fun error =>
       consoleError "Image generation error:" ;;
       if Gemini.isFatalError error then throw error
       else throw (newError "Failed to generate image.")).

Definition refineChapterText (settled : GenAI.Settled)
    (currentContent : string) : M string :=
  tryCatch
    (response <- generate settled ;;
     ret (orElse (GenAI.text response) currentContent))
    (fun error =>
       consoleError "Refine text error:" ;;
       if Gemini.isFatalError error then throw error
       else throw error).

(** [response.candidates?.[0]?.content?.parts?.[0]?.inlineData?.data] *)
Definition firstAudio (response : GenAI.Response) : option string :=
  match GenAI.candidates response with
  | Some (candidate :: _) =>
      match GenAI.content candidate with
      | Some content =>
          match GenAI.parts content with
          | Some (part :: _) =>
              match GenAI.inlineData part with
              | Some inline => GenAI.data inline
              | None => None
              end
          | _ => None
          end
      | None => None
      end
  | _ => None
  end.

Definition generateSpeech (settled : GenAI.Settled) : M string :=
  tryCatch
    (response <- generate settled ;;
     match firstAudio response with
     | Some audioData =>
         if truthy audioData then ret audioData
         else throw (newError "No audio data generated")
     | None => throw (newError "No audio data generated")
     end)
    (fun error =>
       consoleError "TTS generation error:" ;;
       ret ""%string).

End GeminiServices.

(** The non-empty inline data of a response, in the order of its candidates
    and of their parts. *)
Definition inlineImages (candidates : list GenAI.Candidate) : list string :=
  flat_map
    (fun candidate =>
       match GenAI.content candidate with
       | Some content =>
           match GenAI.parts content with
           | Some parts =>
               flat_map
                 (fun part =>
                    match GenAI.inlineData part with
                    | Some inline =>
                        match GenAI.data inline with
                        | Some data => if truthy data then [data] else []
                        | None => []
                        end
                    | None => []
                    end)
                 parts
           | None => []
           end
       | None => []
       end)
    candidates.

(** The console messages of a trace, in order. *)
Definition consoleErrors (evs : list Event) : list string :=
  flat_map (fun ev => match ev with EvConsoleError m => [m] | _ => [] end) evs.

(* ================================================================== *)
(** ** App.tsx, the handlers of the project collection *)

Inductive AppView := DASHBOARD | EDITOR.

Module AppHandlers.

(** The navigation state of [App]. *)
Record Nav := mkNav { view : AppView; activeProjectId : option string }.

(** [setProjects(prev => f(prev))] for the updates that are not part of the
    generation pipeline. *)
Definition setProjectsTo (f : list BookProject.t -> list BookProject.t)
  : M unit :=
  fun w =>
    (Returned tt,
     mkWorld (f (projects w)) (generatingProjectId w) (wakeLockRef w)
             (requests w) (trace w)).

(** [handleCreateProject]; [uuid] and [now] are what [crypto.randomUUID()]
    and [Date.now()] return. *)
Definition handleCreateProject (uuid : string) (now : Z) (nav : Nav)
  : M Nav :=
  let newProject :=
    BookProject.mk uuid "Untitled Manuscript" now [] None [] 0
                   None None None in
  setProjectsTo (fun prev => newProject :: prev) ;;
  ret (mkNav EDITOR (Some (BookProject.id newProject))).

(** [prev.filter(p => p.id !== id)] *)
Definition withoutProject (id : string) (prev : list BookProject.t)
  : list BookProject.t :=
  filter (fun p => negb (String.eqb (BookProject.id p) id)) prev.

(** [handleDeleteProject]; [confirmed] is the answer to [window.confirm]. *)
Definition handleDeleteProject (id : string) (confirmed : bool) (nav : Nav)
  : M Nav :=
  if confirmed then
    (setProjectsTo (withoutProject id) ;;
     match activeProjectId nav with
     | Some active =>
         if String.eqb active id then ret (mkNav DASHBOARD None)
         else ret nav
     | None => ret nav
     end)
  else ret nav.

Definition handleSelectProject (project : BookProject.t) (nav : Nav) : Nav :=
  mkNav EDITOR (Some (BookProject.id project)).

Definition handleBackToDashboard (nav : Nav) : Nav := mkNav DASHBOARD None.

(** [x || d] on an optional string that may be empty. *)
Definition truthyOption (x : option string) : bool :=
  match x with
  | Some s => truthy s
  | None => false
  end.

(** [`Chapter ${c.chapterNumber}: ${c.title}\n${c.summary}`] *)
Definition chapterSummary (c : ChapterOutline.t) : string :=
  "Chapter " ++ numberToString (ChapterOutline.chapterNumber c) ++ ": "
  ++ ChapterOutline.title c ++ "
" ++ ChapterOutline.summary c.

(** [array.join(separator)] *)
Fixpoint join (separator : string) (items : list string) : string :=
  match items with
  | [] => ""
  | [item] => item
  | item :: rest => item ++ separator ++ join separator rest
  end.

(** The text of the context source of a sequel. *)
Definition contextContent (originalProject : BookProject.t) : string :=
  "PREVIOUS BOOK CONTEXT:
Title: " ++ BookProject.title originalProject ++ "
Description: "
  ++ orElse (option_map BookOutline.description
               (BookProject.outline originalProject))
            "No description available."
  ++ "

CHAPTER SUMMARIES:
"
  ++ orElse (option_map
               (fun outline =>
                  join "

" (map chapterSummary (BookOutline.chapters outline)))
               (BookProject.outline originalProject))
            "No chapters available."
  ++ "
".

(** [handleCreateSequel]; [uuid k] is what the k-th call of
    [crypto.randomUUID()] returns. *)
Definition handleCreateSequel (uuid : nat -> string) (now : Z)
    (originalProject : BookProject.t) (nav : Nav) : M Nav :=
  let hasSeries := truthyOption (BookProject.seriesId originalProject) in
  let seriesId :=
    if hasSeries then orElse (BookProject.seriesId originalProject) ""
    else uuid 0%nat in
  let used := if hasSeries then 0%nat else 1%nat in
  let nextIndex :=
    (match BookProject.seriesIndex originalProject with
     | Some i => if i =? 0 then 1 else i
     | None => 1
     end) + 1 in
  (if negb hasSeries then
     App.handleUpdateProject
       (BookProject.mk (BookProject.id originalProject)
          (BookProject.title originalProject)
          (BookProject.lastModified originalProject)
          (BookProject.sources originalProject)
          (BookProject.outline originalProject)
          (BookProject.chapters originalProject)
          (BookProject.currentStep originalProject)
          (Some seriesId) (Some 1)
          (BookProject.audioVoice originalProject))
   else ret tt) ;;
  let contextSource :=
    Source.mk (uuid used) TEXT (contextContent originalProject) None
              ("Context: " ++ BookProject.title originalProject) None false in
  let newProject :=
    BookProject.mk (uuid (S used))
      ("Sequel to " ++ BookProject.title originalProject) now
      [contextSource] None [] 0 (Some seriesId) (Some nextIndex) None in
  setProjectsTo (fun prev => newProject :: prev) ;;
  ret (mkNav EDITOR (Some (BookProject.id newProject))).

End AppHandlers.

(* ================================================================== *)
(** ** components/ProjectEditor.tsx, the handlers *)

(** [Partial<BookProject>], for the fields the editor updates. *)
Module Partial.
Record t := mk {
  title : option string;
  sources : option (list Source.t);
  outline : option BookOutline.t;
  chapters : option (list ChapterContent.t);
  currentStep : option Z;
  audioVoice : option string }.

Definition empty : t := mk None None None None None None.
End Partial.

Module ProjectEditorHandlers.

(** The local state of the editor. *)
Record Local := mkLocal {
  isProcessing : bool;
  localTitle : string;
  selectedStyle : WritingStyle;
  error : option string }.

Definition override {A} (updated : option A) (current : A) : A :=
  match updated with
  | Some a => a
  | None => current
  end.

(** [{ ...project, ...updates, lastModified: now }] *)
Definition spread (project : BookProject.t) (updates : Partial.t) (now : Z)
  : BookProject.t :=
  BookProject.mk (BookProject.id project)
    (override (Partial.title updates) (BookProject.title project))
    now
    (override (Partial.sources updates) (BookProject.sources project))
    (match Partial.outline updates with
     | Some outline => Some outline
     | None => BookProject.outline project
     end)
    (override (Partial.chapters updates) (BookProject.chapters project))
    (override (Partial.currentStep updates) (BookProject.currentStep project))
    (BookProject.seriesId project) (BookProject.seriesIndex project)
    (match Partial.audioVoice updates with
     | Some voice => Some voice
     | None => BookProject.audioVoice project
     end).

(** [updateProject]; [now] is what [Date.now()] returns. *)
Definition updateProject (now : Z) (project : BookProject.t)
    (updates : Partial.t) : M unit :=
  App.handleUpdateProject (spread project updates now).

Definition handleTitleBlur (now : Z) (project : BookProject.t)
    (local : Local) : M unit :=
  if String.eqb (localTitle local) (BookProject.title project) then ret tt
  else updateProject now project
         (Partial.mk (Some (localTitle local)) None None None None None).

Definition handleCreateOutline
    (jsonParse : string -> BookOutline.t + JsError.t)
    (settled : GenAI.Settled) (now : Z) (project : BookProject.t)
    (local : Local) : M Local :=
  if (length (BookProject.sources project) =? 0)%nat then ret local
  else
    tryCatch
      (generatedOutline <- GeminiServices.generateOutline jsonParse settled ;;
       updateProject now project
         (Partial.mk (Some (BookOutline.title generatedOutline)) None
                     (Some generatedOutline) (Some []) (Some 1) None) ;;
       ret (mkLocal false (BookOutline.title generatedOutline)
                    (selectedStyle local) None))
      (fun e =>
         ret (mkLocal false (localTitle local) (selectedStyle local)
                (Some (orElse (JsError.message e)
                         "Failed to generate outline.")))).

Definition handleUpdateOutline (now : Z) (project : BookProject.t)
    (updatedOutline : BookOutline.t) : M unit :=
  updateProject now project
    (Partial.mk None None (Some updatedOutline) None None None).

Definition hasOutline (project : BookProject.t) : bool :=
  match BookProject.outline project with
  | Some _ => true
  | None => false
  end.

Definition navigateStep (now : Z) (project : BookProject.t) (step : Z)
  : M unit :=
  if step <? BookProject.currentStep project then
    updateProject now project
      (Partial.mk None None None None (Some step) None)
  else if step =? BookProject.currentStep project then ret tt
  else
    ((if (step =? 1) && hasOutline project then
        updateProject now project
          (Partial.mk None None None None (Some 1) None)
      else ret tt) ;;
     (if (step =? 2) && hasOutline project
         && (0 <? length (BookProject.chapters project))%nat then
        updateProject now project
          (Partial.mk None None None None (Some 2) None)
      else ret tt)).

(** The click on a button of the step bar:
    [() => canClick && navigateStep(step.id)]. *)
Definition stepClick (now : Z) (project : BookProject.t) (stepId : Z)
  : M unit :=
  let isActive := BookProject.currentStep project =? stepId in
  let isCompleted := stepId <? BookProject.currentStep project in
  if isCompleted || isActive then navigateStep now project stepId
  else ret tt.

(** The "Start Writing Manuscript" button, shown on step 1 of a project
    with an outline. *)
Definition startWriting (now : Z) (project : BookProject.t) : M unit :=
  updateProject now project
    (Partial.mk None None None None (Some 2) None).

(** [onChapterUpdate] of the reader. *)
Definition onChapterUpdate (now : Z) (project : BookProject.t)
    (updatedChapter : ChapterContent.t) : M unit :=
  let newChapters :=
    map (fun c =>
           if ChapterContent.chapterNumber c
              =? ChapterContent.chapterNumber updatedChapter
           then updatedChapter else c)
        (BookProject.chapters project) in
  updateProject now project
    (Partial.mk None None None (Some newChapters) None None).

End ProjectEditorHandlers.

(* ================================================================== *)
(** ** components/OutlineBuilder.tsx *)

Module OutlineBuilder.

(** [{ ...outline, chapters }] *)
Definition withChapters (outline : BookOutline.t)
    (chapters : list ChapterOutline.t) : BookOutline.t :=
  BookOutline.mk (BookOutline.title outline) (BookOutline.description outline)
                 chapters (BookOutline.coverImage outline)
                 (BookOutline.backCoverImage outline).

(** The outline that [addChapter] hands to [onUpdateOutline]. *)
Definition addChapter (outline : BookOutline.t) : BookOutline.t :=
  let nextNum := Z.of_nat (length (BookOutline.chapters outline)) + 1 in
  let newChapter :=
    ChapterOutline.mk nextNum "New Chapter"
                      "Description of the new chapter..." in
  withChapters outline (BookOutline.chapters outline ++ [newChapter]).

(** [chapters.filter((_, i) => i !== index)], counting from [i]. *)
Fixpoint removeAt (i : nat) (index : Z) (chapters : list ChapterOutline.t)
  : list ChapterOutline.t :=
  match chapters with
  | [] => []
  | c :: rest =>
      if Z.of_nat i =? index then removeAt (S i) index rest
      else c :: removeAt (S i) index rest
  end.

(** [chapters.map((c, i) => ({ ...c, chapterNumber: i + 1 }))], counting
    from [i]. *)
Fixpoint reindexFrom (i : nat) (chapters : list ChapterOutline.t)
  : list ChapterOutline.t :=
  match chapters with
  | [] => []
  | c :: rest =>
      ChapterOutline.mk (Z.of_nat i + 1) (ChapterOutline.title c)
                        (ChapterOutline.summary c)
      :: reindexFrom (S i) rest
  end.

(** The outline that [deleteChapter] hands to [onUpdateOutline], if any;
    [confirmed] is the answer to [window.confirm]. *)
Definition deleteChapter (outline : BookOutline.t) (index : Z)
    (confirmed : bool) : option BookOutline.t :=
  if confirmed then
    Some (withChapters outline
            (reindexFrom 0 (removeAt 0 index (BookOutline.chapters outline))))
  else None.

(** [newChapters[index] = { ...newChapters[index], title, summary }] for an
    index inside the array. *)
Fixpoint setAt (index : nat) (title summary : string)
    (chapters : list ChapterOutline.t) : list ChapterOutline.t :=
  match chapters, index with
  | [], _ => []
  | c :: rest, O =>
      ChapterOutline.mk (ChapterOutline.chapterNumber c) title summary :: rest
  | c :: rest, S index' => c :: setAt index' title summary rest
  end.

(** What [saveChapter] does: nothing without [editData]; for the index of a
    row it hands an outline to [onUpdateOutline]; for any other index the
    assignment creates an entry without [chapterNumber], which is not a
    [ChapterOutline]. *)
Inductive Saved :=
| NotSaved
| SavedOutline (outline : BookOutline.t)
| Malformed.

Definition saveChapter (outline : BookOutline.t) (index : Z)
    (editData : option (string * string)) : Saved :=
  match editData with
  | None => NotSaved
  | Some (title, summary) =>
      if (0 <=? index)
         && (index <? Z.of_nat (length (BookOutline.chapters outline))) then
        SavedOutline
          (withChapters outline
             (setAt (Z.to_nat index) title summary
                    (BookOutline.chapters outline)))
      else Malformed
  end.

End OutlineBuilder.

(** The chapter numbers are 1, 2, ... in order. *)
Definition dense (chapters : list ChapterOutline.t) : Prop :=
  map ChapterOutline.chapterNumber chapters
  = map (fun i => Z.of_nat i) (seq 1 (length chapters)).

(* ================================================================== *)
(** ** components/SourceInput.tsx, the notes *)

Module SourceInput.

(** The part of the local state that [handleSaveNote] touches. *)
Record Local := mkLocal {
  noteText : string;
  editingSourceId : option string;
  isAddingNote : bool }.

(** [s.name.includes('(Edited)') ? s.name : `${s.name} (Edited)`] *)
Definition editedName (name : string) : string :=
  if includes name "(Edited)" then name else name ++ " (Edited)".

(** The function that the edit branch of [handleSaveNote] maps over the
    sources. *)
Definition saveEdit (editingSourceId noteText : string) (s : Source.t)
  : Source.t :=
  if negb (String.eqb (Source.id s) editingSourceId) then s
  else
    match Source.type s with
    | AUDIO =>
        Source.mk (Source.id s) (Source.type s) (Source.content s)
                  (Source.mimeType s) (editedName (Source.name s))
                  (Some noteText) (Source.isProcessing s)
    | _ =>
        Source.mk (Source.id s) (Source.type s) noteText
                  (Source.mimeType s) (editedName (Source.name s))
                  (Source.transcription s) (Source.isProcessing s)
    end.

(** The note created by the other branch. *)
Definition newNote (newId today noteText : string) : Source.t :=
  Source.mk newId TEXT noteText None ("Text Note - " ++ today) None false.

(** [handleSaveNote].  [blank] is the value of [!noteText.trim()]; [newId]
    and [today] are what [generateId()] and
    [new Date().toLocaleDateString()] return.  The result is the list handed
    to [onUpdate], if any, and the local state afterwards. *)
Definition handleSaveNote (blank : bool) (newId today : string)
    (sources : list Source.t) (local : Local)
  : option (list Source.t) * Local :=
  if blank then (None, local)
  else
    (Some
       match editingSourceId local with
       | Some id =>
           if truthy id then map (saveEdit id (noteText local)) sources
           else sources ++ [newNote newId today (noteText local)]
       | None => sources ++ [newNote newId today (noteText local)]
       end,
     mkLocal "" None false).

(** The list that [removeSource] hands to [onUpdate]. *)
Definition removeSource (id : string) (sources : list Source.t)
  : list Source.t :=
  filter (fun s => negb (String.eqb (Source.id s) id)) sources.

End SourceInput.

(* ================================================================== *)
(** ** The reader: selecting and editing a chapter *)

Module BookReader.

(** The part of the local state that selection and editing touch. *)
Record Local := mkLocal {
  currentChapterIndex : Z;
  isEditing : bool;
  editContent : string;
  polishInstruction : string }.

(** [chapters[currentChapterIndex]] *)
Definition currentChapter (chapters : list ChapterContent.t) (local : Local)
  : option ChapterContent.t :=
  if currentChapterIndex local <? 0 then None
  else nth_error chapters (Z.to_nat (currentChapterIndex local)).

Definition startEditing (chapters : list ChapterContent.t) (local : Local)
  : Local :=
  match currentChapter chapters local with
  | None => local
  | Some c =>
      mkLocal (currentChapterIndex local) true (ChapterContent.content c)
              (polishInstruction local)
  end.

(** [saveEditing]: the chapter handed to [onChapterUpdate], if any, and the
    local state afterwards. *)
Definition saveEditing (chapters : list ChapterContent.t) (local : Local)
  : option ChapterContent.t * Local :=
  match currentChapter chapters local with
  | None => (None, local)
  | Some c =>
      (Some (ChapterContent.mk (ChapterContent.chapterNumber c)
               (ChapterContent.title c) (editContent local)
               (ChapterContent.isGenerating c)),
       mkLocal (currentChapterIndex local) false (editContent local)
               (polishInstruction local))
  end.

Definition cancelEditing (local : Local) : Local :=
  mkLocal (currentChapterIndex local) false (editContent local) "".

(** [handleChapterSelect(idx)], as far as this state goes. *)
Definition handleChapterSelect (idx : Z) (local : Local) : Local :=
  mkLocal idx (isEditing local) (editContent local) (polishInstruction local).

(** [setCurrentChapterIndex(prev => Math.max(0, prev - 1))] *)
Definition previous (local : Local) : Local :=
  mkLocal (Z.max 0 (currentChapterIndex local - 1)) (isEditing local)
          (editContent local) (polishInstruction local).

(** [setCurrentChapterIndex(prev => Math.min(chapters.length - 1, prev + 1))] *)
Definition next (chapters : list ChapterContent.t) (local : Local) : Local :=
  mkLocal (Z.min (Z.of_nat (length chapters) - 1)
                 (currentChapterIndex local + 1))
          (isEditing local) (editContent local) (polishInstruction local).

End BookReader.

(* ================================================================== *)
(** ** services/gemini.ts, the source material of a request *)

Module Prompt.

(** The parts pushed for the sources: [{ text }] and [{ inlineData }]. *)
Inductive Part :=
| Text (text : string)
| InlineData (data : string) (mimeType : string).

Definition newline : string := String (ascii_of_nat 10) EmptyString.

(** The strings of this development hold the UTF-8 bytes of the strings of
    the program, and JS measures and cuts a string in UTF-16 code units.  A
    character below U+10000 is one unit, whatever the number of its bytes;
    a character from U+10000 on, whose first byte is 240 or more, is two
    units, a surrogate pair.  The bytes 128 to 191 continue the character
    begun before them. *)
Definition isContinuation (c : ascii) : bool :=
  (128 <=? N_of_ascii c)%N && (N_of_ascii c <? 192)%N.

Definition isAstral (c : ascii) : bool := (240 <=? N_of_ascii c)%N.

Definition unitsOf (c : ascii) : nat :=
  if isContinuation c then 0%nat else if isAstral c then 2%nat else 1%nat.

(** [s.length] *)
Fixpoint units (s : string) : nat :=
  match s with
  | EmptyString => 0%nat
  | String c rest => (unitsOf c + units rest)%nat
  end.

(** The first unit of the surrogate pair of the character whose first byte
    is [c] and whose next bytes are at the head of [rest]: the high
    surrogate [0xD800 + ((codePoint - 0x10000) >> 10)], in the three bytes
    that stand for a surrogate on its own. *)
Definition highSurrogate (c : ascii) (rest : string) : string :=
  let byte k :=
    match String.get k rest with
    | Some t => N_of_ascii t
    | None => 128%N
    end in
  let high :=
    (55296 + ((N_of_ascii c mod 8) * 256 + (byte 0%nat mod 64) * 4
              + (byte 1%nat mod 64) / 16 - 64))%N in
  String (ascii_of_N 237)
    (String (ascii_of_N (128 + (high / 64) mod 64))
       (String (ascii_of_N (128 + high mod 64)) EmptyString)).

(** [s.slice(0, n)]: the characters of [s] as long as their units fit in
    [n]; of a character of two units that begins at unit [n - 1] the first
    unit is kept, a high surrogate on its own. *)
Fixpoint sliceTo (n : nat) (s : string) : string :=
  match s with
  | EmptyString => EmptyString
  | String c rest =>
      if isContinuation c then String c (sliceTo n rest)
      else
        match n with
        | O => EmptyString
        | S n' =>
            if isAstral c then
              match n' with
              | O => highSurrogate c rest
              | S n'' => String c (sliceTo n'' rest)
              end
            else String c (sliceTo n' rest)
        end
  end.

(** [s.slice(0, 5000)] *)
Definition slice (s : string) : string := sliceTo 5000 s.

(** One round of the loop over the sources in [writeChapter]. *)
Definition chapterSource (source : Source.t) : list Part :=
  match Source.type source with
  | TEXT =>
      [Text (newline ++ "[Source: " ++ Source.name source ++ "]: "
             ++ slice (Source.content source))]
  | AUDIO =>
      match Source.transcription source with
      | Some transcription =>
          if truthy transcription then
            [Text (newline ++ "[Source: " ++ Source.name source ++ "]: "
                   ++ slice transcription)]
          else []
      | None => []
      end
  | IMAGE =>
      [Text (newline ++ "[Source: " ++ Source.name source
             ++ " (Image Reference)]");
       InlineData (Source.content source)
                  (orElse (Source.mimeType source) "image/jpeg")]
  end.

(** One round of the loop over the sources in [generateOutline]. *)
Definition outlineSource (source : Source.t) : list Part :=
  match Source.type source with
  | TEXT =>
      [Text (newline ++ newline ++ "--- Source: " ++ Source.name source
             ++ " (Notes) ---" ++ newline ++ Source.content source)]
  | AUDIO =>
      match Source.transcription source with
      | Some transcription =>
          if truthy transcription then
            [Text (newline ++ newline ++ "--- Source: " ++ Source.name source
                   ++ " (Transcript) ---" ++ newline ++ transcription)]
          else []
      | None => []
      end
  | IMAGE =>
      [Text (newline ++ newline ++ "--- Source: " ++ Source.name source
             ++ " (Visual Reference) ---");
       InlineData (Source.content source)
                  (orElse (Source.mimeType source) "image/jpeg")]
  end.

(** The parts that follow the instructions in the two requests. *)
Definition chapterSources (sources : list Source.t) : list Part :=
  flat_map chapterSource sources.

Definition outlineSources (sources : list Source.t) : list Part :=
  flat_map outlineSource sources.

(** The text that a source brings to a request: its notes or its
    transcript. *)
Definition material (source : Source.t) : option string :=
  match Source.type source with
  | TEXT => Some (Source.content source)
  | AUDIO =>
      match Source.transcription source with
      | Some transcription =>
          if truthy transcription then Some transcription else None
      | None => None
      end
  | IMAGE => None
  end.

Definition inline (parts : list Part) : list (string * string) :=
  flat_map (fun p => match p with
                     | InlineData data mimeType => [(data, mimeType)]
                     | Text _ => []
                     end) parts.

Definition texts (parts : list Part) : list string :=
  flat_map (fun p => match p with
                     | Text text => [text]
                     | InlineData _ _ => []
                     end) parts.

End Prompt.

(* ================================================================== *)
(** ** The pipeline on rejections that are not [Error] objects *)

(** [catch (error: any)]: what the backend rejects with need not be an
    [Error].  Above, a caught value has a string [message] or none, as the
    errors of the SDK have.  This module follows the same code for a
    [message] of any kind, to see what the two classifications do with a
    value on which [includes] is not a function. *)
Module Untyped.

(** What [error.message] can be. *)
Inductive Message :=
| Undefined
| Str (s : string)
| NotAString (isTruthy : bool).
(** [NotAString]: a number, a boolean, a plain object; [isTruthy] tells
    whether [message || ''] keeps it. *)

Record Caught := mkCaught { message : Message; status : option Z }.

(** The caught values of the typed pipeline. *)
Definition ofError (e : JsError.t) : Caught :=
  mkCaught match JsError.message e with
           | Some s => Str s
           | None => Undefined
           end
           (JsError.status e).

(** The [TypeError] of a call of something that is not a function. *)
Definition typeError (callee : string) : JsError.t :=
  newError (callee ++ " is not a function").

(** [e.status === n] *)
Definition statusIs (e : Caught) (n : Z) : bool :=
  match status e with
  | Some s => s =? n
  | None => false
  end.

(** What [ai.models.generateContent] settles to. *)
Inductive Settled :=
| Resolved (text : option string)
| Rejected (error : Caught).

Inductive Completion (A : Type) :=
| Normal (a : A)
| Abrupt (e : Caught)
| NoFuel.
Arguments Normal {A} a.
Arguments Abrupt {A} e.
Arguments NoFuel {A}.

Definition Run (A : Type) : Type := World -> Completion A * World.

Definition ret {A} (a : A) : Run A := fun w => (Normal a, w).

Definition bind {A B} (m : Run A) (k : A -> Run B) : Run B :=
  fun w =>
    match m w with
    | (Normal a, w') => k a w'
    | (Abrupt e, w') => (Abrupt e, w')
    | (NoFuel, w') => (NoFuel, w')
    end.

Definition throw {A} (e : Caught) : Run A := fun w => (Abrupt e, w).

(** [try { body } catch (e) { handler }] *)
Definition tryCatch {A} (body : Run A) (handler : Caught -> Run A) : Run A :=
  fun w =>
    match body w with
    | (Abrupt e, w') => handler e w'
    | r => r
    end.

(** A step of the typed pipeline. *)
Definition lift {A} (m : M A) : Run A :=
  fun w =>
    match m w with
    | (Returned a, w') => (Normal a, w')
    | (Thrown e, w') => (Abrupt (ofError e), w')
    | (OutOfFuel, w') => (NoFuel, w')
    end.

Declare Scope untyped_scope.
Notation "x <- m ;; k" := (bind m (fun x => k))
  (at level 100, m at next level, right associativity) : untyped_scope.
Notation "m ;; k" := (bind m (fun _ => k))
  (at level 100, right associativity) : untyped_scope.
Local Open Scope untyped_scope.

(** [isFatalError] of gemini.ts: [msg] is [error?.message || ''], and
    [msg.includes] is called only when the status does not decide. *)
Definition isFatalError (error : Caught) : Run bool :=
  if statusIs error 403 || statusIs error 401 then ret true
  else
    match message error with
    | Undefined => ret false
    | Str s =>
        let msg := if truthy s then s else ""%string in
        ret (includes msg "leaked" || includes msg "API key"
             || includes msg "PERMISSION_DENIED")
    | NotAString true => throw (ofError (typeError "msg.includes"))
    | NotAString false => ret false
    end.

Definition requestContent (backend : nat -> Settled)
    (chapter : ChapterOutline.t) : Run (option string) :=
  fun w =>
    let w' := mkWorld (projects w) (generatingProjectId w) (wakeLockRef w)
                      (S (requests w))
                      (trace w ++ [EvGenerateContent
                                     (ChapterOutline.chapterNumber chapter)]) in
    match backend (requests w) with
    | Resolved text => (Normal text, w')
    | Rejected error => (Abrupt error, w')
    end.

(** The [while (attempt < maxAttempts)] loop of [writeChapter]. *)
Fixpoint retryLoop (backend : nat -> Settled) (chapter : ChapterOutline.t)
                   (fuel : nat) (attempt : nat) : Run string :=
  if (attempt <? Gemini.maxAttempts)%nat then
    match fuel with
    | O => fun w => (NoFuel, w)
    | S fuel' =>
        tryCatch
          (text <- requestContent backend chapter ;;
           ret (orElse text ""))
          (fun error =>
             lift (consoleError (Gemini.attemptFailed attempt chapter)) ;;
             fatal <- isFatalError error ;;
             if fatal then throw error
             else
               let attempt := S attempt in
               if (Gemini.maxAttempts <=? attempt)%nat then
                 throw (ofError
                          (newError
                             ("Failed to write chapter "
                              ++ numberToString
                                   (ChapterOutline.chapterNumber chapter))))
               else
                 (lift (sleep (1000 * 2 ^ Z.of_nat attempt)) ;;
                  retryLoop backend chapter fuel' attempt))
    end
  else ret ""%string.

Definition writeChapter (backend : nat -> Settled)
    (chapter : ChapterOutline.t) (outline : BookOutline.t)
    (sources : list Source.t) (style : WritingStyle) : Run string :=
  retryLoop backend chapter Gemini.maxAttempts 0.

(** [e.message?.includes(sub)]: the optional chain stops at a missing
    [message] only. *)
Definition messageIncludes (e : Caught) (sub : string) : Run bool :=
  match message e with
  | Undefined => ret false
  | Str s => ret (includes s sub)
  | NotAString _ => throw (ofError (typeError "e.message?.includes"))
  end.

(** The inline classification of the [catch] block of App.tsx, evaluated
    from left to right. *)
Definition isFatal (e : Caught) : Run bool :=
  leaked <- messageIncludes e "leaked" ;;
  if leaked then ret true
  else
    (denied <- messageIncludes e "PERMISSION_DENIED" ;;
     if denied then ret true else ret (statusIs e 403)).

(** [`Generation Stopped: ${e.message}`] *)
Definition generationStopped (e : Caught) : string :=
  "Generation Stopped: "
  ++ match message e with
     | Undefined => "undefined"
     | Str s => s
     | NotAString _ => "[object Object]"
     end.

(** The [try { ... } catch (e: any) { ... }] statement of one iteration. *)
Definition attemptChapter (h : Host) (backend : nat -> Settled)
    (project : BookProject.t) (outline : BookOutline.t) (projectId : string)
    (style : WritingStyle) (chapOutline : ChapterOutline.t)
    (st : App.Locals) : Run App.Locals :=
  let n := ChapterOutline.chapterNumber chapOutline in
  tryCatch
    (content <- writeChapter backend chapOutline outline
                  (BookProject.sources project) style ;;
     now <- (fun w => (Normal (dateNow h (requests w)), w)) ;;
     lift (App.setProjects (UpdChapterWritten projectId n content now)) ;;
     ret (App.mkLocals (App.markWritten (App.currentChapters st) n content)
                       (App.hasFatalError st)))
    (fun e =>
       lift (consoleError (App.errorGenerating n)) ;;
       isFatal <- isFatal e ;;
       (if isFatal then lift (alert (generationStopped e)) else ret tt) ;;
       lift (App.setProjects (UpdChapterFailed projectId n isFatal)) ;;
       ret (App.mkLocals (App.currentChapters st)
                         (if isFatal then true else App.hasFatalError st))).

(** [for (const chapOutline of project.outline.chapters) { ... }] *)
Fixpoint chapterLoop (h : Host) (backend : nat -> Settled)
    (project : BookProject.t) (outline : BookOutline.t) (projectId : string)
    (style : WritingStyle) (todo : list ChapterOutline.t) (st : App.Locals)
  : Run App.Locals :=
  match todo with
  | [] => ret st
  | chapOutline :: rest =>
      let existingChap :=
        App.findChapter (App.currentChapters st)
                        (ChapterOutline.chapterNumber chapOutline) in
      if App.alreadyDone existingChap then
        chapterLoop h backend project outline projectId style rest st
      else if App.hasFatalError st then ret st
      else
        (st' <- attemptChapter h backend project outline projectId style
                               chapOutline st ;;
         chapterLoop h backend project outline projectId style rest st')
  end.

Definition startBookGeneration (h : Host) (backend : nat -> Settled)
    (projectId : string) (style : WritingStyle) : Run unit :=
  fun w =>
    match App.findProject (projects w) projectId with
    | None => (Normal tt, w)
    | Some project =>
        match BookProject.outline project with
        | None => (Normal tt, w)
        | Some outline =>
            (lift (App.setGeneratingProjectId (Some projectId)) ;;
             lift (App.requestWakeLock h) ;;
             let currentChapters :=
               if (0 <? length (BookProject.chapters project))%nat
               then BookProject.chapters project
               else App.initialChapters outline in
             lift (App.handleUpdateProject
                     (BookProject.withChapters project currentChapters)) ;;
             chapterLoop h backend project outline projectId style
                         (BookOutline.chapters outline)
                         (App.mkLocals currentChapters false) ;;
             lift (App.setGeneratingProjectId None) ;;
             lift (App.releaseWakeLock h)) w
        end
    end.

End Untyped.

(** The backend of [h], rejecting with the errors of [h]. *)
Definition typedBackend (h : Host) (n : nat) : Untyped.Settled :=
  match generateContent h n with
  | Resolved text => Untyped.Resolved text
  | Rejected error => Untyped.Rejected (Untyped.ofError error)
  end.

(* ================================================================== *)
(** ** Sample data *)

Module Sample.

Local Open Scope string_scope.

Definition chapter (n : Z) : ChapterOutline.t :=
  ChapterOutline.mk n "Chapter" "Summary".

Definition outline (numbers : list Z) : BookOutline.t :=
  BookOutline.mk "Book" "Description" (map chapter numbers) None None.

Definition project (cs : list ChapterContent.t) (numbers : list Z)
  : BookProject.t :=
  BookProject.mk "p1" "Title" 0 [] (Some (outline numbers)) cs 2
                 None None None.

Definition world (cs : list ChapterContent.t) (numbers : list Z) : World :=
  mkWorld [project cs numbers] None None 0 [].

(** A host with a working wake lock, whose backend answers as [g] says. *)
Definition host (g : nat -> Settled) : Host :=
  mkHost g true (fun k => Some (7 + k)%nat) (fun _ => true)
         (fun n => 1000 + Z.of_nat n).

Definition unavailable : JsError.t :=
  JsError.mk (Some "The model is overloaded.") (Some 503).

Definition unauthorized : JsError.t :=
  JsError.mk (Some "Request had invalid authentication credentials.")
             (Some 401).

Definition forbidden : JsError.t :=
  JsError.mk (Some "The caller does not have permission") (Some 403).

Definition done (n : Z) (content : string) : ChapterContent.t :=
  ChapterContent.mk n "Chapter" content false.

Definition pending (n : Z) : ChapterContent.t :=
  ChapterContent.mk n "Chapter" "" true.

End Sample.

(* ================================================================== *)
(** * Properties *)

(** ** Strings *)

Section Strings.

Variable P : ascii -> bool.




Hypothesis P_digits :
  forallb P ["0"; "1"; "2"; "3"; "4"; "5"; "6"; "7"; "8"; "9"; "-"]%char = true.



End Strings.



(** ** Worlds and traces *)

Lemma advance_0 (w : World) : advance w 0 [] = w.
Proof.
  destruct w; unfold advance; simpl. now rewrite Nat.add_0_r, app_nil_r.
Qed.

Lemma advance_advance (w : World) (k k' : nat) (evs evs' : list Event) :
  advance (advance w k evs) k' evs' = advance w (k + k') (evs ++ evs').
Proof.
  unfold advance; simpl. now rewrite Nat.add_assoc, app_assoc.
Qed.

Lemma generated_app (a b : list Event) :
  generated (a ++ b) = generated a ++ generated b.
Proof. apply flat_map_app. Qed.

Lemma sleeps_app (a b : list Event) : sleeps (a ++ b) = sleeps a ++ sleeps b.
Proof. apply flat_map_app. Qed.

Lemma alerts_app (a b : list Event) : alerts (a ++ b) = alerts a ++ alerts b.
Proof. apply flat_map_app. Qed.

Lemma updates_app (a b : list Event) : updates (a ++ b) = updates a ++ updates b.
Proof. apply flat_map_app. Qed.

Lemma lockRequests_app (a b : list Event) :
  lockRequests (a ++ b) = lockRequests a ++ lockRequests b.
Proof. apply flat_map_app. Qed.

Lemma releases_app (a b : list Event) :
  releases (a ++ b) = releases a ++ releases b.
Proof. apply flat_map_app. Qed.

Ltac world_eq :=
  unfold advance, generated in *; cbn; rewrite <- ?app_assoc; cbn;
  repeat (f_equal; try lia).

(** ** The retry loop of [writeChapter] *)

Section RetryLoop.

Variable h : Host.
Variable chapter : ChapterOutline.t.

Lemma retryLoop_Retry (fuel attempt : nat) (w : World) :
  (attempt + fuel = Gemini.maxAttempts)%nat ->
  (0 < fuel)%nat ->
  exists res evs,
    Gemini.retryLoop h chapter fuel attempt w
    = (res, advance w (length (generated evs)) evs)
    /\ Retry h chapter (requests w) (S attempt) res evs.
Proof.
  revert attempt w. induction fuel as [|fuel IH]; intros attempt w Hsum Hpos.
  - lia.
  - cbn [Gemini.retryLoop].
    destruct (Nat.ltb_spec attempt Gemini.maxAttempts) as [Hlt|Hge]; [|lia].
    set (msg := Gemini.attemptFailed attempt chapter).
    unfold tryCatch, bind, Gemini.requestContent, consoleError, sleep, emit,
      ret, throw.
    destruct (generateContent h (requests w)) as [text|e] eqn:Hg;
      cbv beta iota zeta.
    + exists (Returned (orElse text "")),
        [EvGenerateContent (ChapterOutline.chapterNumber chapter)].
      split; [world_eq|]. now constructor.
    + destruct (Gemini.isFatalError e) eqn:Hf.
      * exists (Thrown e),
          [EvGenerateContent (ChapterOutline.chapterNumber chapter);
           EvConsoleError msg].
        split; [world_eq|]. now constructor.
      * destruct (Nat.leb_spec Gemini.maxAttempts (S attempt)) as [Hlast|Hmore].
        -- assert (S attempt = Gemini.maxAttempts) as Hs by lia.
           exists (Thrown (exhausted chapter)),
             [EvGenerateContent (ChapterOutline.chapterNumber chapter);
              EvConsoleError msg].
           split; [world_eq|].
           subst msg.
           replace (Gemini.attemptFailed attempt chapter)
             with (Gemini.attemptFailed (pred Gemini.maxAttempts) chapter)
             by (f_equal; unfold Gemini.maxAttempts in *; lia).
           rewrite Hs. now apply Retry_exhausted with (e := e).
        -- change (1000 * 2 ^ Z.of_nat (S attempt)) with (delay (S attempt)).
           match goal with
           | |- context [Gemini.retryLoop h chapter fuel (S attempt) ?w1] =>
               destruct (IH (S attempt) w1) as (res & evs & Hrun & Hretry);
               [lia|lia|]
           end.
           exists res,
             (EvGenerateContent (ChapterOutline.chapterNumber chapter)
              :: EvConsoleError msg :: EvSleep (delay (S attempt)) :: evs).
           split.
           ++ rewrite Hrun. world_eq.
           ++ apply Retry_again with (e := e); auto; lia.
Qed.

Lemma writeChapter_Retry (outline : BookOutline.t) (sources : list Source.t)
    (style : WritingStyle) (w : World) :
  exists res evs,
    Gemini.writeChapter h chapter outline sources style w
    = (res, advance w (length (generated evs)) evs)
    /\ Retry h chapter (requests w) 1 res evs.
Proof.
  unfold Gemini.writeChapter.
  apply retryLoop_Retry; unfold Gemini.maxAttempts; lia.
Qed.

Lemma Retry_attempts r a res evs :
  Retry h chapter r a res evs ->
  (a <= Gemini.maxAttempts)%nat ->
  (1 <= length (generated evs)
   /\ a + length (generated evs) <= S Gemini.maxAttempts)%nat.
Proof.
  induction 1; intros Ha; cbn [generated flat_map app length]; try lia.
  fold (generated evs). lia.
Qed.

Lemma Retry_generated r a res evs :
  Retry h chapter r a res evs ->
  generated evs
  = repeat (ChapterOutline.chapterNumber chapter) (length (generated evs)).
Proof.
  induction 1; cbn; try reflexivity.
  fold (generated evs). now rewrite <- IHRetry.
Qed.



Lemma Retry_quiet r a res evs :
  Retry h chapter r a res evs ->
  alerts evs = [] /\ updates evs = [] /\ lockRequests evs = []
  /\ releases evs = [].
Proof. induction 1; cbn; auto. Qed.

Lemma Retry_settles r a res evs :
  Retry h chapter r a res evs ->
  (exists content, res = Returned content)
  \/ (exists e, res = Thrown e
                /\ (Gemini.isFatalError e = true \/ e = exhausted chapter)).
Proof. induction 1; eauto 6. Qed.

End RetryLoop.

(** ** Replaying a trace *)

Lemma replay_nil (w : World) : replay w [] = w.
Proof.
  destruct w; unfold replay; cbn. now rewrite Nat.add_0_r, app_nil_r.
Qed.

Lemma replay_app (w : World) (a b : list Event) :
  replay (replay w a) b = replay w (a ++ b).
Proof.
  unfold replay; cbn.
  rewrite updates_app, generated_app, fold_left_app, length_app.
  now rewrite Nat.add_assoc, app_assoc.
Qed.

Lemma advance_replay (w : World) (evs : list Event) :
  updates evs = [] -> advance w (length (generated evs)) evs = replay w evs.
Proof. intros H. unfold advance, replay. now rewrite H. Qed.

Lemma setProjects_replay (u : Updater) (w : World) :
  App.setProjects u w = (Returned tt, replay w [EvSetProjects u]).
Proof. unfold App.setProjects, replay; cbn. now rewrite Nat.add_0_r. Qed.

Lemma consoleError_replay (msg : string) (w : World) :
  consoleError msg w = (Returned tt, replay w [EvConsoleError msg]).
Proof. unfold consoleError, emit, replay; cbn. now rewrite Nat.add_0_r. Qed.

Lemma alert_replay (msg : string) (w : World) :
  alert msg w = (Returned tt, replay w [EvAlert msg]).
Proof. unfold alert, emit, replay; cbn. now rewrite Nat.add_0_r. Qed.

(** ** One iteration of the chapter loop *)

Section ChapterLoop.

Variable h : Host.
Variable project : BookProject.t.
Variable outline : BookOutline.t.
Variable projectId : string.
Variable style : WritingStyle.

Lemma attemptChapter_Attempt (chapOutline : ChapterOutline.t)
    (st : App.Locals) (w : World) :
  exists evs st',
    App.attemptChapter h project outline projectId style chapOutline st w
    = (Returned st', replay w evs)
    /\ Attempt h chapOutline projectId st (requests w) evs st'.
Proof.
  destruct (writeChapter_Retry h chapOutline outline
              (BookProject.sources project) style w)
    as (res & evs & Hrun & Hretry).
  pose proof (Retry_quiet _ _ _ _ _ _ Hretry) as (_ & Hupd & _ & _).
  rewrite advance_replay in Hrun by assumption.
  unfold App.attemptChapter, tryCatch, bind. rewrite Hrun.
  destruct (Retry_settles _ _ _ _ _ _ Hretry)
    as [[content ->]|(e & -> & _)].
  - rewrite setProjects_replay, replay_app. unfold ret.
    eexists _, _. split; [reflexivity|].
    replace (requests (replay w evs))
      with (requests w + length (generated evs))%nat by reflexivity.
    now constructor.
  - rewrite consoleError_replay, replay_app.
    destruct (App.isFatal e) eqn:Hfatal.
    + rewrite alert_replay, setProjects_replay, !replay_app. unfold ret.
      rewrite <- !app_assoc. cbn [app].
      eexists _, _. split; [reflexivity|]. now apply Attempt_fatal.
    + unfold ret at 1. cbv beta iota.
      rewrite setProjects_replay, !replay_app. unfold ret.
      rewrite <- !app_assoc. cbn [app].
      exists (evs ++
              [EvConsoleError
                 (App.errorGenerating (ChapterOutline.chapterNumber chapOutline));
               EvSetProjects
                 (UpdChapterFailed projectId
                    (ChapterOutline.chapterNumber chapOutline) false)]), st.
      split; [destruct st; reflexivity|]. now apply Attempt_failed with (e := e).
Qed.

Lemma chapterLoop_Loop (todo : list ChapterOutline.t) (st : App.Locals)
    (w : World) :
  exists evs st',
    App.chapterLoop h project outline projectId style todo st w
    = (Returned st', replay w evs)
    /\ Loop h projectId todo st (requests w) evs st'.
Proof.
  revert st w. induction todo as [|chapOutline rest IH]; intros st w.
  - exists [], st. split; [now rewrite replay_nil|constructor].
  - cbn [App.chapterLoop].
    destruct (App.alreadyDone _) eqn:Hdone.
    + destruct (IH st w) as (evs & st' & Hrun & Hloop).
      exists evs, st'. split; [assumption|]. now apply Loop_continue.
    + destruct (App.hasFatalError st) eqn:Hfatal.
      * exists [], st. split; [now rewrite replay_nil|]. now apply Loop_break.
      * destruct (attemptChapter_Attempt chapOutline st w)
          as (evs1 & st1 & Hrun1 & Hattempt).
        destruct (IH st1 (replay w evs1)) as (evs2 & st2 & Hrun2 & Hloop).
        exists (evs1 ++ evs2), st2. split.
        -- unfold bind. rewrite Hrun1, Hrun2. now rewrite replay_app.
        -- now apply Loop_attempt with (st1 := st1).
Qed.

End ChapterLoop.

(** ** The wake lock *)

Lemma requestWakeLock_run (h : Host) (w : World) :
  App.requestWakeLock h w
  = (Returned tt,
     mkWorld (projects w) (generatingProjectId w) (held h w) (requests w)
             (trace w ++ acquireEvents h w)).
Proof.
  unfold App.requestWakeLock, held, acquired, acquireEvents, tryCatch, bind,
    App.navigatorWakeLockRequest, App.setWakeLockRef, consoleError, emit, ret,
    throw.
  destruct (wakeLockInNavigator h); cbn.
  - destruct (wakeLockRequest h (wakeLockRequestsMade w)); cbn;
      [reflexivity|].
    now rewrite <- app_assoc.
  - destruct w; cbn. now rewrite app_nil_r.
Qed.

Lemma releaseWakeLock_run (h : Host) (w : World) :
  App.releaseWakeLock h w
  = (Returned tt,
     mkWorld (projects w) (generatingProjectId w)
             (afterRelease h (wakeLockRef w)) (requests w)
             (trace w ++ releaseEvents h (wakeLockRef w))).
Proof.
  unfold App.releaseWakeLock, afterRelease, releaseEvents, tryCatch, bind,
    App.getWakeLockRef, App.sentinelRelease, App.setWakeLockRef, consoleError,
    emit, ret, throw.
  destruct w as [ps g [s|] r t]; cbn.
  - destruct (wakeLockRelease h s); cbn; [reflexivity|].
    now rewrite <- app_assoc.
  - now rewrite app_nil_r.
Qed.

(** ** A whole run *)

Lemma wakeLockRequestsMade_setGenerating (w : World) (v : option string) :
  wakeLockRequestsMade
    (mkWorld (projects w) v (wakeLockRef w) (requests w)
             (trace w ++ [EvSetGeneratingProjectId v]))
  = wakeLockRequestsMade w.
Proof.
  unfold wakeLockRequestsMade. cbn [trace].
  rewrite filter_app, length_app. cbn. lia.
Qed.

Lemma startBookGeneration_run (h : Host) (projectId : string)
    (style : WritingStyle) (w : World) (project : BookProject.t)
    (outline : BookOutline.t) :
  App.findProject (projects w) projectId = Some project ->
  BookProject.outline project = Some outline ->
  exists loopEvs st',
    Loop h projectId (BookOutline.chapters outline)
         (App.mkLocals (startingChapters project outline) false)
         (requests w) loopEvs st'
    /\ App.startBookGeneration h projectId style w
       = (Returned tt,
          mkWorld
            (fold_left (fun ps u => App.applyUpdater u ps)
               (startingWrite project outline :: updates loopEvs)
               (projects w))
            None (afterRelease h (held h w))
            (requests w + length (generated loopEvs))
            (trace w ++ runEvents h w projectId project outline loopEvs)).
Proof.
  intros Hfind Houtline.
  unfold App.startBookGeneration. rewrite Hfind, Houtline.
  fold (startingChapters project outline).
  unfold bind at 1. unfold App.setGeneratingProjectId at 1. cbv beta iota.
  unfold bind at 1. rewrite requestWakeLock_run.
  unfold held at 1, acquired at 1, acquireEvents at 1.
  rewrite wakeLockRequestsMade_setGenerating.
  fold (acquired h w). fold (acquireEvents h w).
  unfold bind at 1. unfold App.handleUpdateProject.
  rewrite setProjects_replay.
  fold (startingWrite project outline).
  unfold bind at 1.
  match goal with
  | |- context [App.chapterLoop h project outline projectId style ?todo ?st ?w1] =>
      destruct (chapterLoop_Loop h project outline projectId style todo st w1)
        as (loopEvs & st' & Hrun & Hloop)
  end.
  rewrite Hrun. exists loopEvs, st'. split.
  - cbn in Hloop. now rewrite Nat.add_0_r in Hloop.
  - unfold bind at 1. unfold App.setGeneratingProjectId. cbv beta iota.
    rewrite releaseWakeLock_run. unfold runEvents, replay. cbn.
    unfold held. cbn. rewrite ?Nat.add_0_r, <- ?app_assoc. cbn.
    rewrite <- ?app_assoc. reflexivity.
Qed.

(** ** What an iteration and the loop do and leave alone *)

Section LoopFacts.

Variable h : Host.
Variable projectId : string.

Lemma Attempt_generated chapOutline st r evs st' :
  Attempt h chapOutline projectId st r evs st' ->
  exists k, (1 <= k <= Gemini.maxAttempts)%nat
            /\ generated evs
               = repeat (ChapterOutline.chapterNumber chapOutline) k.
Proof.
  assert (Hk : forall res evs0, Retry h chapOutline r 1 res evs0 ->
               (1 <= length (generated evs0) <= Gemini.maxAttempts)%nat).
  { intros res evs0 Hr.
    destruct (Retry_attempts _ _ _ _ _ _ Hr); unfold Gemini.maxAttempts in *; lia. }
  destruct 1 as [content evs Hr|e evs Hr Hf|e evs Hr Hf];
    exists (length (generated evs)); (split; [now apply Hk in Hr|]);
    rewrite generated_app, app_nil_r; now apply Retry_generated in Hr.
Qed.

Lemma Attempt_wake chapOutline st r evs st' :
  Attempt h chapOutline projectId st r evs st' ->
  lockRequests evs = [] /\ releases evs = [].
Proof.
  destruct 1 as [content evs Hr|e evs Hr Hf|e evs Hr Hf];
    destruct (Retry_quiet _ _ _ _ _ _ Hr) as (_ & _ & Hq & Hrel);
    rewrite lockRequests_app, releases_app, Hq, Hrel; auto.
Qed.

Lemma Attempt_updates chapOutline st r evs st' :
  Attempt h chapOutline projectId st r evs st' ->
  exists u, updates evs = [u]
            /\ chapterUpdate projectId
                 (ChapterOutline.chapterNumber chapOutline) u.
Proof.
  destruct 1 as [content evs Hr|e evs Hr Hf|e evs Hr Hf];
    destruct (Retry_quiet _ _ _ _ _ _ Hr) as (_ & Hu & _ & _);
    rewrite updates_app, Hu; eexists; (split; [reflexivity|]); now cbn.
Qed.

(** An iteration raises [hasFatalError] exactly when it alerts the user. *)
Lemma Attempt_alerts chapOutline st r evs st' :
  Attempt h chapOutline projectId st r evs st' ->
  App.hasFatalError st = false ->
  (App.hasFatalError st' = false /\ alerts evs = [])
  \/ (App.hasFatalError st' = true /\ exists msg, alerts evs = [msg]).
Proof.
  destruct 1 as [content evs Hr|e evs Hr Hf|e evs Hr Hf]; intros Hst;
    destruct (Retry_quiet _ _ _ _ _ _ Hr) as (Ha & _);
    rewrite alerts_app, Ha; cbn; eauto.
Qed.

(** The chapters other than the processed one keep their local entry. *)
Lemma findChapter_markWritten cs n m content :
  m <> n ->
  App.findChapter (App.markWritten cs n content) m = App.findChapter cs m.
Proof.
  intros Hneq. unfold App.findChapter, App.markWritten.
  induction cs as [|c cs IH]; cbn; [reflexivity|].
  destruct (Z.eqb_spec (ChapterContent.chapterNumber c) n) as [Hc|Hc]; cbn.
  - destruct (Z.eqb_spec (ChapterContent.chapterNumber c) m); [lia|apply IH].
  - now rewrite IH.
Qed.

Lemma Attempt_locals chapOutline st r evs st' m :
  Attempt h chapOutline projectId st r evs st' ->
  m <> ChapterOutline.chapterNumber chapOutline ->
  App.findChapter (App.currentChapters st') m
  = App.findChapter (App.currentChapters st) m.
Proof.
  destruct 1; intros Hm; cbn [App.currentChapters];
    [now apply findChapter_markWritten|reflexivity|reflexivity].
Qed.

(** Once [hasFatalError] is set the loop does nothing more. *)
Lemma Loop_aborted todo st r evs st' :
  Loop h projectId todo st r evs st' ->
  App.hasFatalError st = true ->
  evs = [] /\ st' = st.
Proof. induction 1; intros Hst; auto; congruence. Qed.

Lemma Loop_wake todo st r evs st' :
  Loop h projectId todo st r evs st' ->
  lockRequests evs = [] /\ releases evs = [].
Proof.
  induction 1 as [| | |co rest st r evs1 st1 evs2 st2 Hd Hf Ha Hl [IH1 IH2]];
    auto.
  destruct (Attempt_wake _ _ _ _ _ Ha) as [H1 H2].
  now rewrite lockRequests_app, releases_app, H1, H2, IH1, IH2.
Qed.

(** The user is alerted at most once, and exactly when the loop ends with
    [hasFatalError] set. *)
Lemma Loop_alerts todo st r evs st' :
  Loop h projectId todo st r evs st' ->
  App.hasFatalError st = false ->
  (App.hasFatalError st' = false /\ alerts evs = [])
  \/ (App.hasFatalError st' = true /\ exists msg, alerts evs = [msg]).
Proof.
  induction 1 as [| | |co rest st r evs1 st1 evs2 st2 Hd Hf Ha Hl IH];
    intros Hst; auto; try congruence.
  rewrite alerts_app.
  destruct (Attempt_alerts _ _ _ _ _ Ha Hst) as [[H1 ->]|(H1 & msg & ->)].
  - now apply IH.
  - destruct (Loop_aborted _ _ _ _ _ Hl H1) as [-> ->]. right.
    split; [assumption|]. now exists msg.
Qed.


(** A chapter of the list that is not done when the loop starts is
    generated, unless the loop is aborted by a fatal error. *)
Lemma Loop_pending todo st r evs st' chapOutline :
  Loop h projectId todo st r evs st' ->
  In chapOutline todo ->
  App.alreadyDone
    (App.findChapter (App.currentChapters st)
       (ChapterOutline.chapterNumber chapOutline)) = false ->
  In (ChapterOutline.chapterNumber chapOutline) (generated evs)
  \/ App.hasFatalError st' = true.
Proof.
  induction 1 as [|co rest st r evs st' Hd Hl IH|
                  |co rest st r evs1 st1 evs2 st2 Hd Hf Ha Hl IH];
    intros Hin Hn.
  - destruct Hin.
  - destruct Hin as [->|Hin]; [congruence|auto].
  - auto.
  - rewrite generated_app.
    destruct (Attempt_generated _ _ _ _ _ Ha) as (k & Hk & Hg).
    destruct (Z.eq_dec (ChapterOutline.chapterNumber chapOutline)
                       (ChapterOutline.chapterNumber co)) as [Heq|Hneq].
    + left. apply in_or_app. left. rewrite Hg, Heq.
      destruct k; [lia|now left].
    + destruct Hin as [->|Hin]; [congruence|].
      destruct IH as [IH|IH]; auto.
      * now rewrite (Attempt_locals _ _ _ _ _ _ Ha Hneq).
      * left. apply in_or_app. now right.
Qed.

End LoopFacts.

(** ** The stored project collection *)

Lemma findProject_id ps projectId p :
  App.findProject ps projectId = Some p -> BookProject.id p = projectId.
Proof.
  unfold App.findProject. intros H. apply find_some in H as [_ H].
  now apply String.eqb_eq.
Qed.

Lemma findProject_map (f : BookProject.t -> BookProject.t) ps projectId :
  (forall p, BookProject.id (f p) = BookProject.id p) ->
  App.findProject (map f ps) projectId
  = option_map f (App.findProject ps projectId).
Proof.
  intros Hf. unfold App.findProject.
  induction ps as [|p ps IH]; cbn; [reflexivity|].
  rewrite Hf. now destruct (String.eqb (BookProject.id p) projectId).
Qed.

Lemma findChapter_markWritten_same cs n content :
  App.findChapter (App.markWritten cs n content) n
  = option_map
      (fun c => ChapterContent.mk (ChapterContent.chapterNumber c)
                  (ChapterContent.title c) content false)
      (App.findChapter cs n).
Proof.
  unfold App.findChapter, App.markWritten.
  induction cs as [|c cs IH]; cbn; [reflexivity|].
  destruct (Z.eqb_spec (ChapterContent.chapterNumber c) n) as [Hc|Hc]; cbn.
  - destruct (Z.eqb_spec (ChapterContent.chapterNumber c) n); [reflexivity|lia].
  - destruct (Z.eqb_spec (ChapterContent.chapterNumber c) n); [lia|apply IH].
Qed.

Lemma findProject_written projectId n content now ps projectId0 :
  App.findProject
    (App.applyUpdater (UpdChapterWritten projectId n content now) ps)
    projectId0
  = option_map
      (fun p =>
         if String.eqb (BookProject.id p) projectId
         then BookProject.withChaptersAt p
                (App.markWritten (BookProject.chapters p) n content) now
         else p)
      (App.findProject ps projectId0).
Proof.
  cbn [App.applyUpdater]. rewrite findProject_map.
  - destruct (App.findProject ps projectId0) as [p|]; cbn; [|reflexivity].
    now destruct (String.eqb (BookProject.id p) projectId).
  - intros p. now destruct (String.eqb (BookProject.id p) projectId).
Qed.

Lemma findProject_failed projectId n isFatal ps projectId0 :
  App.findProject
    (App.applyUpdater (UpdChapterFailed projectId n isFatal) ps) projectId0
  = option_map
      (fun p =>
         if String.eqb (BookProject.id p) projectId
         then BookProject.withChapters p
                (App.markWritten (BookProject.chapters p) n
                   (App.failedContent isFatal))
         else p)
      (App.findProject ps projectId0).
Proof.
  cbn [App.applyUpdater]. rewrite findProject_map.
  - destruct (App.findProject ps projectId0) as [p|]; cbn; [|reflexivity].
    now destruct (String.eqb (BookProject.id p) projectId).
  - intros p. now destruct (String.eqb (BookProject.id p) projectId).
Qed.

(** A chapter update for [m] leaves the stored result of every other
    chapter, in every project, as it is. *)
Lemma stored_other_chapter u projectId m ps projectId0 n :
  chapterUpdate projectId m u -> m <> n ->
  stored (App.applyUpdater u ps) projectId0 n = stored ps projectId0 n.
Proof.
  intros Hu Hneq. unfold stored.
  destruct u as [q|pid k c now|pid k b]; cbn [chapterUpdate] in Hu;
    [easy| |]; destruct Hu as [-> ->];
    [rewrite findProject_written|rewrite findProject_failed];
    (destruct (App.findProject ps projectId0) as [p|]; cbn; [|reflexivity]);
    (destruct (String.eqb (BookProject.id p) projectId); [|reflexivity]);
    now apply findChapter_markWritten.
Qed.

(** A failure update rewrites the stored result of its chapter. *)
Lemma stored_failed projectId n isFatal ps :
  stored (App.applyUpdater (UpdChapterFailed projectId n isFatal) ps)
         projectId n
  = option_map
      (fun c => ChapterContent.mk (ChapterContent.chapterNumber c)
                  (ChapterContent.title c) (App.failedContent isFatal) false)
      (stored ps projectId n).
Proof.
  unfold stored. rewrite findProject_failed.
  destruct (App.findProject ps projectId) as [p|] eqn:Hfind; cbn;
    [|reflexivity].
  rewrite (findProject_id _ _ _ Hfind), String.eqb_refl.
  apply findChapter_markWritten_same.
Qed.

(** A success update rewrites the stored result of its chapter. *)
Lemma stored_written projectId n content now ps :
  stored (App.applyUpdater (UpdChapterWritten projectId n content now) ps)
         projectId n
  = option_map
      (fun c => ChapterContent.mk (ChapterContent.chapterNumber c)
                  (ChapterContent.title c) content false)
      (stored ps projectId n).
Proof.
  unfold stored. rewrite findProject_written.
  destruct (App.findProject ps projectId) as [p|] eqn:Hfind; cbn;
    [|reflexivity].
  rewrite (findProject_id _ _ _ Hfind), String.eqb_refl.
  apply findChapter_markWritten_same.
Qed.


(** After the write that starts a run the project holds the starting array. *)
Lemma findProject_replace ps projectId project cs :
  App.findProject ps projectId = Some project ->
  App.findProject
    (App.applyUpdater
       (UpdReplaceProject (BookProject.withChapters project cs)) ps)
    projectId
  = Some (BookProject.withChapters project cs).
Proof.
  intros Hfind. pose proof (findProject_id _ _ _ Hfind) as Hid.
  subst projectId. unfold App.findProject in *. cbn.
  induction ps as [|p ps IH]; cbn in *; [discriminate|].
  destruct (String.eqb (BookProject.id p) (BookProject.id project)) eqn:Hp.
  - cbn. now rewrite String.eqb_refl.
  - rewrite Hp. now apply IH.
Qed.

(* ================================================================== *)
(** * Rejections that are not [Error] objects *)

(** How a computation of the typed pipeline is matched step by step. *)
Lemma bind_typed {A B} (m' : Untyped.Run A) (m : M A)
    (k' : A -> Untyped.Run B) (k : A -> M B) (w : World) :
  m' w = Untyped.lift m w ->
  (forall a w', k' a w' = Untyped.lift (k a) w') ->
  Untyped.bind m' k' w = Untyped.lift (bind m k) w.
Proof.
  intros Hm Hk. unfold Untyped.bind, bind. rewrite Hm.
  unfold Untyped.lift in *.
  destruct (m w) as [[a|e|] w1]; try reflexivity. apply Hk.
Qed.

Lemma tryCatch_typed {A} (body' : Untyped.Run A) (body : M A)
    (handler' : Untyped.Caught -> Untyped.Run A)
    (handler : JsError.t -> M A) (w : World) :
  body' w = Untyped.lift body w ->
  (forall e w', handler' (Untyped.ofError e) w' = Untyped.lift (handler e) w') ->
  Untyped.tryCatch body' handler' w = Untyped.lift (tryCatch body handler) w.
Proof.
  intros Hb Hh. unfold Untyped.tryCatch, tryCatch. rewrite Hb.
  unfold Untyped.lift in *.
  destruct (body w) as [[a|e|] w1]; try reflexivity. apply Hh.
Qed.

(** On the errors of the typed pipeline the two classifications are the
    typed ones. *)
Lemma isFatalError_ofError (e : JsError.t) (w : World) :
  Untyped.isFatalError (Untyped.ofError e) w
  = (Untyped.Normal (Gemini.isFatalError e), w).
Proof.
  unfold Untyped.isFatalError, Gemini.isFatalError.
  assert (Hs : forall n, Untyped.statusIs (Untyped.ofError e) n
                         = statusIs e n) by reflexivity.
  rewrite !Hs. cbv zeta.
  destruct (statusIs e 403 || statusIs e 401); [reflexivity|].
  unfold Untyped.ofError, orElse, Untyped.ret. cbn [Untyped.message].
  destruct (JsError.message e) as [m|]; [|reflexivity].
  destruct (truthy m);
    match goal with
    | |- _ = (Untyped.Normal (if ?b then true else false), _) => destruct b
    end; reflexivity.
Qed.

Lemma isFatal_ofError (e : JsError.t) (w : World) :
  Untyped.isFatal (Untyped.ofError e) w = (Untyped.Normal (App.isFatal e), w).
Proof.
  unfold Untyped.isFatal, Untyped.messageIncludes, App.isFatal,
    messageIncludes, Untyped.statusIs, statusIs, Untyped.ofError,
    Untyped.bind, Untyped.ret.
  cbn [Untyped.status Untyped.message].
  destruct (JsError.message e) as [m|]; [|reflexivity].
  destruct (includes m "leaked"); [reflexivity|].
  now destruct (includes m "PERMISSION_DENIED").
Qed.

Lemma generationStopped_ofError (e : JsError.t) :
  Untyped.generationStopped (Untyped.ofError e) = App.generationStopped e.
Proof.
  unfold Untyped.generationStopped, App.generationStopped, Untyped.ofError,
    render.
  cbn [Untyped.message]. now destruct (JsError.message e).
Qed.

Lemma requestContent_typed (h : Host) (chapter : ChapterOutline.t)
    (w : World) :
  Untyped.requestContent (typedBackend h) chapter w
  = Untyped.lift (Gemini.requestContent h chapter) w.
Proof.
  unfold Untyped.requestContent, Untyped.lift, Gemini.requestContent,
    typedBackend.
  now destruct (generateContent h (requests w)).
Qed.

Lemma retryLoop_typed (h : Host) (chapter : ChapterOutline.t)
    (fuel attempt : nat) (w : World) :
  Untyped.retryLoop (typedBackend h) chapter fuel attempt w
  = Untyped.lift (Gemini.retryLoop h chapter fuel attempt) w.
Proof.
  revert attempt w. induction fuel as [|fuel IH]; intros attempt w;
    cbn [Untyped.retryLoop Gemini.retryLoop];
    destruct (attempt <? Gemini.maxAttempts)%nat; try reflexivity.
  apply tryCatch_typed.
  - apply bind_typed; [apply requestContent_typed|reflexivity].
  - intros e w1. apply bind_typed; [reflexivity|]. intros _ w2.
    unfold Untyped.bind. rewrite isFatalError_ofError.
    destruct (Gemini.isFatalError e); [reflexivity|]. cbv zeta.
    destruct (Gemini.maxAttempts <=? S attempt)%nat; [reflexivity|].
    apply bind_typed; [reflexivity|]. intros _ w3. apply IH.
Qed.

Lemma attemptChapter_typed (h : Host) (project : BookProject.t)
    (outline : BookOutline.t) (projectId : string) (style : WritingStyle)
    (chapOutline : ChapterOutline.t) (st : App.Locals) (w : World) :
  Untyped.attemptChapter h (typedBackend h) project outline projectId style
    chapOutline st w
  = Untyped.lift
      (App.attemptChapter h project outline projectId style chapOutline st) w.
Proof.
  unfold Untyped.attemptChapter, App.attemptChapter. cbv zeta.
  apply tryCatch_typed.
  - apply bind_typed; [apply retryLoop_typed|]. intros content w1.
    apply bind_typed; [reflexivity|]. intros now w2.
    apply bind_typed; reflexivity.
  - intros e w1. apply bind_typed; [reflexivity|]. intros _ w2.
    unfold Untyped.bind at 1. rewrite isFatal_ofError.
    rewrite generationStopped_ofError.
    apply bind_typed; [now destruct (App.isFatal e)|]. intros _ w3.
    apply bind_typed; reflexivity.
Qed.

Lemma chapterLoop_typed (h : Host) (project : BookProject.t)
    (outline : BookOutline.t) (projectId : string) (style : WritingStyle)
    (todo : list ChapterOutline.t) (st : App.Locals) (w : World) :
  Untyped.chapterLoop h (typedBackend h) project outline projectId style
    todo st w
  = Untyped.lift
      (App.chapterLoop h project outline projectId style todo st) w.
Proof.
  revert st w. induction todo as [|chapOutline rest IH]; intros st w;
    cbn [Untyped.chapterLoop App.chapterLoop]; [reflexivity|].
  destruct (App.alreadyDone _); [apply IH|].
  destruct (App.hasFatalError st); [reflexivity|].
  apply bind_typed; [apply attemptChapter_typed|]. intros st' w'. apply IH.
Qed.

(** The pipeline of this module, run on the errors of the typed pipeline,
    is the typed pipeline. *)
Lemma startBookGeneration_typed (h : Host) (projectId : string)
    (style : WritingStyle) (w : World) :
  Untyped.startBookGeneration h (typedBackend h) projectId style w
  = Untyped.lift (App.startBookGeneration h projectId style) w.
Proof.
  unfold Untyped.startBookGeneration, App.startBookGeneration.
  unfold Untyped.lift at 6.
  destruct (App.findProject (projects w) projectId) as [project|];
    [|reflexivity].
  destruct (BookProject.outline project) as [outline|]; [|reflexivity].
  change (Untyped.bind ?m ?k w
          = match bind ?m0 ?k0 w with
            | (Returned a, w') => (Untyped.Normal a, w')
            | (Thrown e, w') => (Untyped.Abrupt (Untyped.ofError e), w')
            | (OutOfFuel, w') => (Untyped.NoFuel, w')
            end)
    with (Untyped.bind m k w = Untyped.lift (bind m0 k0) w).
  apply bind_typed; [reflexivity|]. intros _ w1.
  apply bind_typed; [reflexivity|]. intros _ w2. cbv zeta.
  apply bind_typed; [reflexivity|]. intros _ w3.
  apply bind_typed; [apply chapterLoop_typed|]. intros st' w4.
  apply bind_typed; reflexivity.
Qed.

(* ================================================================== *)
(** * The claims *)

(** ** C5: the retry policy of [writeChapter] *)

Ltac retry_inv H :=
  inversion H; subst; clear H; try congruence; try discriminate.










(** ** C7: a chapter that exhausts its retries fails alone *)

Lemma startBookGeneration_returns (h : Host) (projectId : string)
    (style : WritingStyle) (w : World) :
  fst (App.startBookGeneration h projectId style w) = Returned tt.
Proof.
  destruct (App.findProject (projects w) projectId) as [project|] eqn:Hfind.
  - destruct (BookProject.outline project) as [outline|] eqn:Houtline.
    + destruct (startBookGeneration_run h projectId style w project outline
                  Hfind Houtline) as (evs & st' & _ & ->).
      reflexivity.
    + unfold App.startBookGeneration. now rewrite Hfind, Houtline.
  - unfold App.startBookGeneration. now rewrite Hfind.
Qed.



(** The stored results after chapter 2 of 3 exhausts its retries: chapter 2
    holds the retry message, chapter 3 is written. *)
Example transient_isolation_run :
  let h := Sample.host (fun n => if (n <? 3)%nat
                                 then Rejected Sample.unavailable
                                 else Resolved (Some "text"%string)) in
  let cs := [Sample.done 1 "one"; Sample.pending 2; Sample.pending 3] in
  let w' := snd (App.startBookGeneration h "p1" standard
                   (Sample.world cs [1; 2; 3])) in
  generated (trace w') = [2; 2; 2; 3]
  /\ map ChapterContent.content
         (match App.findProject (projects w') "p1" with
          | Some p => BookProject.chapters p
          | None => []
          end)
     = ["one"; "Generation failed. Please retry."; "text"]%string.
Proof. vm_compute. split; reflexivity. Qed.


(** ** C1: fatal errors *)

Lemma isFatal_isFatalError (e : JsError.t) :
  App.isFatal e = true -> Gemini.isFatalError e = true.
Proof.
  unfold App.isFatal, Gemini.isFatalError, messageIncludes.
  destruct e as [[m|] status]; cbn [JsError.message].
  - replace (orElse (Some m) "") with m by (now destruct m).
    destruct (statusIs _ 403), (statusIs _ 401), (includes m "leaked"),
      (includes m "API key"), (includes m "PERMISSION_DENIED");
      cbn; congruence.
  - destruct (statusIs _ 403), (statusIs _ 401); cbn; congruence.
Qed.

(** An error that the [catch] block of the loop classifies as fatal stops
    the run at once: one request, no sleep, one alert, the chapter marked
    "Stopped due to API error.", and no further chapter processed. *)
Lemma fatal_error_aborts (h : Host) (project : BookProject.t)
    (outline : BookOutline.t) (projectId : string) (style : WritingStyle)
    (chapOutline : ChapterOutline.t) (rest : list ChapterOutline.t)
    (st : App.Locals) (w : World) (e : JsError.t) :
  App.alreadyDone
    (App.findChapter (App.currentChapters st)
       (ChapterOutline.chapterNumber chapOutline)) = false ->
  App.hasFatalError st = false ->
  generateContent h (requests w) = Rejected e ->
  App.isFatal e = true ->
  App.chapterLoop h project outline projectId style (chapOutline :: rest) st w
  = (Returned (App.mkLocals (App.currentChapters st) true),
     replay w
       [EvGenerateContent (ChapterOutline.chapterNumber chapOutline);
        EvConsoleError (Gemini.attemptFailed 0 chapOutline);
        EvConsoleError
          (App.errorGenerating (ChapterOutline.chapterNumber chapOutline));
        EvAlert (App.generationStopped e);
        EvSetProjects
          (UpdChapterFailed projectId
             (ChapterOutline.chapterNumber chapOutline) true)]).
Proof.
  intros Hdone Hfatal Hg He.
  pose proof (isFatal_isFatalError e He) as Hf.
  destruct (attemptChapter_Attempt h project outline projectId style
              chapOutline st w) as (evs & st1 & Hrun & Hattempt).
  cbn [App.chapterLoop]. rewrite Hdone, Hfatal. unfold bind. rewrite Hrun.
  assert (Hretry : forall res evs0,
             Retry h chapOutline (requests w) 1 res evs0 ->
             res = Thrown e
             /\ evs0 = [EvGenerateContent
                          (ChapterOutline.chapterNumber chapOutline);
                        EvConsoleError (Gemini.attemptFailed 0 chapOutline)]).
  { intros res evs0 Hr.
    inversion Hr; subst; clear Hr; try discriminate;
      match goal with
      | H : generateContent h (requests w) = _ |- _ =>
          rewrite Hg in H; inversion H; subst
      end; try congruence; auto. }
  assert (st1 = App.mkLocals (App.currentChapters st) true
          /\ evs = [EvGenerateContent (ChapterOutline.chapterNumber chapOutline);
                    EvConsoleError (Gemini.attemptFailed 0 chapOutline);
                    EvConsoleError
                      (App.errorGenerating
                         (ChapterOutline.chapterNumber chapOutline));
                    EvAlert (App.generationStopped e);
                    EvSetProjects
                      (UpdChapterFailed projectId
                         (ChapterOutline.chapterNumber chapOutline) true)])
    as [-> ->].
  { destruct Hattempt as [content evs0 Hr|e0 evs0 Hr Hf0|e0 evs0 Hr Hf0];
      destruct (Hretry _ _ Hr) as [[=] ->]; subst; [congruence|now split]. }
  match goal with
  | |- App.chapterLoop _ _ _ _ _ _ ?st1 ?w1 = _ =>
      destruct (chapterLoop_Loop h project outline projectId style rest st1 w1)
        as (evs' & st' & -> & Hloop)
  end.
  destruct (Loop_aborted _ _ _ _ _ _ _ Hloop eq_refl) as [-> ->].
  now rewrite replay_nil.
Qed.

(** C1.  The defect: [writeChapter] classifies a 401 as fatal and rethrows
    it after a single request and without sleeping, but the [catch] block of
    [startBookGeneration] only knows 403, "leaked" and "PERMISSION_DENIED".
    On a run over chapters 1 and 2 whose first request is rejected with a
    401, chapter 1 ends with "Generation failed. Please retry." instead of
    "Stopped due to API error.", no alert is shown and chapter 2 is
    generated. *)
Theorem unauthorized_does_not_abort :
  let h := Sample.host (fun n => match n with
                                 | 0%nat => Rejected Sample.unauthorized
                                 | _ => Resolved (Some "text"%string)
                                 end) in
  let w' := snd (App.startBookGeneration h "p1" standard
                   (Sample.world [] [1; 2])) in
  Gemini.isFatalError Sample.unauthorized = true
  /\ App.isFatal Sample.unauthorized = false
  /\ generated (trace w') = [1; 2]
  /\ sleeps (trace w') = []
  /\ alerts (trace w') = []
  /\ stored (projects w') "p1" 1
     = Some (ChapterContent.mk 1 "Chapter"
               "Generation failed. Please retry." false)
  /\ stored (projects w') "p1" 2
     = Some (ChapterContent.mk 2 "Chapter" "text" false).
Proof. vm_compute. repeat split; reflexivity. Qed.

(** The same run with a 403: the run is aborted as the claim says. *)
Example forbidden_aborts :
  let h := Sample.host (fun n => match n with
                                 | 0%nat => Rejected Sample.forbidden
                                 | _ => Resolved (Some "text"%string)
                                 end) in
  let w' := snd (App.startBookGeneration h "p1" standard
                   (Sample.world [] [1; 2])) in
  generated (trace w') = [1]
  /\ sleeps (trace w') = []
  /\ alerts (trace w')
     = ["Generation Stopped: The caller does not have permission"%string]
  /\ stored (projects w') "p1" 1
     = Some (ChapterContent.mk 1 "Chapter" "Stopped due to API error." false)
  /\ stored (projects w') "p1" 2 = Some (Sample.pending 2).
Proof. vm_compute. repeat split; reflexivity. Qed.

(** ** C2: re-running over a failed chapter *)

(** C2.  The defect: a failed chapter is stored with its placeholder as
    content and [isGenerating = false], which is what the resumption test
    takes for a finished chapter.  Re-running over a project whose chapter 1
    holds either placeholder calls the backend for no chapter and leaves the
    placeholder in place, although the backend would have answered. *)
Theorem failed_chapter_is_not_retried :
  forall isFatal : bool,
    let h := Sample.host (fun _ => Resolved (Some "text"%string)) in
    let failed := Sample.done 1 (App.failedContent isFatal) in
    let w' := snd (App.startBookGeneration h "p1" standard
                     (Sample.world [failed] [1])) in
    App.alreadyDone (Some failed) = true
    /\ generated (trace w') = []
    /\ stored (projects w') "p1" 1 = Some failed.
Proof. intros [|]; vm_compute; repeat split; reflexivity. Qed.

(** ** C6: resumption *)

Lemma generated_runEvents h w projectId project outline loopEvs :
  generated (runEvents h w projectId project outline loopEvs)
  = generated loopEvs.
Proof.
  unfold runEvents. cbn [generated flat_map app].
  fold (generated (acquireEvents h w ++
                   EvSetProjects (startingWrite project outline)
                   :: loopEvs ++
                   EvSetGeneratingProjectId None
                   :: releaseEvents h (held h w))).
  rewrite generated_app. cbn [generated flat_map app].
  fold (generated (loopEvs ++ EvSetGeneratingProjectId None
                   :: releaseEvents h (held h w))).
  rewrite generated_app. cbn [generated flat_map app].
  replace (generated (acquireEvents h w)) with (@nil Z).
  - replace (flat_map _ (releaseEvents h (held h w))) with (@nil Z).
    + cbn. now rewrite app_nil_r.
    + unfold releaseEvents.
      destruct (held h w) as [s|]; [|reflexivity].
      now destruct (wakeLockRelease h s).
  - unfold acquireEvents. destruct (wakeLockInNavigator h); [|reflexivity].
    now destruct (wakeLockRequest h _).
Qed.

Lemma alerts_runEvents h w projectId project outline loopEvs :
  alerts (runEvents h w projectId project outline loopEvs) = alerts loopEvs.
Proof.
  unfold runEvents. cbn [alerts flat_map app].
  fold (alerts (acquireEvents h w ++
                EvSetProjects (startingWrite project outline)
                :: loopEvs ++
                EvSetGeneratingProjectId None
                :: releaseEvents h (held h w))).
  rewrite alerts_app. cbn [alerts flat_map app].
  fold (alerts (loopEvs ++ EvSetGeneratingProjectId None
                :: releaseEvents h (held h w))).
  rewrite alerts_app. cbn [alerts flat_map app].
  replace (alerts (acquireEvents h w)) with (@nil string).
  - replace (flat_map _ (releaseEvents h (held h w))) with (@nil string).
    + cbn. now rewrite app_nil_r.
    + unfold releaseEvents.
      destruct (held h w) as [s|]; [|reflexivity].
      now destruct (wakeLockRelease h s).
  - unfold acquireEvents. destruct (wakeLockInNavigator h); [|reflexivity].
    now destruct (wakeLockRequest h _).
Qed.




(** A stale chapter behind a chapter that fails fatally: the run is aborted
    at chapter 3 and makes no request for chapter 4, which stays as it
    was. *)
Example stale_chapter_behind_an_abort :
  let cs := [Sample.done 1 "one"; Sample.done 2 "two"; Sample.pending 3;
             Sample.pending 4] in
  let h := Sample.host (fun _ => Rejected Sample.forbidden) in
  let w' := snd (App.startBookGeneration h "p1" standard
                   (Sample.world cs [1; 2; 3; 4])) in
  generated (trace w') = [3]
  /\ alerts (trace w') = [App.generationStopped Sample.forbidden]
  /\ stored (projects w') "p1" 4 = Some (Sample.pending 4).
Proof. vm_compute. repeat split; reflexivity. Qed.

(** Resuming over [Done, Done, Pending, Pending] only generates 3 and 4. *)
Example resumption_run :
  let cs := [Sample.done 1 "one"; Sample.done 2 "two"; Sample.pending 3;
             Sample.pending 4] in
  let h := Sample.host (fun _ => Resolved (Some "text"%string)) in
  let w' := snd (App.startBookGeneration h "p1" standard
                   (Sample.world cs [1; 2; 3; 4])) in
  generated (trace w') = [3; 4]
  /\ map ChapterContent.content
         (match App.findProject (projects w') "p1" with
          | Some p => BookProject.chapters p
          | None => []
          end)
     = ["one"; "two"; "text"; "text"]%string.
Proof. vm_compute. split; reflexivity. Qed.

(** ** C3: the chapter array at the start of a run *)

Lemma Retry_head h chapter r a res evs :
  Retry h chapter r a res evs ->
  exists rest,
    evs = EvGenerateContent (ChapterOutline.chapterNumber chapter) :: rest.
Proof. destruct 1; eauto. Qed.

Lemma Loop_head h projectId todo st r evs st' :
  Loop h projectId todo st r evs st' ->
  evs = [] \/ exists n rest, evs = EvGenerateContent n :: rest.
Proof.
  induction 1 as [| | |co rest st r evs1 st1 evs2 st2 Hd Hf Ha Hl IH]; auto.
  right.
  destruct Ha as [content evs Hr|e evs Hr He|e evs Hr He];
    destruct (Retry_head _ _ _ _ _ _ Hr) as (tl & ->); cbn; eauto.
Qed.

Lemma beforeGeneration_runEvents h w projectId project outline loopEvs st st' r :
  Loop h projectId (BookOutline.chapters outline) st r loopEvs st' ->
  updates (beforeGeneration
             (runEvents h w projectId project outline loopEvs))
  = [startingWrite project outline].
Proof.
  intros Hloop. unfold runEvents, acquireEvents, releaseEvents.
  destruct (Loop_head _ _ _ _ _ _ _ Hloop) as [->|(n & rest & ->)];
    destruct (wakeLockInNavigator h); try destruct (wakeLockRequest h _);
    cbn; try reflexivity;
    destruct (held h w) as [s|]; cbn; try reflexivity;
    destruct (wakeLockRelease h s); reflexivity.
Qed.

(** C3, as the code has it.  At the start of every run, before any backend
    request, one update of the collection stores the snapshot of the project
    with the array the run starts from.  When the project has no chapter
    results that array has one entry per chapter of the outline, in order,
    with its number and title, empty content and [isGenerating = true], so
    that it is reconciled with the outline; when the project has results the
    array is those results, unchanged, whatever the outline says. *)
Theorem chapters_initialised_when_empty (h : Host) (projectId : string)
    (style : WritingStyle) (w : World) (project : BookProject.t)
    (outline : BookOutline.t) :
  App.findProject (projects w) projectId = Some project ->
  BookProject.outline project = Some outline ->
  exists evs w',
    App.startBookGeneration h projectId style w = (Returned tt, w')
    /\ trace w' = trace w ++ evs
    /\ updates (beforeGeneration evs)
       = [UpdReplaceProject
            (BookProject.withChapters project
               (startingChapters project outline))]
    /\ (BookProject.chapters project = [] ->
        startingChapters project outline
        = map (fun c => ChapterContent.mk (ChapterOutline.chapterNumber c)
                          (ChapterOutline.title c) ""%string true)
              (BookOutline.chapters outline)
        /\ reconciled outline (startingChapters project outline))
    /\ (BookProject.chapters project <> [] ->
        startingChapters project outline = BookProject.chapters project).
Proof.
  intros Hfind Houtline.
  destruct (startBookGeneration_run h projectId style w project outline
              Hfind Houtline) as (loopEvs & st' & Hloop & Hrun).
  eexists _, _. split; [exact Hrun|]. cbn [trace].
  split; [reflexivity|]. split.
  - apply (beforeGeneration_runEvents _ _ _ _ _ _ _ _ _ Hloop).
  - unfold startingChapters. split.
    + intros ->. cbn. split; [reflexivity|].
      intros n. unfold App.initialChapters. rewrite map_map. cbn. tauto.
    + destruct (BookProject.chapters project); [congruence|reflexivity].
Qed.

Lemma chapters_initialised_when_empty_witness :
  let w := Sample.world [] [1; 2; 3; 4; 5] in
  let h := Sample.host (fun _ => Resolved (Some "text"%string)) in
  exists evs w',
    App.startBookGeneration h "p1" standard w = (Returned tt, w')
    /\ updates (beforeGeneration evs)
       = [UpdReplaceProject
            (Sample.project (map Sample.pending [1; 2; 3; 4; 5])
               [1; 2; 3; 4; 5])].
Proof.
  intros w h.
  destruct (chapters_initialised_when_empty h "p1" standard w
              (Sample.project [] [1; 2; 3; 4; 5])
              (Sample.outline [1; 2; 3; 4; 5]) eq_refl eq_refl)
    as (evs & w' & Hrun & _ & Hstart & _).
  exists evs, w'. split; [exact Hrun|exact Hstart].
Defined.

(** C3, as stated, fails: with a 5-chapter outline and results for chapters
    1 to 3 only, the array stored at the start of the run, before any
    backend request, has those 3 entries and is not reconciled with the
    outline; chapters 4 and 5 are then generated but have no entry to
    receive their text. *)
Lemma reconciliation_counterexample :
  let cs := [Sample.done 1 "one"; Sample.done 2 "two";
             Sample.done 3 "three"] in
  let outline := Sample.outline [1; 2; 3; 4; 5] in
  let h := Sample.host (fun _ => Resolved (Some "text"%string)) in
  let w' := snd (App.startBookGeneration h "p1" standard
                   (Sample.world cs [1; 2; 3; 4; 5])) in
  updates (beforeGeneration (trace w'))
  = [UpdReplaceProject (Sample.project cs [1; 2; 3; 4; 5])]
  /\ length cs = 3%nat
  /\ ~ reconciled outline cs
  /\ generated (trace w') = [4; 5]
  /\ option_map (fun p => map ChapterContent.chapterNumber
                              (BookProject.chapters p))
                (App.findProject (projects w') "p1")
     = Some [1; 2; 3].
Proof.
  cbv zeta. repeat split; try (vm_compute; reflexivity).
  intros H. destruct (H 4) as [_ H4].
  assert (Hin : In 4 [1; 2; 3]) by (apply H4; cbn; auto).
  cbn in Hin. intuition discriminate.
Qed.

(** ** C4: starting a run while one is in progress *)

(** C4, as the code has it.  [startBookGeneration] has no guard of its own:
    for a project that exists and has an outline it starts a run and behaves
    the same whatever [generatingProjectId] holds, be it the same project or
    another one, and it always returns normally, reporting nothing to its
    caller.  The guard is in the editor: its auto-start effect makes no
    request, silently, while the displayed project is the generating one;
    the flag it reads is set for that project only, not while another
    project generates. *)
Theorem start_is_guarded_by_the_editor_only (h : Host) (projectId : string)
    (style : WritingStyle) (w : World) :
  (forall project outline g,
     App.findProject (projects w) projectId = Some project ->
     BookProject.outline project = Some outline ->
     App.startBookGeneration h projectId style (withGenerating w g)
     = App.startBookGeneration h projectId style w
     /\ exists evs w',
          App.startBookGeneration h projectId style (withGenerating w g)
          = (Returned tt, w')
          /\ trace w' = trace w
                        ++ EvSetGeneratingProjectId (Some projectId) :: evs)
  /\ fst (App.startBookGeneration h projectId style w) = Returned tt
  /\ (forall project isProcessing error selectedStyle,
        ProjectEditor.autoStartEffect project isProcessing true error
          selectedStyle = None)
  /\ (forall activeProject,
        ProjectEditor.isGeneratingGlobal w activeProject = true
        <-> generatingProjectId w = Some (BookProject.id activeProject)).
Proof.
  split; [|repeat split].
  - intros project outline g Hfind Houtline. split.
    + unfold App.startBookGeneration, withGenerating. cbn [projects].
      rewrite Hfind, Houtline. reflexivity.
    + destruct (startBookGeneration_run h projectId style (withGenerating w g)
                  project outline Hfind Houtline)
        as (loopEvs & st' & _ & Hrun).
      eexists _, _. split; [exact Hrun|]. reflexivity.
  - apply startBookGeneration_returns.
  - intros project isProcessing error selectedStyle.
    unfold ProjectEditor.autoStartEffect.
    now rewrite andb_false_r, andb_false_l.
  - unfold ProjectEditor.isGeneratingGlobal.
    destruct (generatingProjectId w) as [g|]; [|discriminate].
    now intros ->%String.eqb_eq.
  - unfold ProjectEditor.isGeneratingGlobal. intros ->.
    apply String.eqb_refl.
Qed.

(** C4, as stated, fails: while a run for "p1" is in progress a second
    request for "p1" is not rejected; it returns normally, marks "p1" as
    generating again and calls the backend. *)
Lemma second_run_counterexample :
  let h := Sample.host (fun _ => Resolved (Some "text"%string)) in
  let running := withGenerating (Sample.world [] [1]) (Some "p1"%string) in
  let r := App.startBookGeneration h "p1" standard running in
  generatingProjectId running = Some "p1"%string
  /\ fst r = Returned tt
  /\ hd_error (trace (snd r)) = Some (EvSetGeneratingProjectId (Some "p1"%string))
  /\ generated (trace (snd r)) = [1].
Proof. vm_compute. repeat split; reflexivity. Qed.

(** ** C8: the writes of the pipeline *)

Lemma Loop_updates h projectId todo st r evs st' :
  Loop h projectId todo st r evs st' ->
  Forall (fun u => exists n, chapterUpdate projectId n u) (updates evs).
Proof.
  induction 1 as [| | |co rest st r evs1 st1 evs2 st2 Hd Hf Ha Hl IH];
    try constructor; auto.
  destruct (Attempt_updates _ _ _ _ _ _ _ Ha) as (u & Hu & Hcu).
  rewrite updates_app, Hu. constructor; eauto.
Qed.

Lemma updates_runEvents h w projectId project outline loopEvs :
  updates (runEvents h w projectId project outline loopEvs)
  = runUpdates project outline loopEvs.
Proof.
  unfold runEvents, runUpdates. cbn [updates flat_map app].
  fold (updates (acquireEvents h w
                 ++ EvSetProjects (startingWrite project outline)
                 :: loopEvs
                 ++ EvSetGeneratingProjectId None
                 :: releaseEvents h (held h w))).
  rewrite updates_app. cbn [updates flat_map app].
  fold (updates (loopEvs ++ EvSetGeneratingProjectId None
                 :: releaseEvents h (held h w))).
  rewrite updates_app. cbn [updates flat_map app].
  replace (updates (acquireEvents h w)) with (@nil Updater).
  - replace (flat_map _ (releaseEvents h (held h w))) with (@nil Updater).
    + cbn. now rewrite app_nil_r.
    + unfold releaseEvents.
      destruct (held h w) as [s|]; [|reflexivity].
      now destruct (wakeLockRelease h s).
  - unfold acquireEvents. destruct (wakeLockInNavigator h); [|reflexivity].
    now destruct (wakeLockRequest h _).
Qed.

Lemma applyUpdater_written_frame projectId n content now prev :
  map BookProject.frame
      (App.applyUpdater (UpdChapterWritten projectId n content now) prev)
  = map BookProject.frame prev.
Proof.
  cbn [App.applyUpdater]. rewrite map_map. apply map_ext. intros p.
  now destruct (String.eqb (BookProject.id p) projectId).
Qed.

Lemma applyUpdater_failed_frame projectId n isFatal prev :
  map (fun p => (BookProject.frame p, BookProject.lastModified p))
      (App.applyUpdater (UpdChapterFailed projectId n isFatal) prev)
  = map (fun p => (BookProject.frame p, BookProject.lastModified p)) prev.
Proof.
  cbn [App.applyUpdater]. rewrite map_map. apply map_ext. intros p.
  now destruct (String.eqb (BookProject.id p) projectId).
Qed.

Lemma Forall2_map_r {A B} (R : A -> B -> Prop) (f : A -> B) (l : list A) :
  (forall a, R a (f a)) -> Forall2 R l (map f l).
Proof. intros H. induction l; cbn; constructor; auto. Qed.

(** What the three kinds of update make of a collection. *)
Lemma chapter_updates_merge (projectId : string) (n : Z)
    (prev : list BookProject.t) :
  (forall content now,
     let after :=
       App.applyUpdater (UpdChapterWritten projectId n content now) prev in
     map BookProject.frame after = map BookProject.frame prev
     /\ Forall2
          (fun p q =>
             (BookProject.id p <> projectId -> q = p)
             /\ (BookProject.id p = projectId ->
                 BookProject.chapters q
                 = App.markWritten (BookProject.chapters p) n content
                 /\ BookProject.lastModified q = now))
          prev after
     /\ stored after projectId n
        = option_map
            (fun c => ChapterContent.mk (ChapterContent.chapterNumber c)
                        (ChapterContent.title c) content false)
            (stored prev projectId n)
     /\ forall m, m <> n -> stored after projectId m = stored prev projectId m)
  /\ (forall isFatal,
        let after :=
          App.applyUpdater (UpdChapterFailed projectId n isFatal) prev in
        map BookProject.frame after = map BookProject.frame prev
        /\ Forall2
             (fun p q =>
                (BookProject.id p <> projectId -> q = p)
                /\ (BookProject.id p = projectId ->
                    BookProject.chapters q
                    = App.markWritten (BookProject.chapters p) n
                        (App.failedContent isFatal)
                    /\ BookProject.lastModified q = BookProject.lastModified p))
             prev after
        /\ stored after projectId n
           = option_map
               (fun c => ChapterContent.mk (ChapterContent.chapterNumber c)
                           (ChapterContent.title c)
                           (App.failedContent isFatal) false)
               (stored prev projectId n)
        /\ forall m, m <> n ->
             stored after projectId m = stored prev projectId m)
  /\ (forall project cs,
        Forall2
          (fun p q =>
             (BookProject.id p <> BookProject.id project -> q = p)
             /\ (BookProject.id p = BookProject.id project ->
                 BookProject.id q = BookProject.id project
                 /\ BookProject.chapters q = cs))
          prev
          (App.applyUpdater
             (UpdReplaceProject (BookProject.withChapters project cs)) prev)).
Proof.
  split; [|split].
  - intros content now after. subst after. repeat split.
    + apply applyUpdater_written_frame.
    + cbn [App.applyUpdater]. apply Forall2_map_r. intros p. cbv beta.
      destruct (String.eqb_spec (BookProject.id p) projectId); cbn;
        (split; intros Hp; [|split]); congruence || reflexivity.
    + apply stored_written.
    + intros m Hm.
      apply stored_other_chapter with (projectId := projectId) (m := n);
        [now cbn|congruence].
  - intros isFatal after. subst after. repeat split.
    + pose proof (applyUpdater_failed_frame projectId n isFatal prev) as H.
      apply (f_equal (map fst)) in H. now rewrite !map_map in H.
    + cbn [App.applyUpdater]. apply Forall2_map_r. intros p. cbv beta.
      destruct (String.eqb_spec (BookProject.id p) projectId); cbn;
        (split; intros Hp; [|split]); congruence || reflexivity.
    + apply stored_failed.
    + intros m Hm.
      apply stored_other_chapter with (projectId := projectId) (m := n);
        [now cbn|congruence].
  - intros project cs. cbn [App.applyUpdater]. apply Forall2_map_r. intros p. cbn.
    destruct (String.eqb_spec (BookProject.id p) (BookProject.id project));
      cbn; (split; intros Hp; [|split]); congruence || reflexivity.
Qed.

(** The one write of an iteration of the loop. *)
Lemma attemptChapter_write (h : Host) (project : BookProject.t)
    (outline : BookOutline.t) (projectId : string) (style : WritingStyle)
    (chapOutline : ChapterOutline.t) (st : App.Locals) (w : World) :
  let n := ChapterOutline.chapterNumber chapOutline in
  exists st' evs u,
    App.attemptChapter h project outline projectId style chapOutline st w
    = (Returned st', replay w evs)
    /\ updates evs = [u]
    /\ match fst (Gemini.writeChapter h chapOutline outline
                    (BookProject.sources project) style w) with
       | Returned content =>
           exists now, u = UpdChapterWritten projectId n content now
       | Thrown e => u = UpdChapterFailed projectId n (App.isFatal e)
       | OutOfFuel => False
       end.
Proof.
  intros n.
  destruct (writeChapter_Retry h chapOutline outline
              (BookProject.sources project) style w)
    as (res & evs & Hrun & Hretry).
  pose proof (Retry_quiet _ _ _ _ _ _ Hretry) as (_ & Hupd & _ & _).
  rewrite advance_replay in Hrun by assumption.
  unfold App.attemptChapter, tryCatch, bind. rewrite Hrun. cbn [fst].
  destruct (Retry_settles _ _ _ _ _ _ Hretry)
    as [[content ->]|(e & -> & _)].
  - rewrite setProjects_replay, replay_app. unfold ret.
    eexists _, _, _. split; [reflexivity|].
    rewrite updates_app, Hupd. split; [reflexivity|]. eexists. reflexivity.
  - rewrite consoleError_replay, replay_app.
    destruct (App.isFatal e) eqn:Hfatal.
    + rewrite alert_replay, setProjects_replay, !replay_app. unfold ret.
      rewrite <- !app_assoc. cbn [app].
      eexists _, _, _. split; [reflexivity|].
      rewrite updates_app, Hupd. split; reflexivity.
    + unfold ret at 1. cbv beta iota.
      rewrite setProjects_replay, !replay_app. unfold ret.
      rewrite <- !app_assoc. cbn [app].
      eexists _, _, _. split; [reflexivity|].
      rewrite updates_app, Hupd. split; reflexivity.
Qed.

(** The writes of the loop are writes for chapters of its list. *)
Lemma Loop_updates_in h projectId todo st r evs st' :
  Loop h projectId todo st r evs st' ->
  Forall (fun u => exists c, In c todo
                             /\ chapterUpdate projectId
                                  (ChapterOutline.chapterNumber c) u)
         (updates evs).
Proof.
  induction 1 as [|co rest st r evs st' Hd Hl IH|
                  |co rest st r evs1 st1 evs2 st2 Hd Hf Ha Hl IH];
    try constructor.
  - eapply Forall_impl; [|exact IH].
    intros u (c & Hc & Hu). exists c. split; [now right|assumption].
  - destruct (Attempt_updates _ _ _ _ _ _ _ Ha) as (u & Hu & Hcu).
    rewrite updates_app, Hu. constructor.
    + exists co. split; [now left|assumption].
    + eapply Forall_impl; [|exact IH].
      intros u' (c & Hc & Hu'). exists c. split; [now right|assumption].
Qed.

(** C8, as the code has it.  Every iteration of the chapter loop that
    reaches the [try] statement makes exactly one write, and applies it to
    the collection that is the latest when it is made: the success write
    with the text that [writeChapter] returned, or the failure write when
    [writeChapter] threw.  Applied to any collection, whatever it has become
    in the meantime, that write is a merge: every project keeps its id,
    title, sources, outline, step, series and voice; projects with another
    id are untouched; in the projects with the id of the run the chapters
    with the processed number get the new content and [isGenerating = false]
    and all other chapters are untouched.  The success write also sets
    [lastModified] of the project to the current time; the failure write
    keeps it.  So a title edited from outside before the write is applied is
    still there afterwards, next to the new content.  In a run, the first
    write is the one at its start, which leaves the projects with another id
    untouched and gives the projects with the id of the run the starting
    chapter array, and every later write is such a write for a chapter of
    the outline. *)
Theorem chapter_writes_are_merges (h : Host) (project : BookProject.t)
    (outline : BookOutline.t) (projectId : string) (style : WritingStyle)
    (chapOutline : ChapterOutline.t) (st : App.Locals) (w : World) :
  let n := ChapterOutline.chapterNumber chapOutline in
  let result content c :=
    ChapterContent.mk (ChapterContent.chapterNumber c)
                      (ChapterContent.title c) content false in
  (exists st' evs u,
     App.attemptChapter h project outline projectId style chapOutline st w
     = (Returned st', replay w evs)
     /\ updates evs = [u]
     /\ projects (replay w evs) = App.applyUpdater u (projects w)
     /\ ((exists content now,
            fst (Gemini.writeChapter h chapOutline outline
                   (BookProject.sources project) style w) = Returned content
            /\ u = UpdChapterWritten projectId n content now
            /\ forall prev,
                 let after := App.applyUpdater u prev in
                 map BookProject.frame after = map BookProject.frame prev
                 /\ Forall2
                      (fun p q =>
                         (BookProject.id p <> projectId -> q = p)
                         /\ (BookProject.id p = projectId ->
                             BookProject.chapters q
                             = App.markWritten (BookProject.chapters p) n
                                 content
                             /\ BookProject.lastModified q = now))
                      prev after
                 /\ stored after projectId n
                    = option_map (result content) (stored prev projectId n)
                 /\ forall m, m <> n ->
                      stored after projectId m = stored prev projectId m)
         \/ (exists e,
               fst (Gemini.writeChapter h chapOutline outline
                      (BookProject.sources project) style w) = Thrown e
               /\ u = UpdChapterFailed projectId n (App.isFatal e)
               /\ forall prev,
                    let after := App.applyUpdater u prev in
                    map BookProject.frame after = map BookProject.frame prev
                    /\ Forall2
                         (fun p q =>
                            (BookProject.id p <> projectId -> q = p)
                            /\ (BookProject.id p = projectId ->
                                BookProject.chapters q
                                = App.markWritten (BookProject.chapters p) n
                                    (App.failedContent (App.isFatal e))
                                /\ BookProject.lastModified q
                                   = BookProject.lastModified p))
                         prev after
                    /\ stored after projectId n
                       = option_map
                           (result (App.failedContent (App.isFatal e)))
                           (stored prev projectId n)
                    /\ forall m, m <> n ->
                         stored after projectId m
                         = stored prev projectId m)))
  /\ (forall w0,
        App.findProject (projects w0) projectId = Some project ->
        BookProject.outline project = Some outline ->
        exists evs w' later,
          App.startBookGeneration h projectId style w0 = (Returned tt, w')
          /\ trace w' = trace w0 ++ evs
          /\ updates evs = startingWrite project outline :: later
          /\ projects w'
             = fold_left (fun ps u => App.applyUpdater u ps) (updates evs)
                         (projects w0)
          /\ Forall
               (fun u =>
                  exists c,
                    In c (BookOutline.chapters outline)
                    /\ ((exists content now,
                           u = UpdChapterWritten projectId
                                 (ChapterOutline.chapterNumber c) content now)
                        \/ exists isFatal,
                             u = UpdChapterFailed projectId
                                   (ChapterOutline.chapterNumber c) isFatal)
                    /\ forall prev,
                         map BookProject.frame (App.applyUpdater u prev)
                         = map BookProject.frame prev
                         /\ Forall2
                              (fun p q =>
                                 BookProject.id p <> projectId -> q = p)
                              prev (App.applyUpdater u prev)
                         /\ forall m,
                              m <> ChapterOutline.chapterNumber c ->
                              stored (App.applyUpdater u prev) projectId m
                              = stored prev projectId m)
               later
          /\ forall prev,
               Forall2
                 (fun p q =>
                    (BookProject.id p <> projectId -> q = p)
                    /\ (BookProject.id p = projectId ->
                        BookProject.id q = projectId
                        /\ BookProject.chapters q
                           = startingChapters project outline))
                 prev
                 (App.applyUpdater (startingWrite project outline) prev)).
Proof.
  intros n result. split.
  - destruct (attemptChapter_write h project outline projectId style
                chapOutline st w) as (st' & evs & u & Hrun & Hu & Hcase).
    exists st', evs, u. split; [exact Hrun|]. split; [exact Hu|].
    split; [unfold replay; cbn [projects]; now rewrite Hu|].
    fold n in Hcase.
    destruct (fst (Gemini.writeChapter h chapOutline outline
                     (BookProject.sources project) style w))
      as [content|e|]; [left|right|contradiction].
    + destruct Hcase as (now & ->). exists content, now.
      split; [reflexivity|]. split; [reflexivity|]. intros prev.
      exact (proj1 (chapter_updates_merge projectId n prev) content now).
    + subst u. exists e. split; [reflexivity|]. split; [reflexivity|].
      intros prev.
      exact (proj1 (proj2 (chapter_updates_merge projectId n prev))
               (App.isFatal e)).
  - intros w0 Hfind Houtline.
    destruct (startBookGeneration_run h projectId style w0 project outline
                Hfind Houtline) as (loopEvs & st' & Hloop & Hrun).
    pose proof (findProject_id _ _ _ Hfind) as Hid.
    eexists _, _, (updates loopEvs). split; [exact Hrun|].
    cbn [trace projects]. split; [reflexivity|].
    rewrite updates_runEvents. unfold runUpdates.
    split; [reflexivity|]. split; [reflexivity|].
    split.
    + eapply Forall_impl; [|exact (Loop_updates_in _ _ _ _ _ _ _ Hloop)].
      intros u (c & Hc & Hu). exists c. split; [assumption|].
      destruct u as [q|pid m content now|pid m isFatal]; cbn in Hu;
        [contradiction| |]; destruct Hu as [-> ->].
      * split; [left; eauto|]. intros prev.
        destruct (proj1 (chapter_updates_merge projectId
                           (ChapterOutline.chapterNumber c) prev)
                    content now) as (Hframe & Hall & _ & Hother).
        split; [exact Hframe|]. split; [|exact Hother].
        eapply Forall2_impl; [|exact Hall]. now intros p q [H _].
      * split; [right; eauto|]. intros prev.
        destruct (proj1 (proj2 (chapter_updates_merge projectId
                                  (ChapterOutline.chapterNumber c) prev))
                    isFatal) as (Hframe & Hall & _ & Hother).
        split; [exact Hframe|]. split; [|exact Hother].
        eapply Forall2_impl; [|exact Hall]. now intros p q [H _].
    + intros prev. unfold startingWrite. cbn [App.applyUpdater].
      apply Forall2_map_r. intros p.
      cbn [BookProject.id BookProject.withChapters]. rewrite Hid.
      destruct (String.eqb_spec (BookProject.id p) projectId);
        split; intros Hp; try congruence.
      split; [exact Hid|reflexivity].
Qed.

(** The title edited while chapter 2 is being generated survives the write
    of chapter 2. *)
Example title_edit_survives :
  let cs := [Sample.done 1 "one"; Sample.pending 2] in
  let project := Sample.project cs [1; 2] in
  let edited := App.applyUpdater (titleEdit project "New title" 2000) [project] in
  let after := App.applyUpdater (UpdChapterWritten "p1" 2 "two" 3000) edited in
  map BookProject.title after = ["New title"%string]
  /\ stored after "p1" 2 = Some (Sample.done 2 "two").
Proof. vm_compute. split; reflexivity. Qed.

(** The same in the pipeline: the title is edited after the run has started,
    and the iteration for chapter 2, which still works on the snapshot of
    the project, writes its result into the edited project. *)
Example title_edit_survives_the_iteration :
  let cs := [Sample.done 1 "one"; Sample.pending 2] in
  let project := Sample.project cs [1; 2] in
  let h := Sample.host (fun _ => Resolved (Some "two"%string)) in
  let edited :=
    snd (App.setProjects (titleEdit project "New title" 2000)
           (Sample.world cs [1; 2])) in
  let r := App.attemptChapter h project (Sample.outline [1; 2]) "p1" standard
             (Sample.chapter 2) (App.mkLocals cs false) edited in
  map BookProject.title (projects edited) = ["New title"%string]
  /\ map BookProject.title (projects (snd r)) = ["New title"%string]
  /\ stored (projects (snd r)) "p1" 2 = Some (Sample.done 2 "two")
  /\ stored (projects (snd r)) "p1" 1 = Some (Sample.done 1 "one").
Proof. vm_compute. repeat split; reflexivity. Qed.

(** C8, as stated, fails twice.  The success write changes a field other
    than the chapters, [lastModified]; and the write at the start of a run
    is not a merge: it stores the snapshot taken when the run was requested,
    so a title edited in the meantime is reverted. *)
Lemma merge_counterexample :
  let project := Sample.project [Sample.pending 1] [1] in
  let outline := Sample.outline [1] in
  (map BookProject.lastModified
       (App.applyUpdater (UpdChapterWritten "p1" 1 "text" 3000) [project])
   <> map BookProject.lastModified [project])
  /\ (let edited :=
        App.applyUpdater (titleEdit project "New title" 2000) [project] in
      map BookProject.title edited = ["New title"%string]
      /\ map BookProject.title
             (App.applyUpdater (startingWrite project outline) edited)
         = ["Title"%string]).
Proof. vm_compute. repeat split; try reflexivity. discriminate. Qed.

(** ** C9: empty responses *)

(** C9, as the code has it.  A response without text is not a failure:
    [writeChapter] returns the empty string after that single request,
    without retrying or sleeping, and the iteration stores it through the
    success write, with [isGenerating = false]; the content written on
    success is empty exactly when the response has no text or an empty one.
    What is retried is a rejected request whose error is not fatal: it is
    followed by a sleep of 2 s and a second request. *)
Theorem empty_response_is_written (h : Host) (project : BookProject.t)
    (outline : BookOutline.t) (projectId : string) (style : WritingStyle)
    (chapOutline : ChapterOutline.t) (st : App.Locals) (w : World) :
  let n := ChapterOutline.chapterNumber chapOutline in
  (forall text,
     generateContent h (requests w) = Resolved text ->
     Gemini.writeChapter h chapOutline outline (BookProject.sources project)
       style w
     = (Returned (orElse text ""), advance w 1 [EvGenerateContent n])
     /\ App.attemptChapter h project outline projectId style chapOutline st w
        = (Returned
             (App.mkLocals
                (App.markWritten (App.currentChapters st) n (orElse text ""))
                (App.hasFatalError st)),
           replay w
             [EvGenerateContent n;
              EvSetProjects
                (UpdChapterWritten projectId n (orElse text "")
                   (dateNow h (S (requests w))))])
     /\ (orElse text "" = ""%string
         <-> text = None \/ text = Some ""%string))
  /\ (forall e,
        generateContent h (requests w) = Rejected e ->
        Gemini.isFatalError e = false ->
        exists res rest,
          Gemini.writeChapter h chapOutline outline
            (BookProject.sources project) style w
          = (res, advance w (2 + length (generated rest))
                    (EvGenerateContent n
                     :: EvConsoleError (Gemini.attemptFailed 0 chapOutline)
                     :: EvSleep 2000 :: EvGenerateContent n :: rest))).
Proof.
  intros n. split.
  - intros text Hg.
    assert (Hretry : forall res evs,
               Retry h chapOutline (requests w) 1 res evs ->
               res = Returned (orElse text "")
               /\ evs = [EvGenerateContent n]).
    { intros res evs Hr. retry_inv Hr. split; [congruence|reflexivity]. }
    repeat split.
    + destruct (writeChapter_Retry h chapOutline outline
                  (BookProject.sources project) style w)
        as (res & evs & Hrun & Hr).
      destruct (Hretry _ _ Hr) as [-> ->]. exact Hrun.
    + destruct (attemptChapter_Attempt h project outline projectId style
                  chapOutline st w) as (evs & st' & Hrun & Hattempt).
      rewrite Hrun.
      destruct Hattempt as [content evs0 Hr|e evs0 Hr Hf|e evs0 Hr Hf];
        destruct (Hretry _ _ Hr) as [[=] ->]; subst.
      cbn [app generated flat_map length]. now rewrite Nat.add_1_r.
    + destruct text as [[|c s]|]; cbn; auto; discriminate.
    + intros [->| ->]; reflexivity.
  - intros e Hg Hf.
    destruct (writeChapter_Retry h chapOutline outline
                (BookProject.sources project) style w)
      as (res & evs & Hrun & Hr).
    retry_inv Hr.
    match goal with
    | H : Retry _ _ _ _ _ ?evs' |- _ =>
        destruct (Retry_head _ _ _ _ _ _ H) as (rest & ->)
    end.
    exists res, rest. rewrite Hrun. reflexivity.
Qed.

Lemma empty_response_is_written_witness :
  let h := Sample.host (fun _ => Resolved None) in
  Gemini.writeChapter h (Sample.chapter 1) (Sample.outline [1]) [] standard
    (Sample.world [] [1])
  = (Returned ""%string,
     advance (Sample.world [] [1]) 1 [EvGenerateContent 1]).
Proof.
  intros h.
  destruct (empty_response_is_written h (Sample.project [] [1])
              (Sample.outline [1]) "p1" standard (Sample.chapter 1)
              (App.mkLocals [] false) (Sample.world [] [1]))
    as [Hempty _].
  exact (proj1 (Hempty None eq_refl)).
Defined.

(** C9, as stated, fails: when the backend answers without text, chapter 1
    is requested once, with no retry and no sleep, and ends the run written
    by the success update with empty content and [isGenerating = false]. *)
Lemma empty_content_counterexample :
  let h := Sample.host (fun _ => Resolved None) in
  let w' := snd (App.startBookGeneration h "p1" standard
                   (Sample.world [] [1])) in
  generated (trace w') = [1]
  /\ sleeps (trace w') = []
  /\ last (updates (trace w')) (UpdChapterFailed "" 0 false)
     = UpdChapterWritten "p1" 1 "" 1001
  /\ stored (projects w') "p1" 1
     = Some (ChapterContent.mk 1 "Chapter" "" false).
Proof. vm_compute. repeat split; reflexivity. Qed.

(** ** C10: the wake lock *)

Lemma wake_runEvents h projectId project outline loopEvs st st' r :
  Loop h projectId (BookOutline.chapters outline) st r loopEvs st' ->
  lockRequests (EvSetProjects (startingWrite project outline)
                :: loopEvs ++ [EvSetGeneratingProjectId None]) = []
  /\ releases (EvSetProjects (startingWrite project outline)
               :: loopEvs ++ [EvSetGeneratingProjectId None]) = [].
Proof.
  intros Hloop. destruct (Loop_wake _ _ _ _ _ _ _ Hloop) as [H1 H2].
  cbn [lockRequests releases flat_map app].
  fold (lockRequests (loopEvs ++ [EvSetGeneratingProjectId None])).
  fold (releases (loopEvs ++ [EvSetGeneratingProjectId None])).
  now rewrite lockRequests_app, releases_app, H1, H2.
Qed.

(** C10, as the code has it.  A run on its own, from the call to the return
    with no other handler in between, in which the backend rejects with
    [Error] objects, requests the wake lock once, right after it is marked
    as generating and before anything else, provided the capability exists;
    whether the request yields a sentinel, throws or cannot be made, the run
    goes on and returns normally.  When a sentinel was obtained, [release()]
    is called on it exactly once, after the chapter loop has ended, be it by
    completion or by a fatal abort, and after the run is marked as no longer
    generating.  When none was obtained and none was held, [release()] is
    not called. *)
Theorem wake_lock_released_once (h : Host) (projectId : string)
    (style : WritingStyle) (w : World) (project : BookProject.t)
    (outline : BookOutline.t) :
  App.findProject (projects w) projectId = Some project ->
  BookProject.outline project = Some outline ->
  exists body w',
    App.startBookGeneration h projectId style w = (Returned tt, w')
    /\ Untyped.startBookGeneration h (typedBackend h) projectId style w
       = (Untyped.Normal tt, w')
    /\ trace w'
       = trace w
         ++ EvSetGeneratingProjectId (Some projectId)
            :: acquireEvents h w ++ body ++ releaseEvents h (held h w)
    /\ lockRequests body = [] /\ releases body = []
    /\ generated (trace w') = generated (trace w) ++ generated body
    /\ alerts (trace w') = alerts (trace w) ++ alerts body
    /\ lockRequests (acquireEvents h w)
       = (if wakeLockInNavigator h then [tt] else [])
    /\ releases (acquireEvents h w) = []
    /\ (forall s, acquired h w = Some s ->
          acquireEvents h w = [EvWakeLockRequest]
          /\ held h w = Some s
          /\ releases (releaseEvents h (held h w)) = [s]
          /\ hd_error (releaseEvents h (held h w)) = Some (EvWakeLockRelease s)
          /\ (wakeLockRelease h s = true ->
              releaseEvents h (held h w) = [EvWakeLockRelease s]
              /\ wakeLockRef w' = None))
    /\ (acquired h w = None -> wakeLockRef w = None ->
        releaseEvents h (held h w) = [] /\ wakeLockRef w' = None).
Proof.
  intros Hfind Houtline.
  destruct (startBookGeneration_run h projectId style w project outline
              Hfind Houtline) as (loopEvs & st' & Hloop & Hrun).
  destruct (wake_runEvents h projectId project outline _ _ _ _ Hloop)
    as [Hreq Hrel].
  exists (EvSetProjects (startingWrite project outline)
          :: loopEvs ++ [EvSetGeneratingProjectId None]).
  eexists. split; [exact Hrun|].
  split; [rewrite startBookGeneration_typed; unfold Untyped.lift;
          now rewrite Hrun|].
  cbn [trace wakeLockRef].
  pose proof (generated_runEvents h w projectId project outline loopEvs) as Hg.
  pose proof (alerts_runEvents h w projectId project outline loopEvs) as Ha.
  split; [unfold runEvents; cbn [app]; now rewrite <- !app_assoc|].
  split; [assumption|]. split; [assumption|].
  split.
  { rewrite generated_app, Hg. cbn [generated flat_map app].
    fold (generated (loopEvs ++ [EvSetGeneratingProjectId None])).
    rewrite generated_app. cbn. now rewrite app_nil_r. }
  split.
  { rewrite alerts_app, Ha. cbn [alerts flat_map app].
    fold (alerts (loopEvs ++ [EvSetGeneratingProjectId None])).
    rewrite alerts_app. cbn. now rewrite app_nil_r. }
  split.
  { unfold acquireEvents. destruct (wakeLockInNavigator h); [|reflexivity].
    now destruct (wakeLockRequest h _). }
  split.
  { unfold acquireEvents. destruct (wakeLockInNavigator h); [|reflexivity].
    now destruct (wakeLockRequest h _). }
  split.
  - intros s Hs. unfold held. rewrite Hs.
    split.
    { unfold acquired, acquireEvents in *.
      destruct (wakeLockInNavigator h); [|discriminate]. now rewrite Hs. }
    split; [reflexivity|].
    cbn [releaseEvents afterRelease].
    split; [now destruct (wakeLockRelease h s)|].
    split; [reflexivity|].
    intros ->. split; reflexivity.
  - intros Hnone Href. unfold held. rewrite Hnone, Href. split; reflexivity.
Qed.

(** When the project is unknown or has no outline nothing happens at all:
    no run starts and the wake lock is not touched. *)
Lemma no_run_without_outline (h : Host) (projectId : string)
    (style : WritingStyle) (w : World) :
  match App.findProject (projects w) projectId with
  | Some project => BookProject.outline project = None
  | None => True
  end ->
  App.startBookGeneration h projectId style w = (Returned tt, w).
Proof.
  unfold App.startBookGeneration.
  destruct (App.findProject (projects w) projectId) as [project|];
    [|reflexivity].
  now intros ->.
Qed.

Lemma wake_lock_released_once_witness :
  let h := Sample.host (fun n => match n with
                                 | 0%nat => Rejected Sample.forbidden
                                 | _ => Resolved (Some "text"%string)
                                 end) in
  let w := Sample.world [] [1; 2] in
  exists body w',
    App.startBookGeneration h "p1" standard w = (Returned tt, w')
    /\ trace w'
       = EvSetGeneratingProjectId (Some "p1"%string)
         :: EvWakeLockRequest :: body ++ [EvWakeLockRelease 7%nat]
    /\ lockRequests body = [] /\ releases body = [].
Proof.
  intros h w.
  destruct (wake_lock_released_once h "p1" standard w
              (Sample.project [] [1; 2]) (Sample.outline [1; 2])
              eq_refl eq_refl)
    as (body & w' & Hrun & _ & Htrace & Hreq & Hrel & _).
  exists body, w'. repeat split; assumption.
Defined.

(** The wake lock on the two exit paths and without the capability. *)
Example wake_lock_runs :
  let completes := Sample.host (fun _ => Resolved (Some "text"%string)) in
  let aborts := Sample.host (fun _ => Rejected Sample.forbidden) in
  let without :=
    mkHost (fun _ => Resolved (Some "text"%string)) false (fun _ => None)
           (fun _ => true) (fun _ => 0) in
  let refused :=
    mkHost (fun _ => Resolved (Some "text"%string)) true (fun _ => None)
           (fun _ => true) (fun _ => 0) in
  let run h := snd (App.startBookGeneration h "p1" standard
                      (Sample.world [] [1; 2])) in
  (lockRequests (trace (run completes)) = [tt]
   /\ releases (trace (run completes)) = [7%nat]
   /\ alerts (trace (run completes)) = [])
  /\ (lockRequests (trace (run aborts)) = [tt]
      /\ releases (trace (run aborts)) = [7%nat]
      /\ length (alerts (trace (run aborts))) = 1%nat)
  /\ (lockRequests (trace (run without)) = []
      /\ releases (trace (run without)) = []
      /\ generated (trace (run without)) = [1; 2])
  /\ (lockRequests (trace (run refused)) = [tt]
      /\ releases (trace (run refused)) = []
      /\ generated (trace (run refused)) = [1; 2]).
Proof. vm_compute. repeat split; reflexivity. Qed.

(** The release at the end of a run acts on whatever the one ref holds at
    that moment. *)
Lemma run_end_releases_the_ref (h : Host) (w : World) :
  bind (App.setGeneratingProjectId None) (fun _ => App.releaseWakeLock h) w
  = (Returned tt,
     mkWorld (projects w) None (afterRelease h (wakeLockRef w)) (requests w)
             (trace w ++ EvSetGeneratingProjectId None
                         :: releaseEvents h (wakeLockRef w))).
Proof.
  unfold bind at 1. unfold App.setGeneratingProjectId. cbv beta iota.
  rewrite releaseWakeLock_run. cbn. now rewrite <- app_assoc.
Qed.

(** X23.  There is one wake-lock ref for all runs, and
    [releaseWakeLock] releases what the ref holds when it is called, not
    what the run obtained.  Let a run be in progress, holding the sentinel
    [sA] in the ref, and let a second run be started before the first has
    ended (the editor only guards the project being generated).  The
    request of the second run stores its own sentinel [sB] over [sA].
    Run to its end while the first still waits, the second run releases
    [sB] and empties the ref; the first run then finds the ref empty at its
    end and releases nothing.  Should the first run end while the second is
    still in progress, it releases [sB], the sentinel of the second.  Either
    way [release()] is never called on [sA]: two acquisitions, one
    release. *)
Theorem overlapping_runs_leak_the_wake_lock (hA hB : Host)
    (projectId : string) (style : WritingStyle) (w : World)
    (project : BookProject.t) (outline : BookOutline.t)
    (sA sB : WakeLockSentinel) :
  wakeLockRef w = Some sA ->
  App.findProject (projects w) projectId = Some project ->
  BookProject.outline project = Some outline ->
  acquired hB w = Some sB ->
  wakeLockRelease hB sB = true ->
  sA <> sB ->
  (exists w1,
     App.requestWakeLock hB w = (Returned tt, w1)
     /\ trace w1 = trace w ++ [EvWakeLockRequest]
     /\ wakeLockRef w1 = Some sB
     /\ exists w2,
          bind (App.setGeneratingProjectId None)
               (fun _ => App.releaseWakeLock hA) w1 = (Returned tt, w2)
          /\ releases (trace w2) = releases (trace w) ++ [sB]
          /\ (wakeLockRelease hA sB = true -> wakeLockRef w2 = None))
  /\ exists evs w',
       App.startBookGeneration hB projectId style w = (Returned tt, w')
       /\ trace w' = trace w ++ evs
       /\ lockRequests evs = [tt]
       /\ releases evs = [sB]
       /\ ~ In sA (releases evs)
       /\ wakeLockRef w' = None
       /\ forall later,
            wakeLockRef later = None ->
            exists w'',
              bind (App.setGeneratingProjectId None)
                   (fun _ => App.releaseWakeLock hA) later = (Returned tt, w'')
              /\ trace w'' = trace later ++ [EvSetGeneratingProjectId None]
              /\ releases (trace w'') = releases (trace later)
              /\ wakeLockRef w'' = None.
Proof.
  intros Href Hfind Houtline Hacquired Hrelease Hfresh.
  assert (Hheld : held hB w = Some sB) by (unfold held; now rewrite Hacquired).
  assert (Hevents : acquireEvents hB w = [EvWakeLockRequest]).
  { unfold acquired, acquireEvents in *.
    destruct (wakeLockInNavigator hB); [|discriminate].
    now rewrite Hacquired. }
  split.
  - rewrite requestWakeLock_run, Hheld, Hevents.
    eexists. split; [reflexivity|]. cbn [trace wakeLockRef].
    split; [reflexivity|]. split; [reflexivity|].
    rewrite run_end_releases_the_ref. cbn [wakeLockRef trace].
    eexists. split; [reflexivity|]. cbn [trace wakeLockRef].
    split.
    + rewrite !releases_app. cbn [releaseEvents].
      cbn [releases flat_map app].
      destruct (wakeLockRelease hA sB); cbn; now rewrite ?app_nil_r.
    + intros H. cbn [afterRelease]. now rewrite H.
  - destruct (startBookGeneration_run hB projectId style w project outline
                Hfind Houtline) as (loopEvs & st' & Hloop & Hrun).
    destruct (wake_runEvents hB projectId project outline _ _ _ _ Hloop)
      as [Hreq Hrel].
    eexists _, _. split; [exact Hrun|]. cbn [trace wakeLockRef].
    split; [reflexivity|].
    assert (Hreleases : releases (runEvents hB w projectId project outline
                                    loopEvs) = [sB]).
    { unfold runEvents. rewrite Hevents, Hheld.
      cbn [app releases flat_map releaseEvents]. rewrite Hrelease.
      fold (releases (loopEvs ++ [EvSetGeneratingProjectId None;
                                  EvWakeLockRelease sB])).
      destruct (Loop_wake _ _ _ _ _ _ _ Hloop) as [_ H2].
      rewrite releases_app, H2. reflexivity. }
    split.
    { unfold runEvents. rewrite Hevents, Hheld.
      cbn [app lockRequests flat_map releaseEvents]. rewrite Hrelease.
      fold (lockRequests (loopEvs ++ [EvSetGeneratingProjectId None;
                                      EvWakeLockRelease sB])).
      destruct (Loop_wake _ _ _ _ _ _ _ Hloop) as [H1 _].
      rewrite lockRequests_app, H1. reflexivity. }
    split; [exact Hreleases|].
    split; [rewrite Hreleases; intros [H|[]]; congruence|].
    split; [rewrite Hheld; cbn [afterRelease]; now rewrite Hrelease|].
    intros later Hlater. rewrite run_end_releases_the_ref, Hlater.
    eexists. split; [reflexivity|]. cbn [trace wakeLockRef releaseEvents
                                         afterRelease].
    split; [reflexivity|]. split; [|reflexivity].
    rewrite releases_app. cbn. now rewrite app_nil_r.
Qed.

(** Two projects.  The run for "p1" awaits the answer to its first request
    when the editor of "p2" starts a run, which completes meanwhile; then
    the answer for "p1" arrives, is stored, and the first run ends.  The
    sentinel 7 of the first run is never released. *)
Lemma overlapping_runs_leak_the_wake_lock_witness :
  let h := Sample.host (fun _ => Resolved (Some "text"%string)) in
  let first := Sample.project [] [1] in
  let second :=
    BookProject.mk "p2" "Other" 0 [] (Some (Sample.outline [1])) [] 2
                   None None None in
  let w0 := mkWorld [first; second] None None 0 [] in
  let awaiting :=
    snd (bind (App.setGeneratingProjectId (Some "p1"%string))
           (fun _ => bind (App.requestWakeLock h)
           (fun _ => bind (App.handleUpdateProject
                             (BookProject.withChapters first
                                (App.initialChapters (Sample.outline [1]))))
           (fun _ => Gemini.requestContent h (Sample.chapter 1)))) w0) in
  wakeLockRef awaiting = Some 7%nat
  /\ exists evs w',
       App.startBookGeneration h "p2" standard awaiting = (Returned tt, w')
       /\ trace w' = trace awaiting ++ evs
       /\ releases evs = [8%nat]
       /\ wakeLockRef w' = None
       /\ let ended :=
            snd (bind (App.setProjects (UpdChapterWritten "p1" 1 "text" 1001))
                   (fun _ => bind (App.setGeneratingProjectId None)
                   (fun _ => App.releaseWakeLock h)) w') in
          lockRequests (trace ended) = [tt; tt]
          /\ releases (trace ended) = [8%nat].
Proof.
  intros h first second w0 awaiting.
  split; [reflexivity|].
  destruct (overlapping_runs_leak_the_wake_lock h h "p2" standard awaiting
              second (Sample.outline [1]) 7%nat 8%nat)
    as (_ & evs & w' & Hrun & Htrace & Hreq & Hrel & _ & Href & Hend).
  - reflexivity.
  - reflexivity.
  - reflexivity.
  - reflexivity.
  - reflexivity.
  - discriminate.
  - exists evs, w'. split; [exact Hrun|]. split; [exact Htrace|].
    split; [exact Hrel|]. split; [exact Href|].
    intros ended.
    pose (later :=
            mkWorld
              (App.applyUpdater (UpdChapterWritten "p1" 1 "text" 1001)
                                (projects w'))
              (generatingProjectId w') (wakeLockRef w') (requests w')
              (trace w' ++ [EvSetProjects
                              (UpdChapterWritten "p1" 1 "text" 1001)])).
    destruct (Hend later Href) as (w'' & Hw & Ht & Hr & _).
    assert (Hended : ended = w'').
    { unfold ended. unfold bind at 1. unfold App.setProjects at 1.
      cbv beta iota. fold later. now rewrite Hw. }
    rewrite Hended, Hr, Ht. unfold later. cbn [trace]. rewrite Htrace.
    rewrite !lockRequests_app, !releases_app, Hreq, Hrel.
    split; reflexivity.
Defined.

(** The state in which the second run is started above is a state that the
    first run goes through: its trace is the beginning of the trace of that
    run on its own. *)
Example first_run_awaiting :
  let h := Sample.host (fun _ => Resolved (Some "text"%string)) in
  let first := Sample.project [] [1] in
  let second :=
    BookProject.mk "p2" "Other" 0 [] (Some (Sample.outline [1])) [] 2
                   None None None in
  let w0 := mkWorld [first; second] None None 0 [] in
  let awaiting :=
    snd (bind (App.setGeneratingProjectId (Some "p1"%string))
           (fun _ => bind (App.requestWakeLock h)
           (fun _ => bind (App.handleUpdateProject
                             (BookProject.withChapters first
                                (App.initialChapters (Sample.outline [1]))))
           (fun _ => Gemini.requestContent h (Sample.chapter 1)))) w0) in
  let alone := snd (App.startBookGeneration h "p1" standard w0) in
  firstn 4 (trace alone) = trace awaiting
  /\ skipn 4 (trace alone)
     = [EvSetProjects (UpdChapterWritten "p1" 1 "text" 1001);
        EvSetGeneratingProjectId None; EvWakeLockRelease 7%nat]
  /\ generatingProjectId awaiting = Some "p1"%string
  /\ ProjectEditor.autoStartEffect second false
       (ProjectEditor.isGeneratingGlobal awaiting second) None standard
     = Some standard.
Proof. vm_compute. repeat split; reflexivity. Qed.

(** The claim as stated fails in two ways.  The release is a statement after
    the loop, not a cleanup: when the [catch] block of the loop throws, the
    run ends with the sentinel it obtained still in the ref and never
    released, and still marked as generating.  And two runs that overlap
    share the ref: of the two sentinels obtained, 7 and 8, only 8 is ever
    released. *)
Lemma wake_lock_counterexample :
  let h := Sample.host (fun _ => Resolved (Some "text"%string)) in
  (let backend n :=
     match n with
     | 0%nat => Untyped.Rejected
                  (Untyped.mkCaught (Untyped.NotAString true) (Some 403))
     | _ => Untyped.Resolved (Some "text"%string)
     end in
   let r := Untyped.startBookGeneration h backend "p1" standard
              (Sample.world [] [1; 2]) in
   fst r = Untyped.Abrupt
             (Untyped.ofError (Untyped.typeError "e.message?.includes"))
   /\ lockRequests (trace (snd r)) = [tt]
   /\ releases (trace (snd r)) = []
   /\ wakeLockRef (snd r) = Some 7%nat
   /\ generatingProjectId (snd r) = Some "p1"%string)
  /\ (let first := Sample.project [] [1] in
      let second :=
        BookProject.mk "p2" "Other" 0 [] (Some (Sample.outline [1])) [] 2
                       None None None in
      let w0 := mkWorld [first; second] None None 0 [] in
      let awaiting :=
        snd (bind (App.setGeneratingProjectId (Some "p1"%string))
               (fun _ => bind (App.requestWakeLock h)
               (fun _ => bind (App.handleUpdateProject
                                 (BookProject.withChapters first
                                    (App.initialChapters
                                       (Sample.outline [1]))))
               (fun _ => Gemini.requestContent h (Sample.chapter 1)))) w0) in
      let r := App.startBookGeneration h "p2" standard awaiting in
      let ended :=
        snd (bind (App.setProjects (UpdChapterWritten "p1" 1 "text" 1001))
               (fun _ => bind (App.setGeneratingProjectId None)
               (fun _ => App.releaseWakeLock h)) (snd r)) in
      wakeLockRef awaiting = Some 7%nat
      /\ fst r = Returned tt
      /\ wakeLockRef (snd r) = None
      /\ lockRequests (trace ended) = [tt; tt]
      /\ releases (trace ended) = [8%nat]).
Proof. vm_compute. repeat split; reflexivity. Qed.

(* ================================================================== *)
(** * Further properties of the pipeline *)

(** ** The order and number of backend requests *)

Lemma requestsPer_zeros (todo : list ChapterOutline.t) :
  requestsPer todo (repeat 0%nat (length todo)) = [].
Proof.
  unfold requestsPer. induction todo as [|c todo IH]; cbn; [reflexivity|].
  exact IH.
Qed.

Lemma requestsPer_length (todo : list ChapterOutline.t) (ks : list nat) :
  length ks = length todo ->
  Forall (fun k => (k <= Gemini.maxAttempts)%nat) ks ->
  (length (requestsPer todo ks) <= Gemini.maxAttempts * length todo)%nat.
Proof.
  unfold requestsPer, Gemini.maxAttempts. revert ks.
  induction todo as [|c todo IH]; intros [|k ks] Hlen Hks;
    cbn [length combine flat_map fst snd] in *; try lia.
  inversion Hks; subst. rewrite length_app, repeat_length.
  specialize (IH ks ltac:(lia) ltac:(assumption)). lia.
Qed.

Lemma Loop_order h projectId todo st r evs st' :
  Loop h projectId todo st r evs st' ->
  exists ks,
    length ks = length todo
    /\ Forall (fun k => (k <= Gemini.maxAttempts)%nat) ks
    /\ generated evs = requestsPer todo ks.
Proof.
  induction 1 as [st r|co rest st r evs st' Hd Hl IH|co rest st r Hd Hf
                  |co rest st r evs1 st1 evs2 st2 Hd Hf Ha Hl IH].
  - exists []. repeat split. constructor.
  - destruct IH as (ks & Hlen & Hks & Hg).
    exists (0%nat :: ks). cbn. repeat split; auto.
    constructor; [lia|assumption].
  - exists (repeat 0%nat (length (co :: rest))). repeat split.
    + apply repeat_length.
    + apply Forall_forall. intros k ->%repeat_spec. lia.
    + now rewrite requestsPer_zeros.
  - destruct IH as (ks & Hlen & Hks & Hg).
    destruct (Attempt_generated _ _ _ _ _ _ _ Ha) as (k & Hk & Hgk).
    exists (k :: ks). cbn [length]. repeat split; auto.
    + constructor; [lia|assumption].
    + rewrite generated_app, Hgk, Hg. reflexivity.
Qed.

(** X1.  The backend is asked for the chapters in the order of the outline:
    the requests of a run are, for each chapter of the outline in turn,
    between zero and three consecutive requests for that chapter.  So a run
    makes at most three requests per chapter of the outline, and its request
    counter advances by exactly the requests it made. *)
Theorem requests_follow_the_outline (h : Host) (projectId : string)
    (style : WritingStyle) (w : World) (project : BookProject.t)
    (outline : BookOutline.t) :
  App.findProject (projects w) projectId = Some project ->
  BookProject.outline project = Some outline ->
  exists evs w' ks,
    App.startBookGeneration h projectId style w = (Returned tt, w')
    /\ trace w' = trace w ++ evs
    /\ length ks = length (BookOutline.chapters outline)
    /\ Forall (fun k => (k <= 3)%nat) ks
    /\ generated evs = requestsPer (BookOutline.chapters outline) ks
    /\ (length (generated evs)
        <= 3 * length (BookOutline.chapters outline))%nat
    /\ requests w' = (requests w + length (generated evs))%nat.
Proof.
  intros Hfind Houtline.
  destruct (startBookGeneration_run h projectId style w project outline
              Hfind Houtline) as (loopEvs & st' & Hloop & Hrun).
  destruct (Loop_order _ _ _ _ _ _ _ Hloop) as (ks & Hlen & Hks & Hg).
  eexists _, _, ks. split; [exact Hrun|]. cbn [trace requests].
  rewrite generated_runEvents, Hg.
  repeat split; try assumption.
  now apply (requestsPer_length _ _ Hlen).
Qed.

Lemma requests_follow_the_outline_witness :
  let h := Sample.host (fun n => match n with
                                 | 0%nat => Rejected Sample.unavailable
                                 | _ => Resolved (Some "text"%string)
                                 end) in
  let w := Sample.world [] [1; 2] in
  exists evs w' ks,
    App.startBookGeneration h "p1" standard w = (Returned tt, w')
    /\ length ks = 2%nat
    /\ generated evs = requestsPer (map Sample.chapter [1; 2]) ks
    /\ (length (generated evs) <= 6)%nat.
Proof.
  intros h w.
  destruct (requests_follow_the_outline h "p1" standard w
              (Sample.project [] [1; 2]) (Sample.outline [1; 2])
              eq_refl eq_refl)
    as (evs & w' & ks & Hrun & _ & Hlen & _ & Hg & Hb & _).
  exists evs, w', ks. repeat split; assumption.
Defined.

(** ** The alert *)

Lemma Loop_single_alert h projectId todo st r evs st' :
  Loop h projectId todo st r evs st' ->
  App.hasFatalError st = false ->
  alerts evs = []
  \/ exists before e n,
       evs = before
             ++ [EvAlert (App.generationStopped e);
                 EvSetProjects (UpdChapterFailed projectId n true)]
       /\ alerts before = []
       /\ App.isFatal e = true.
Proof.
  induction 1 as [st r|co rest st r evs st' Hd Hl IH|co rest st r Hd Hf
                  |co rest st r evs1 st1 evs2 st2 Hd Hf Ha Hl IH];
    intros Hst; auto; try congruence.
  destruct Ha as [content evs0 Hr|e evs0 Hr He|e evs0 Hr He];
    destruct (Retry_quiet _ _ _ _ _ _ Hr) as (Hq & _).
  - destruct (IH Hst) as [Hnone|(before & e & n & -> & Hb & He)].
    + left. now rewrite !alerts_app, Hq, Hnone.
    + right. rewrite app_assoc. eexists _, e, n.
      split; [reflexivity|]. split; [|assumption].
      now rewrite !alerts_app, Hq, Hb.
  - destruct (IH Hst) as [Hnone|(before & e' & n & -> & Hb & He')].
    + left. now rewrite !alerts_app, Hq, Hnone.
    + right. rewrite app_assoc. eexists _, e', n.
      split; [reflexivity|]. split; [|assumption].
      now rewrite !alerts_app, Hq, Hb.
  - destruct (Loop_aborted _ _ _ _ _ _ _ Hl eq_refl) as [-> _].
    right. exists (evs0 ++ [EvConsoleError
                              (App.errorGenerating
                                 (ChapterOutline.chapterNumber co))]),
      e, (ChapterOutline.chapterNumber co).
    rewrite app_nil_r, <- app_assoc. repeat split; auto.
    now rewrite alerts_app, Hq.
Qed.

(** X2.  A run alerts the user at most once.  When it does, the alert is
    for an error that the loop classifies as fatal, it is followed by the
    write of the "Stopped due to API error." marker and by nothing else of
    the loop: the run is then marked as no longer generating and the wake
    lock is released, with no further request or write. *)
Theorem run_alerts_at_most_once (h : Host) (projectId : string)
    (style : WritingStyle) (w : World) (project : BookProject.t)
    (outline : BookOutline.t) :
  App.findProject (projects w) projectId = Some project ->
  BookProject.outline project = Some outline ->
  exists evs w',
    App.startBookGeneration h projectId style w = (Returned tt, w')
    /\ trace w' = trace w ++ evs
    /\ (alerts evs = []
        \/ exists before e n,
             evs = before
                   ++ [EvAlert (App.generationStopped e);
                       EvSetProjects (UpdChapterFailed projectId n true);
                       EvSetGeneratingProjectId None]
                   ++ releaseEvents h (held h w)
             /\ alerts before = []
             /\ alerts evs = [App.generationStopped e]
             /\ App.isFatal e = true).
Proof.
  intros Hfind Houtline.
  destruct (startBookGeneration_run h projectId style w project outline
              Hfind Houtline) as (loopEvs & st' & Hloop & Hrun).
  eexists _, _. split; [exact Hrun|]. cbn [trace]. split; [reflexivity|].
  rewrite alerts_runEvents.
  destruct (Loop_single_alert _ _ _ _ _ _ _ Hloop eq_refl)
    as [Hnone|(before & e & n & -> & Hb & He)]; [now left|right].
  exists (EvSetGeneratingProjectId (Some projectId)
          :: acquireEvents h w
          ++ EvSetProjects (startingWrite project outline) :: before), e, n.
  repeat split.
  - unfold runEvents. cbn [app]. f_equal.
    repeat (rewrite <- app_assoc; cbn [app]). reflexivity.
  - cbn [alerts flat_map app].
    fold (alerts (acquireEvents h w
                  ++ EvSetProjects (startingWrite project outline) :: before)).
    rewrite alerts_app. cbn [alerts flat_map app]. fold (alerts before).
    rewrite Hb, app_nil_r.
    unfold acquireEvents. destruct (wakeLockInNavigator h); [|reflexivity].
    now destruct (wakeLockRequest h _).
  - now rewrite alerts_app, Hb.
  - assumption.
Qed.

Lemma run_alerts_at_most_once_witness :
  let h := Sample.host (fun _ => Rejected Sample.forbidden) in
  let w := Sample.world [] [1; 2] in
  exists evs w',
    App.startBookGeneration h "p1" standard w = (Returned tt, w')
    /\ trace w' = trace w ++ evs
    /\ (length (alerts evs) <= 1)%nat.
Proof.
  intros h w.
  destruct (run_alerts_at_most_once h "p1" standard w
              (Sample.project [] [1; 2]) (Sample.outline [1; 2])
              eq_refl eq_refl)
    as (evs & w' & Hrun & Htrace & Halerts).
  exists evs, w'. split; [exact Hrun|]. split; [exact Htrace|].
  destruct Halerts as [->|(before & e & n & _ & _ & -> & _)]; cbn; lia.
Defined.

(** ** What a run does to the collection *)

Lemma applyUpdater_map (u : Updater) (ps : list BookProject.t) :
  App.applyUpdater u ps = map (updated u) ps.
Proof. destruct u; reflexivity. Qed.

Lemma fold_applyUpdater (us : list Updater) (ps : list BookProject.t) :
  fold_left (fun ps u => App.applyUpdater u ps) us ps
  = map (fun p => fold_left (fun p u => updated u p) us p) ps.
Proof.
  revert ps. induction us as [|u us IH]; intros ps; cbn.
  - now rewrite map_id.
  - now rewrite IH, applyUpdater_map, map_map.
Qed.

Lemma shape_markWritten cs n content :
  shape (App.markWritten cs n content) = shape cs.
Proof.
  unfold shape, App.markWritten. rewrite map_map. apply map_ext. intros c.
  now destruct (ChapterContent.chapterNumber c =? n).
Qed.

(** A chapter update keeps ids, the fields outside the chapters and the
    shape of the chapter array, and leaves other projects alone. *)
Lemma updated_chapterUpdate u projectId n p :
  chapterUpdate projectId n u ->
  BookProject.id (updated u p) = BookProject.id p
  /\ BookProject.frame (updated u p) = BookProject.frame p
  /\ shape (BookProject.chapters (updated u p))
     = shape (BookProject.chapters p)
  /\ (BookProject.id p <> projectId -> updated u p = p).
Proof.
  destruct u as [q|pid m c now|pid m b]; cbn [chapterUpdate updated];
    [easy| |]; intros [-> ->];
    destruct (String.eqb_spec (BookProject.id p) projectId); cbn;
    repeat split; auto using shape_markWritten; congruence.
Qed.

Lemma fold_updated_chapterUpdates us projectId p :
  Forall (fun u => exists n, chapterUpdate projectId n u) us ->
  let q := fold_left (fun p u => updated u p) us p in
  BookProject.id q = BookProject.id p
  /\ BookProject.frame q = BookProject.frame p
  /\ shape (BookProject.chapters q) = shape (BookProject.chapters p)
  /\ (BookProject.id p <> projectId -> q = p).
Proof.
  intros H. revert p. induction H as [|u us (n & Hu) _ IH]; intros p; cbn.
  - auto.
  - destruct (updated_chapterUpdate u projectId n p Hu) as (H1 & H2 & H3 & H4).
    destruct (IH (updated u p)) as (I1 & I2 & I3 & I4).
    repeat split; try congruence.
    intros Hp. rewrite I4, H4; congruence.
Qed.

(** What a whole run makes of one project of the collection. *)
Lemma runUpdates_project h projectId todo st r loopEvs st' project outline p :
  Loop h projectId todo st r loopEvs st' ->
  BookProject.id project = projectId ->
  let q := fold_left (fun p u => updated u p)
                     (runUpdates project outline loopEvs) p in
  BookProject.id q = BookProject.id p
  /\ (BookProject.id p <> projectId -> q = p)
  /\ (BookProject.id p = projectId ->
      BookProject.frame q = BookProject.frame project
      /\ shape (BookProject.chapters q)
         = shape (startingChapters project outline)).
Proof.
  intros Hloop Hid. unfold runUpdates, startingWrite.
  cbn [fold_left updated BookProject.id BookProject.withChapters].
  destruct (fold_updated_chapterUpdates (updates loopEvs) projectId
              (if String.eqb (BookProject.id p) (BookProject.id project)
               then BookProject.withChapters project
                      (startingChapters project outline)
               else p)
              (Loop_updates _ _ _ _ _ _ _ Hloop)) as (H1 & H2 & H3 & H4).
  cbv zeta. rewrite H1, H2, H3.
  destruct (String.eqb_spec (BookProject.id p) (BookProject.id project))
    as [Heq|Hneq]; cbn.
  - repeat split; congruence.
  - repeat split; try congruence.
    intros _. apply H4. cbn. congruence.
Qed.

(** X3.  A run neither adds, removes nor reorders projects.  Every project
    with another id than the one of the run is exactly as before; a project
    with the id of the run has, outside its chapters and [lastModified], the
    fields of the snapshot the run started from, and a chapter array with
    the numbers and titles, in order, of the array the run started from. *)
Theorem run_changes_its_project_only (h : Host) (projectId : string)
    (style : WritingStyle) (w : World) (project : BookProject.t)
    (outline : BookOutline.t) :
  App.findProject (projects w) projectId = Some project ->
  BookProject.outline project = Some outline ->
  exists w',
    App.startBookGeneration h projectId style w = (Returned tt, w')
    /\ Forall2
         (fun p q =>
            BookProject.id q = BookProject.id p
            /\ (BookProject.id p <> projectId -> q = p)
            /\ (BookProject.id p = projectId ->
                BookProject.frame q = BookProject.frame project
                /\ shape (BookProject.chapters q)
                   = shape (startingChapters project outline)))
         (projects w) (projects w').
Proof.
  intros Hfind Houtline.
  destruct (startBookGeneration_run h projectId style w project outline
              Hfind Houtline) as (loopEvs & st' & Hloop & Hrun).
  eexists. split; [exact Hrun|]. cbn [projects].
  fold (runUpdates project outline loopEvs).
  rewrite fold_applyUpdater. apply Forall2_map_r. intros p.
  apply (runUpdates_project _ _ _ _ _ _ _ _ _ _ Hloop
           (findProject_id _ _ _ Hfind)).
Qed.

Lemma run_changes_its_project_only_witness :
  let other := BookProject.mk "p2" "Other" 5 [] None [] 0 None None None in
  let w := mkWorld [Sample.project [] [1]; other] None None 0 [] in
  let h := Sample.host (fun _ => Resolved (Some "text"%string)) in
  exists w',
    App.startBookGeneration h "p1" standard w = (Returned tt, w')
    /\ exists q, projects w' = [q; other]
                 /\ BookProject.title q = "Title"%string.
Proof.
  intros other w h.
  destruct (run_changes_its_project_only h "p1" standard w
              (Sample.project [] [1]) (Sample.outline [1]) eq_refl eq_refl)
    as (w' & Hrun & Hall).
  exists w'. split; [exact Hrun|].
  inversion Hall as [|p q ps qs (_ & _ & Hq) Hrest]; subst.
  inversion Hrest as [|p2 q2 ps2 qs2 (_ & Hsame & _) Hnil]; subst.
  inversion Hnil; subst.
  exists q. split.
  - f_equal. f_equal. apply Hsame. discriminate.
  - destruct (Hq eq_refl) as [Hframe _].
    now apply (f_equal (fun t => snd (fst (fst (fst (fst (fst (fst t))))))))
      in Hframe.
Defined.

Lemma findChapter_shape cs cs' n :
  shape cs = shape cs' ->
  option_map (fun c => (ChapterContent.chapterNumber c, ChapterContent.title c))
             (App.findChapter cs n)
  = option_map (fun c => (ChapterContent.chapterNumber c, ChapterContent.title c))
               (App.findChapter cs' n).
Proof.
  unfold shape, App.findChapter. revert cs'.
  induction cs as [|c cs IH]; intros [|c' cs'] H; cbn in *;
    try discriminate; [reflexivity|].
  injection H as Hn Ht Hrest. rewrite Hn.
  destruct (ChapterContent.chapterNumber c' =? n); cbn; [congruence|auto].
Qed.

(** X4.  The chapter writes of a run never add an entry to the chapter
    array: after the run the project has a stored result for a chapter
    number exactly when the array the run started from had one, with the
    same number and title.  In particular a chapter of the outline that has
    no entry in a non-empty array of earlier results still has none after
    the run, even though its text was requested from the backend. *)
Theorem run_keeps_the_chapter_entries (h : Host) (projectId : string)
    (style : WritingStyle) (w : World) (project : BookProject.t)
    (outline : BookOutline.t) :
  App.findProject (projects w) projectId = Some project ->
  BookProject.outline project = Some outline ->
  exists w',
    App.startBookGeneration h projectId style w = (Returned tt, w')
    /\ forall n,
         option_map
           (fun c => (ChapterContent.chapterNumber c, ChapterContent.title c))
           (stored (projects w') projectId n)
         = option_map
             (fun c => (ChapterContent.chapterNumber c, ChapterContent.title c))
             (App.findChapter (startingChapters project outline) n).
Proof.
  intros Hfind Houtline.
  destruct (startBookGeneration_run h projectId style w project outline
              Hfind Houtline) as (loopEvs & st' & Hloop & Hrun).
  eexists. split; [exact Hrun|]. cbn [projects]. intros n.
  fold (runUpdates project outline loopEvs).
  rewrite fold_applyUpdater. unfold stored.
  pose proof (findProject_id _ _ _ Hfind) as Hid.
  rewrite findProject_map, Hfind.
  - cbn [option_map]. apply findChapter_shape.
    now apply (runUpdates_project _ _ _ _ _ _ _ _ _ project Hloop Hid).
  - intros p.
    now apply (runUpdates_project _ _ _ _ _ _ _ _ _ p Hloop Hid).
Qed.

Lemma run_keeps_the_chapter_entries_witness :
  let cs := [Sample.done 1 "one"] in
  let w := Sample.world cs [1; 2] in
  let h := Sample.host (fun _ => Resolved (Some "text"%string)) in
  exists w',
    App.startBookGeneration h "p1" standard w = (Returned tt, w')
    /\ stored (projects w') "p1" 2 = None.
Proof.
  intros cs w h.
  destruct (run_keeps_the_chapter_entries h "p1" standard w
              (Sample.project cs [1; 2]) (Sample.outline [1; 2])
              eq_refl eq_refl) as (w' & Hrun & Hentries).
  exists w'. split; [exact Hrun|].
  specialize (Hentries 2). cbn in Hentries.
  destruct (stored (projects w') "p1" 2); [discriminate|reflexivity].
Defined.

(** ** Running again *)

Lemma isDone_markWritten cs n content k :
  truthy content = true ->
  isDone cs k \/ (k = n /\ App.findChapter cs n <> None) ->
  isDone (App.markWritten cs n content) k.
Proof.
  intros Hc H. unfold isDone in *.
  destruct (Z.eq_dec k n) as [->|Hneq].
  - rewrite findChapter_markWritten_same.
    destruct (App.findChapter cs n) as [c|]; cbn.
    + now rewrite Hc.
    + destruct H as [H|[_ H]]; [discriminate|congruence].
  - rewrite findChapter_markWritten by congruence.
    destruct H as [H|[H _]]; [assumption|congruence].
Qed.

Lemma present_markWritten cs n content k :
  App.findChapter cs k <> None ->
  App.findChapter (App.markWritten cs n content) k <> None.
Proof.
  intros H. destruct (Z.eq_dec k n) as [->|Hneq].
  - rewrite findChapter_markWritten_same.
    now destruct (App.findChapter cs n).
  - now rewrite findChapter_markWritten by congruence.
Qed.

Lemma Retry_returned h chapter r a content evs :
  Retry h chapter r a (Returned content) evs ->
  exists k text,
    generateContent h k = Resolved text /\ content = orElse text "".
Proof.
  intros H. remember (Returned content) as res eqn:Hres.
  induction H; try discriminate; eauto.
  injection Hres as <-. eauto.
Qed.

Section Settled.

Variable h : Host.
Variable projectId : string.
Hypothesis texts_not_empty :
  forall k text,
    generateContent h k = Resolved text -> orElse text "" <> ""%string.

Lemma Attempt_settles chapOutline st r evs st' :
  Attempt h chapOutline projectId st r evs st' ->
  App.hasFatalError st' = false ->
  exists content,
    truthy content = true
    /\ (forall cs,
          fold_left (fun cs u => chaptersAfter u cs) (updates evs) cs
          = App.markWritten cs (ChapterOutline.chapterNumber chapOutline)
              content)
    /\ (App.currentChapters st'
        = App.markWritten (App.currentChapters st)
            (ChapterOutline.chapterNumber chapOutline) content
        \/ App.currentChapters st' = App.currentChapters st).
Proof.
  destruct 1 as [content evs Hr|e evs Hr He|e evs Hr He]; intros Hst;
    destruct (Retry_quiet _ _ _ _ _ _ Hr) as (_ & Hu & _).
  - exists content. repeat split.
    + destruct (Retry_returned _ _ _ _ _ _ Hr) as (k & text & Hg & ->).
      specialize (texts_not_empty k text Hg).
      now destruct (orElse text "").
    + intros cs. now rewrite updates_app, Hu.
    + now left.
  - exists (App.failedContent false). repeat split.
    + intros cs. now rewrite updates_app, Hu.
    + now right.
  - discriminate.
Qed.

(** A pass of the loop that is not aborted leaves every chapter of its list
    done in the stored array, and no chapter less done than before. *)
Lemma Loop_settles todo st r evs st' :
  Loop h projectId todo st r evs st' ->
  App.hasFatalError st' = false ->
  forall cs,
    (forall n, isDone (App.currentChapters st) n -> isDone cs n) ->
    (forall c, In c todo ->
               App.findChapter cs (ChapterOutline.chapterNumber c) <> None) ->
    let cs' := fold_left (fun cs u => chaptersAfter u cs) (updates evs) cs in
    (forall n, isDone cs n -> isDone cs' n)
    /\ (forall c, In c todo -> isDone cs' (ChapterOutline.chapterNumber c)).
Proof.
  induction 1 as [st r|co rest st r evs st' Hd Hl IH|co rest st r Hd Hf
                  |co rest st r evs1 st1 evs2 st2 Hd Hf Ha Hl IH];
    intros Hst cs Hlocal Hpresent.
  - cbn. split; [auto|]. intros c [].
  - destruct (IH Hst cs Hlocal) as [Hmono Hrest].
    { intros c Hc. apply Hpresent. now right. }
    split; [assumption|].
    intros c [<-|Hc]; [|now apply Hrest].
    apply Hmono, Hlocal. exact Hd.
  - congruence.
  - assert (Hst1 : App.hasFatalError st1 = false).
    { destruct (App.hasFatalError st1) eqn:E; [|reflexivity].
      destruct (Loop_aborted _ _ _ _ _ _ _ Hl E) as [_ ->]. congruence. }
    destruct (Attempt_settles _ _ _ _ _ Ha Hst1)
      as (content & Hc & Hfold & Hcur).
    cbv zeta. rewrite updates_app, fold_left_app, Hfold.
    set (n := ChapterOutline.chapterNumber co) in *.
    assert (Hn : App.findChapter cs n <> None)
      by (apply Hpresent; now left).
    destruct (IH Hst (App.markWritten cs n content)) as [Hmono Hrest].
    + intros k Hk. apply isDone_markWritten; [assumption|].
      destruct Hcur as [Hcur|Hcur]; rewrite Hcur in Hk.
      * destruct (Z.eq_dec k n) as [->|Hneq]; [now right|left].
        apply Hlocal. unfold isDone in *.
        now rewrite findChapter_markWritten in Hk by congruence.
      * left. now apply Hlocal.
    + intros c Hin. apply present_markWritten, Hpresent. now right.
    + split.
      * intros k Hk. apply Hmono, isDone_markWritten; auto.
      * intros c [<-|Hin]; [|now apply Hrest].
        apply Hmono, isDone_markWritten; auto.
Qed.

End Settled.

(** Over chapters that are all done the loop does nothing. *)
Lemma Loop_all_done h projectId todo st r evs st' :
  Loop h projectId todo st r evs st' ->
  (forall c, In c todo ->
             isDone (App.currentChapters st) (ChapterOutline.chapterNumber c)) ->
  evs = [] /\ st' = st.
Proof.
  induction 1 as [st r|co rest st r evs st' Hd Hl IH|co rest st r Hd Hf
                  |co rest st r evs1 st1 evs2 st2 Hd Hf Ha Hl IH];
    intros Hall; auto.
  - apply IH. intros c Hc. apply Hall. now right.
  - specialize (Hall co (or_introl eq_refl)). unfold isDone in Hall.
    congruence.
Qed.

Lemma chapters_fold_updated us projectId p :
  Forall (fun u => exists n, chapterUpdate projectId n u) us ->
  BookProject.id p = projectId ->
  BookProject.chapters (fold_left (fun p u => updated u p) us p)
  = fold_left (fun cs u => chaptersAfter u cs) us (BookProject.chapters p).
Proof.
  intros H. revert p. induction H as [|u us (n & Hu) _ IH]; intros p Hp;
    cbn; [reflexivity|].
  destruct (updated_chapterUpdate u projectId n p Hu) as (Hid & _).
  rewrite IH by congruence. f_equal.
  destruct u as [q|pid m c now|pid m b]; cbn [chapterUpdate] in Hu;
    [easy| |]; destruct Hu as [-> ->]; cbn [updated chaptersAfter];
    rewrite Hp, String.eqb_refl; reflexivity.
Qed.

(** X5.  Running again after a run that was not aborted asks the backend
    for nothing.  Provided the array the first run starts from has an entry
    for every chapter of the outline (as it has when the project had no
    results) and the backend never answers with an empty text, a first run
    that shows no alert leaves every chapter of the outline passing the
    resumption test, be it with its text or with the failure placeholder;
    a second run, with any backend, then makes no request, shows no alert
    and leaves every stored result as it is. *)
Theorem second_run_requests_nothing (h : Host) (projectId : string)
    (style : WritingStyle) (w : World) (project : BookProject.t)
    (outline : BookOutline.t) :
  App.findProject (projects w) projectId = Some project ->
  BookProject.outline project = Some outline ->
  (forall c, In c (BookOutline.chapters outline) ->
             App.findChapter (startingChapters project outline)
               (ChapterOutline.chapterNumber c) <> None) ->
  (forall k text,
     generateContent h k = Resolved text -> orElse text "" <> ""%string) ->
  exists evs w',
    App.startBookGeneration h projectId style w = (Returned tt, w')
    /\ trace w' = trace w ++ evs
    /\ (alerts evs = [] ->
        (forall c, In c (BookOutline.chapters outline) ->
           App.alreadyDone
             (stored (projects w') projectId
                (ChapterOutline.chapterNumber c)) = true)
        /\ forall h2 style2,
             exists evs2 w2,
               App.startBookGeneration h2 projectId style2 w'
               = (Returned tt, w2)
               /\ trace w2 = trace w' ++ evs2
               /\ generated evs2 = []
               /\ alerts evs2 = []
               /\ forall n, stored (projects w2) projectId n
                            = stored (projects w') projectId n).
Proof.
  intros Hfind Houtline Hpresent Htexts.
  destruct (startBookGeneration_run h projectId style w project outline
              Hfind Houtline) as (loopEvs & st' & Hloop & Hrun).
  eexists _, _. split; [exact Hrun|]. cbn [trace projects].
  split; [reflexivity|].
  rewrite alerts_runEvents. intros Halerts.
  pose proof (findProject_id _ _ _ Hfind) as Hid.
  assert (Hst' : App.hasFatalError st' = false).
  { destruct (Loop_alerts _ _ _ _ _ _ _ Hloop eq_refl) as [[H _]|[_ [m H]]];
      [assumption|congruence]. }
  destruct (Loop_settles h projectId Htexts _ _ _ _ _ Hloop Hst'
              (startingChapters project outline)) as [_ Hdone];
    [auto|assumption|].
  (* the project after the first run *)
  fold (runUpdates project outline loopEvs).
  rewrite fold_applyUpdater.
  set (g := fun p => fold_left (fun p u => updated u p)
                       (runUpdates project outline loopEvs) p).
  assert (Hfind' : App.findProject (map g (projects w)) projectId
                   = Some (g project)).
  { rewrite findProject_map, Hfind; [reflexivity|].
    intros p. apply (runUpdates_project _ _ _ _ _ _ _ project outline p
                       Hloop Hid). }
  assert (Hchapters : BookProject.chapters (g project)
                      = fold_left (fun cs u => chaptersAfter u cs)
                          (updates loopEvs)
                          (startingChapters project outline)).
  { unfold g, runUpdates, startingWrite.
    cbn [fold_left updated BookProject.id BookProject.withChapters].
    rewrite String.eqb_refl.
    rewrite (chapters_fold_updated _ projectId);
      [reflexivity|exact (Loop_updates _ _ _ _ _ _ _ Hloop)|exact Hid]. }
  assert (Houtline' : BookProject.outline (g project) = Some outline).
  { destruct (runUpdates_project _ _ _ _ _ _ _ project outline project
                Hloop Hid) as (_ & _ & Hsame).
    destruct (Hsame Hid) as [Hframe _].
    apply (f_equal (fun t => snd (fst (fst (fst (fst t)))))) in Hframe.
    unfold BookProject.frame in Hframe. cbn [fst snd] in Hframe.
    unfold g. congruence. }
  assert (Hstored : forall n, stored (map g (projects w)) projectId n
                              = App.findChapter
                                  (BookProject.chapters (g project)) n).
  { intros n. unfold stored. now rewrite Hfind'. }
  split.
  { intros c Hc. rewrite Hstored, Hchapters. now apply Hdone. }
  intros h2 style2.
  set (w1 := mkWorld (map g (projects w)) _ _ _ _).
  destruct (startBookGeneration_run h2 projectId style2 w1 (g project)
              outline Hfind' Houtline') as (evs2 & st2 & Hloop2 & Hrun2).
  assert (Hstart : forall c, In c (BookOutline.chapters outline) ->
             isDone (startingChapters (g project) outline)
                    (ChapterOutline.chapterNumber c)).
  { intros c Hc. specialize (Hdone c Hc). rewrite <- Hchapters in Hdone.
    unfold startingChapters.
    destruct (BookProject.chapters (g project)); [discriminate|exact Hdone]. }
  destruct (Loop_all_done _ _ _ _ _ _ _ Hloop2 Hstart) as [-> _].
  eexists _, _. split; [exact Hrun2|]. cbn [trace projects].
  split; [reflexivity|].
  rewrite generated_runEvents, alerts_runEvents.
  repeat split.
  intros n. cbn [updates flat_map fold_left].
  unfold stored at 1, startingWrite.
  rewrite (findProject_replace _ _ _ _ Hfind').
  cbn [BookProject.withChapters BookProject.chapters].
  rewrite Hstored. unfold startingChapters.
  destruct (BookProject.chapters (g project)) eqn:E; [|reflexivity].
  unfold App.initialChapters.
  destruct (BookOutline.chapters outline) as [|c cs] eqn:Eo; [reflexivity|].
  specialize (Hstart c (or_introl eq_refl)).
  unfold startingChapters in Hstart. rewrite E in Hstart. cbn in Hstart.
  unfold isDone, App.initialChapters in Hstart. rewrite Eo in Hstart.
  cbn in Hstart. rewrite Z.eqb_refl in Hstart. discriminate.
Qed.

Lemma second_run_requests_nothing_witness :
  let h := Sample.host (fun n => if (n <? 3)%nat
                                 then Rejected Sample.unavailable
                                 else Resolved (Some "text"%string)) in
  let w := Sample.world [] [1; 2] in
  exists evs w',
    App.startBookGeneration h "p1" standard w = (Returned tt, w')
    /\ trace w' = trace w ++ evs
    /\ (alerts evs = [] ->
        forall h2,
          exists evs2 w2,
            App.startBookGeneration h2 "p1" literary w' = (Returned tt, w2)
            /\ generated evs2 = []).
Proof.
  intros h w.
  destruct (second_run_requests_nothing h "p1" standard w
              (Sample.project [] [1; 2]) (Sample.outline [1; 2])
              eq_refl eq_refl)
    as (evs & w' & Hrun & Htrace & Hagain).
  - intros c [<-|[<-|[]]]; discriminate.
  - intros k text Hk. cbn in Hk.
    match type of Hk with
    | context [if ?b then _ else _] => destruct b
    end; inversion Hk; subst; cbn; discriminate.
  - exists evs, w'. split; [exact Hrun|]. split; [exact Htrace|].
    intros Halerts h2.
    destruct (proj2 (Hagain Halerts) h2 literary)
      as (evs2 & w2 & Hrun2 & _ & Hg & _).
    exists evs2, w2. split; assumption.
Defined.

(* ================================================================== *)
(** * Properties of the other generators *)

Lemma firstInParts_spec (parts : list GenAI.Part) :
  GeminiServices.firstInParts parts
  = hd_error
      (flat_map
         (fun part =>
            match GenAI.inlineData part with
            | Some inline =>
                match GenAI.data inline with
                | Some data => if truthy data then [data] else []
                | None => []
                end
            | None => []
            end)
         parts).
Proof.
  induction parts as [|[[[[data|]]|]] rest IH]; cbn; auto.
  destruct (truthy data); cbn; auto.
Qed.

Lemma hd_error_app {A} (a b : list A) :
  hd_error (a ++ b)
  = match hd_error a with Some x => Some x | None => hd_error b end.
Proof. now destruct a. Qed.

Lemma firstInCandidates_spec (candidates : list GenAI.Candidate) :
  GeminiServices.firstInCandidates candidates
  = hd_error (inlineImages candidates).
Proof.
  unfold inlineImages.
  induction candidates as [|[[[[parts|]]|]] rest IH]; cbn; auto.
  rewrite hd_error_app, <- firstInParts_spec, IH. reflexivity.
Qed.

Lemma inlineImages_truthy candidates data :
  In data (inlineImages candidates) -> truthy data = true.
Proof.
  unfold inlineImages. intros (candidate & _ & H)%in_flat_map.
  destruct (GenAI.content candidate) as [[[parts|]]|];
    cbn in H; try contradiction.
  apply in_flat_map in H as (part & _ & H).
  destruct (GenAI.inlineData part) as [[[d|]]|]; cbn in H; try contradiction.
  destruct (truthy d) eqn:E; [|destruct H].
  destruct H as [<-|[]]. exact E.
Qed.

(** The world after one more backend request and the console messages
    [errs]. *)
Lemma tryCatch_generate {A} (settled : GenAI.Settled)
    (k : GenAI.Response -> M A) (handler : JsError.t -> M A) (w : World) :
  tryCatch (bind (GeminiServices.generate settled) k) handler w
  = match settled with
    | GenAI.Fulfilled response => tryCatch (k response) handler (advance w 1 [])
    | GenAI.Failed error => handler error (advance w 1 [])
    end.
Proof.
  unfold tryCatch, bind, GeminiServices.generate, advance.
  rewrite app_nil_r, Nat.add_1_r. destruct settled; reflexivity.
Qed.

Lemma tryCatch_ret {A} (a : A) (handler : JsError.t -> M A) (w : World) :
  tryCatch (ret a) handler w = (Returned a, w).
Proof. reflexivity. Qed.

Lemma tryCatch_throw {A} (e : JsError.t) (handler : JsError.t -> M A)
    (w : World) :
  tryCatch (throw e) handler w = handler e w.
Proof. reflexivity. Qed.

(** The [catch] blocks of [generateOutline] and [generateImage]. *)
Lemma rethrow_fatal {A} (label fixed : string) (e : JsError.t) (w : World) :
  (consoleError label ;;
   if Gemini.isFatalError e then @throw A e
   else @throw A (newError fixed)) w
  = (Thrown (if Gemini.isFatalError e then e else newError fixed),
     advance w 0 [EvConsoleError label]).
Proof.
  unfold bind, consoleError, emit, throw, advance. cbn.
  rewrite Nat.add_0_r. now destruct (Gemini.isFatalError e).
Qed.

Lemma includes_after (before s sub : string) :
  includes s sub = true -> includes (before ++ s) sub = true.
Proof.
  intros H. induction before as [|c before IH]; [exact H|].
  cbn [String.append includes]. rewrite IH. apply orb_true_r.
Qed.

(** X6.  [generateImage] makes one request, and what it does is settled by
    the answer.  When the response holds inline data, it returns the first
    non-empty one, in the order of the candidates and of their parts, and
    logs nothing; the result is never the empty string.  In every other
    case it logs once and throws: after a failed call the error of the
    call, and after a response without image the error "Image generation
    blocked: <reason>" when the response gives a non-empty block reason,
    both passed on as they are when [isFatalError] recognises them and
    replaced by the fixed "Failed to generate image." error otherwise; for
    a response with neither image nor reason the fixed error.  So the
    reasons "SAFETY", "OTHER" and the like never reach the caller, while a
    reason that contains "leaked", "API key" or "PERMISSION_DENIED" does,
    inside the message. *)
Theorem generateImage_contract (settled : GenAI.Settled) (w : World) :
  let fixed := newError "Failed to generate image." in
  let logged := [EvConsoleError "Image generation error:"] in
  let passed e := if Gemini.isFatalError e then e else fixed in
  let images response :=
    match GenAI.candidates response with
    | Some candidates => inlineImages candidates
    | None => []
    end in
  let reasonOf response :=
    match GenAI.promptFeedback response with
    | Some feedback => orElse (GenAI.blockReason feedback) ""
    | None => ""%string
    end in
  match settled with
  | GenAI.Fulfilled response =>
      match images response with
      | data :: _ =>
          GeminiServices.generateImage settled w
          = (Returned data, advance w 1 [])
          /\ data <> ""%string
      | [] =>
          let reason := reasonOf response in
          let blocked := newError ("Image generation blocked: " ++ reason) in
          if truthy reason then
            GeminiServices.generateImage settled w
            = (Thrown (passed blocked), advance w 1 logged)
            /\ (In reason ["BLOCKED_REASON_UNSPECIFIED"; "SAFETY"; "OTHER";
                           "BLOCKLIST"; "PROHIBITED_CONTENT";
                           "IMAGE_SAFETY"]%string ->
                passed blocked = fixed)
            /\ (includes reason "leaked" || includes reason "API key"
                || includes reason "PERMISSION_DENIED" = true ->
                passed blocked = blocked)
          else
            GeminiServices.generateImage settled w
            = (Thrown fixed, advance w 1 logged)
      end
  | GenAI.Failed e =>
      GeminiServices.generateImage settled w
      = (Thrown (passed e), advance w 1 logged)
  end.
Proof.
  cbv zeta. unfold GeminiServices.generateImage. rewrite tryCatch_generate.
  destruct settled as [response|e].
  - assert (Hfirst :
              match GenAI.candidates response with
              | Some candidates => GeminiServices.firstInCandidates candidates
              | None => None
              end
              = hd_error match GenAI.candidates response with
                         | Some candidates => inlineImages candidates
                         | None => []
                         end).
    { destruct (GenAI.candidates response); [|reflexivity].
      apply firstInCandidates_spec. }
    rewrite Hfirst.
    assert (Htruthy : forall data,
               In data match GenAI.candidates response with
                       | Some candidates => inlineImages candidates
                       | None => []
                       end -> truthy data = true).
    { destruct (GenAI.candidates response); [|contradiction].
      apply inlineImages_truthy. }
    destruct (match GenAI.candidates response with
              | Some candidates => inlineImages candidates
              | None => []
              end) as [|data rest]; cbn [hd_error].
    + assert (Hreason :
                match GenAI.promptFeedback response with
                | Some feedback => GenAI.blockReason feedback
                | None => None
                end
                = match match GenAI.promptFeedback response with
                        | Some feedback =>
                            orElse (GenAI.blockReason feedback) ""
                        | None => ""%string
                        end with
                  | EmptyString =>
                      match match GenAI.promptFeedback response with
                            | Some feedback => GenAI.blockReason feedback
                            | None => None
                            end with
                      | Some _ => Some ""%string
                      | None => None
                      end
                  | reason => Some reason
                  end).
      { destruct (GenAI.promptFeedback response) as [[[[|c r]|]]|];
          reflexivity. }
      rewrite Hreason.
      destruct (match GenAI.promptFeedback response with
                | Some feedback => orElse (GenAI.blockReason feedback) ""
                | None => ""%string
                end) as [|c reason]; cbn [truthy].
      * destruct (match GenAI.promptFeedback response with
                  | Some feedback => GenAI.blockReason feedback
                  | None => None
                  end); cbn [truthy];
          rewrite tryCatch_throw, rethrow_fatal, advance_advance;
          reflexivity.
      * rewrite tryCatch_throw, rethrow_fatal, advance_advance.
        split; [reflexivity|]. split.
        -- intros Hreason'. cbn in Hreason'.
           repeat (destruct Hreason' as [<-|Hreason']; [reflexivity|]).
           destruct Hreason'.
        -- intros Hmarker.
           assert (Hfatal : Gemini.isFatalError
                              (newError ("Image generation blocked: "
                                         ++ String c reason)) = true).
           { unfold Gemini.isFatalError, newError, statusIs.
             cbn [JsError.message JsError.status orElse].
             change (truthy ("Image generation blocked: " ++ String c reason))
               with true. cbv iota.
             apply orb_true_iff in Hmarker as [Hmarker|Hmarker];
               [apply orb_true_iff in Hmarker as [Hmarker|Hmarker]|];
               rewrite (includes_after _ _ _ Hmarker);
               rewrite ?orb_true_r; reflexivity. }
           now rewrite Hfatal.
    + rewrite tryCatch_ret. split; [reflexivity|].
      specialize (Htruthy data (or_introl eq_refl)).
      now destruct data.
  - rewrite rethrow_fatal, advance_advance. reflexivity.
Qed.

(** An image in the second part of the second candidate is found; a block
    reason is reported only when it looks like a fatal error. *)
Example generateImage_runs :
  let part d := GenAI.mkPart (Some (GenAI.mkInlineData d)) in
  let response :=
    GenAI.mkResponse None
      (Some [GenAI.mkCandidate None;
             GenAI.mkCandidate
               (Some (GenAI.mkContent
                        (Some [GenAI.mkPart None; part (Some ""%string);
                               part (Some "iVBOR"%string);
                               part (Some "second"%string)])))])
      None in
  let blocked reason :=
    GenAI.mkResponse None None
      (Some (GenAI.mkPromptFeedback (Some reason))) in
  fst (GeminiServices.generateImage (GenAI.Fulfilled response)
         (Sample.world [] [])) = Returned "iVBOR"%string
  /\ fst (GeminiServices.generateImage
            (GenAI.Fulfilled (blocked "SAFETY"%string)) (Sample.world [] []))
     = Thrown (newError "Failed to generate image.")
  /\ fst (GeminiServices.generateImage
            (GenAI.Fulfilled (blocked "API key not valid"%string))
            (Sample.world [] []))
     = Thrown (newError "Image generation blocked: API key not valid")
  /\ fst (GeminiServices.generateImage (GenAI.Failed Sample.unavailable)
            (Sample.world [] []))
     = Thrown (newError "Failed to generate image.")
  /\ fst (GeminiServices.generateImage (GenAI.Failed Sample.forbidden)
            (Sample.world [] []))
     = Thrown Sample.forbidden.
Proof. vm_compute. repeat split; reflexivity. Qed.

(** X7.  [generateOutline] makes one request, and what it does is settled
    by the answer and by [JSON.parse].  For a response with a non-empty
    text that [JSON.parse] accepts it returns the parsed outline and logs
    nothing.  In every other case it logs once and throws: the error of the
    failed call or of [JSON.parse], passed on as it is when [isFatalError]
    recognises it and replaced by the fixed "Failed to generate outline."
    error otherwise; and the fixed error for a response with no text or an
    empty one, for which [JSON.parse] is not consulted. *)
Theorem generateOutline_contract
    (jsonParse : string -> BookOutline.t + JsError.t)
    (settled : GenAI.Settled) (w : World) :
  let fixed := newError "Failed to generate outline." in
  let logged := [EvConsoleError "Outline generation error:"] in
  let passed e := if Gemini.isFatalError e then e else fixed in
  GeminiServices.generateOutline jsonParse settled w
  = match settled with
    | GenAI.Fulfilled response =>
        let text := orElse (GenAI.text response) "" in
        if truthy text then
          match jsonParse text with
          | inl outline => (Returned outline, advance w 1 [])
          | inr e => (Thrown (passed e), advance w 1 logged)
          end
        else (Thrown fixed, advance w 1 logged)
    | GenAI.Failed e => (Thrown (passed e), advance w 1 logged)
    end.
Proof.
  cbv zeta. unfold GeminiServices.generateOutline. rewrite tryCatch_generate.
  destruct settled as [response|e].
  - destruct (GenAI.text response) as [[|c text]|] eqn:Htext;
      cbn [truthy orElse].
    + rewrite tryCatch_throw, rethrow_fatal, advance_advance. reflexivity.
    + destruct (jsonParse (String c text)) as [outline|e].
      * rewrite tryCatch_ret. reflexivity.
      * rewrite tryCatch_throw, rethrow_fatal, advance_advance. reflexivity.
    + rewrite tryCatch_throw, rethrow_fatal, advance_advance. reflexivity.
  - rewrite rethrow_fatal, advance_advance. reflexivity.
Qed.

(** A text that parses, a text that does not, and no text. *)
Example generateOutline_runs :
  let jsonParse text :=
    if String.eqb text "{}" then inl (Sample.outline [1; 2])
    else inr (newError "Unexpected token") : BookOutline.t + JsError.t in
  let answer text := GenAI.Fulfilled (GenAI.mkResponse text None None) in
  fst (GeminiServices.generateOutline jsonParse (answer (Some "{}"%string))
         (Sample.world [] [])) = Returned (Sample.outline [1; 2])
  /\ fst (GeminiServices.generateOutline jsonParse
            (answer (Some "oops"%string)) (Sample.world [] []))
     = Thrown (newError "Failed to generate outline.")
  /\ fst (GeminiServices.generateOutline jsonParse (answer None)
            (Sample.world [] []))
     = Thrown (newError "Failed to generate outline.")
  /\ fst (GeminiServices.generateOutline jsonParse
            (GenAI.Failed Sample.forbidden) (Sample.world [] []))
     = Thrown Sample.forbidden.
Proof. vm_compute. repeat split; reflexivity. Qed.


(** Audio in the second part of the response is not used. *)
Example generateSpeech_runs :
  let part d := GenAI.mkPart (Some (GenAI.mkInlineData d)) in
  let response parts :=
    GenAI.mkResponse None
      (Some [GenAI.mkCandidate (Some (GenAI.mkContent (Some parts)))]) None in
  fst (GeminiServices.generateSpeech
         (GenAI.Fulfilled (response [part (Some "UklGR"%string)]))
         (Sample.world [] [])) = Returned "UklGR"%string
  /\ fst (GeminiServices.generateSpeech
            (GenAI.Fulfilled
               (response [GenAI.mkPart None; part (Some "UklGR"%string)]))
            (Sample.world [] [])) = Returned ""%string
  /\ fst (GeminiServices.generateSpeech (GenAI.Failed Sample.forbidden)
            (Sample.world [] [])) = Returned ""%string.
Proof. vm_compute. repeat split; reflexivity. Qed.

(** X9.  [transcribeAudio] hides the cause of every failure, and
    [refineChapterText] hides none.  Each makes one request.  On a fulfilled
    call the first returns the text of the response, or the empty string
    when there is none, and the second returns the text of the response or,
    when that is missing or empty, the content it was given; neither logs
    anything then, and refining never turns a non-empty text into an empty
    one.  On a failed call both log once; the first throws the same "Failed
    to transcribe audio." error, which [isFatalError] does not recognise,
    whatever the backend's error was, so a caller cannot tell a revoked
    credential from a network blip; the second throws the backend's error
    itself. *)
Theorem text_services_contract (settled : GenAI.Settled)
    (currentContent : string) (w : World) :
  GeminiServices.transcribeAudio settled w
  = match settled with
    | GenAI.Fulfilled response =>
        (Returned (orElse (GenAI.text response) ""), advance w 1 [])
    | GenAI.Failed _ =>
        (Thrown (newError "Failed to transcribe audio."),
         advance w 1 [EvConsoleError "Transcription error:"])
    end
  /\ Gemini.isFatalError (newError "Failed to transcribe audio.") = false
  /\ GeminiServices.refineChapterText settled currentContent w
     = match settled with
       | GenAI.Fulfilled response =>
           (Returned (orElse (GenAI.text response) currentContent),
            advance w 1 [])
       | GenAI.Failed e =>
           (Thrown e, advance w 1 [EvConsoleError "Refine text error:"])
       end
  /\ (forall refined w',
        GeminiServices.refineChapterText settled currentContent w
        = (Returned refined, w') ->
        currentContent <> ""%string -> refined <> ""%string).
Proof.
  assert (Hrefine :
            GeminiServices.refineChapterText settled currentContent w
            = match settled with
              | GenAI.Fulfilled response =>
                  (Returned (orElse (GenAI.text response) currentContent),
                   advance w 1 [])
              | GenAI.Failed e =>
                  (Thrown e,
                   advance w 1 [EvConsoleError "Refine text error:"])
              end).
  { unfold GeminiServices.refineChapterText. rewrite tryCatch_generate.
    destruct settled as [response|e]; [apply tryCatch_ret|].
    unfold bind, consoleError, emit, throw, advance. cbn.
    rewrite app_nil_r. now destruct (Gemini.isFatalError e). }
  split; [|split; [reflexivity|split; [exact Hrefine|]]].
  - unfold GeminiServices.transcribeAudio. rewrite tryCatch_generate.
    destruct settled as [response|e]; [apply tryCatch_ret|].
    unfold bind, consoleError, emit, throw, advance. cbn.
    now rewrite app_nil_r.
  - intros refined w' Hrun Hcontent. rewrite Hrefine in Hrun.
    destruct settled as [response|e]; [|discriminate].
    injection Hrun as <- _.
    unfold orElse. destruct (GenAI.text response) as [[|c text]|]; cbn;
      auto. discriminate.
Qed.

(** The text of a response, a response without text, and a failure. *)
Example text_services_run :
  let answer text := GenAI.Fulfilled (GenAI.mkResponse text None None) in
  fst (GeminiServices.transcribeAudio (answer (Some "hello"%string))
         (Sample.world [] [])) = Returned "hello"%string
  /\ fst (GeminiServices.transcribeAudio (GenAI.Failed Sample.forbidden)
            (Sample.world [] []))
     = Thrown (newError "Failed to transcribe audio.")
  /\ fst (GeminiServices.refineChapterText (answer (Some "better"%string))
            "draft" (Sample.world [] [])) = Returned "better"%string
  /\ fst (GeminiServices.refineChapterText (answer (Some ""%string))
            "draft" (Sample.world [] [])) = Returned "draft"%string
  /\ fst (GeminiServices.refineChapterText (GenAI.Failed Sample.forbidden)
            "draft" (Sample.world [] [])) = Thrown Sample.forbidden.
Proof. vm_compute. repeat split; reflexivity. Qed.

(* ================================================================== *)
(** * Properties of the handlers of the collection *)

Lemma findProject_none (ps : list BookProject.t) (id : string) :
  App.findProject ps id = None
  <-> forall p, In p ps -> String.eqb (BookProject.id p) id = false.
Proof.
  unfold App.findProject. split.
  - intros H p Hp. exact (find_none _ _ H p Hp).
  - intros H. induction ps as [|p ps IH]; cbn; [reflexivity|].
    rewrite (H p (or_introl eq_refl)). apply IH.
    intros q Hq. apply H. now right.
Qed.

Lemma withoutProject_absent (id : string) (ps : list BookProject.t) :
  App.findProject ps id = None -> AppHandlers.withoutProject id ps = ps.
Proof.
  intros H. unfold AppHandlers.withoutProject.
  induction ps as [|p ps IH]; cbn; [reflexivity|].
  pose proof (proj1 (findProject_none _ _) H) as Hall.
  rewrite (Hall p (or_introl eq_refl)). cbn. f_equal. apply IH.
  apply findProject_none. intros q Hq. apply Hall. now right.
Qed.

Lemma findProject_withoutProject (id id' : string) (ps : list BookProject.t) :
  App.findProject (AppHandlers.withoutProject id ps) id'
  = if String.eqb id' id then None else App.findProject ps id'.
Proof.
  unfold App.findProject, AppHandlers.withoutProject.
  induction ps as [|p ps IH]; cbn; [now destruct (String.eqb id' id)|].
  destruct (String.eqb_spec (BookProject.id p) id) as [Hp|Hp]; cbn.
  - rewrite IH. destruct (String.eqb_spec id' id) as [->|Hneq]; [reflexivity|].
    destruct (String.eqb_spec (BookProject.id p) id'); [congruence|reflexivity].
  - destruct (String.eqb_spec (BookProject.id p) id') as [Hq|Hq].
    + destruct (String.eqb_spec id' id); [congruence|reflexivity].
    + apply IH.
Qed.

(** X10.  Deleting a project, once confirmed, removes every project with
    that id and nothing else: the id is no longer found, every other id is
    found as before, and the editor is left for the dashboard only when the
    deleted project was the active one.  A declined confirmation changes
    nothing.  Deleting a project right after creating it gives back the
    collection as it was, provided the fresh id was not in use. *)
Theorem delete_removes_exactly_that_project (id : string) (nav : AppHandlers.Nav)
    (w : World) :
  (exists w',
     AppHandlers.handleDeleteProject id true nav w
     = (Returned
          (if match AppHandlers.activeProjectId nav with
              | Some active => String.eqb active id
              | None => false
              end
           then AppHandlers.mkNav DASHBOARD None else nav), w')
     /\ projects w' = AppHandlers.withoutProject id (projects w)
     /\ App.findProject (projects w') id = None
     /\ (forall id', id' <> id ->
           App.findProject (projects w') id'
           = App.findProject (projects w) id')
     /\ trace w' = trace w)
  /\ AppHandlers.handleDeleteProject id false nav w = (Returned nav, w)
  /\ (forall now,
        App.findProject (projects w) id = None ->
        exists nav1 w1 nav2 w2,
          AppHandlers.handleCreateProject id now nav w = (Returned nav1, w1)
          /\ App.findProject (projects w1) id
             = Some (BookProject.mk id "Untitled Manuscript" now [] None []
                                    0 None None None)
          /\ AppHandlers.activeProjectId nav1 = Some id
          /\ AppHandlers.handleDeleteProject id true nav1 w1
             = (Returned nav2, w2)
          /\ projects w2 = projects w
          /\ nav2 = AppHandlers.mkNav DASHBOARD None).
Proof.
  split; [|split].
  - eexists. split.
    + unfold AppHandlers.handleDeleteProject, bind, AppHandlers.setProjectsTo.
      cbv beta iota.
      destruct (AppHandlers.activeProjectId nav) as [active|];
        [destruct (String.eqb active id)|]; reflexivity.
    + cbn [projects trace]. repeat split.
      * rewrite findProject_withoutProject. now rewrite String.eqb_refl.
      * intros id' Hneq. rewrite findProject_withoutProject.
        now destruct (String.eqb_spec id' id).
  - reflexivity.
  - intros now Habsent.
    eexists _, _, _, _. split; [reflexivity|].
    cbn [projects AppHandlers.activeProjectId BookProject.id].
    split; [unfold App.findProject; cbn; now rewrite String.eqb_refl|].
    split; [reflexivity|].
    unfold AppHandlers.handleDeleteProject, bind, AppHandlers.setProjectsTo.
    cbn [AppHandlers.activeProjectId projects BookProject.id].
    rewrite String.eqb_refl. cbv beta iota. split; [reflexivity|].
    cbn [projects]. split; [|reflexivity].
    unfold AppHandlers.withoutProject at 1. cbn [filter BookProject.id].
    rewrite String.eqb_refl. cbn [negb].
    now apply withoutProject_absent.
Qed.

Lemma applyUpdater_absent u projectId n prev :
  (chapterUpdate projectId n u
   \/ exists q, u = UpdReplaceProject q /\ BookProject.id q = projectId) ->
  App.findProject prev projectId = None ->
  App.applyUpdater u prev = prev.
Proof.
  intros Hu Habsent. rewrite applyUpdater_map.
  rewrite <- (map_id prev) at 2. apply map_ext_in. intros p Hp.
  pose proof (proj1 (findProject_none _ _) Habsent p Hp) as Hp'.
  clear Habsent. rename Hp' into Habsent.
  destruct Hu as [Hu|(q & -> & <-)].
  - destruct u as [q|pid m c now|pid m b]; cbn [chapterUpdate] in Hu;
      [easy| |]; destruct Hu as [-> _]; cbn [updated];
      now rewrite Habsent.
  - cbn [updated]. now rewrite Habsent.
Qed.

(** X11.  A project deleted while it is being generated stays deleted: on a
    collection that holds no project with the id of the run, every write of
    the run, the one at its start included, changes nothing. *)
Theorem run_does_not_restore_a_deleted_project (h : Host)
    (projectId : string) (style : WritingStyle) (w : World)
    (project : BookProject.t) (outline : BookOutline.t) :
  App.findProject (projects w) projectId = Some project ->
  BookProject.outline project = Some outline ->
  exists evs w',
    App.startBookGeneration h projectId style w = (Returned tt, w')
    /\ trace w' = trace w ++ evs
    /\ forall u prev,
         In u (updates evs) ->
         App.applyUpdater u (AppHandlers.withoutProject projectId prev)
         = AppHandlers.withoutProject projectId prev.
Proof.
  intros Hfind Houtline.
  destruct (startBookGeneration_run h projectId style w project outline
              Hfind Houtline) as (loopEvs & st' & Hloop & Hrun).
  eexists _, _. split; [exact Hrun|]. cbn [trace]. split; [reflexivity|].
  intros u prev Hu. rewrite updates_runEvents in Hu.
  assert (Habsent : App.findProject
                      (AppHandlers.withoutProject projectId prev) projectId
                    = None).
  { rewrite findProject_withoutProject. now rewrite String.eqb_refl. }
  destruct Hu as [<-|Hu].
  - apply applyUpdater_absent with (projectId := projectId) (n := 0);
      [|assumption].
    right. eexists. split; [reflexivity|].
    cbn. exact (findProject_id _ _ _ Hfind).
  - pose proof (Loop_updates _ _ _ _ _ _ _ Hloop) as Hall.
    rewrite Forall_forall in Hall. destruct (Hall u Hu) as (n & Hn).
    apply applyUpdater_absent with (projectId := projectId) (n := n); auto.
Qed.

Lemma run_does_not_restore_a_deleted_project_witness :
  let h := Sample.host (fun _ => Resolved (Some "text"%string)) in
  let w := Sample.world [] [1] in
  exists evs w',
    App.startBookGeneration h "p1" standard w = (Returned tt, w')
    /\ forall u,
         In u (updates evs) ->
         App.applyUpdater u (AppHandlers.withoutProject "p1" (projects w))
         = [].
Proof.
  intros h w.
  destruct (run_does_not_restore_a_deleted_project h "p1" standard w
              (Sample.project [] [1]) (Sample.outline [1]) eq_refl eq_refl)
    as (evs & w' & Hrun & _ & Hupd).
  exists evs, w'. split; [exact Hrun|].
  intros u Hu. exact (Hupd u (projects w) Hu).
Defined.

Lemma findProject_replaced (q : BookProject.t) (ps : list BookProject.t) :
  App.findProject ps (BookProject.id q) <> None ->
  App.findProject (App.applyUpdater (UpdReplaceProject q) ps)
                  (BookProject.id q) = Some q.
Proof.
  unfold App.findProject. cbn [App.applyUpdater].
  induction ps as [|p ps IH]; cbn; [easy|].
  destruct (String.eqb_spec (BookProject.id p) (BookProject.id q)) as [Hp|Hp];
    cbn.
  - now rewrite String.eqb_refl.
  - intros H. destruct (String.eqb_spec (BookProject.id p) (BookProject.id q));
      [easy|auto].
Qed.

(** X12.  [handleUpdateProject] replaces by id.  Afterwards the collection
    has the same ids in the same order; when some project had the id of the
    update, that id now finds the updated project and every other id finds
    what it found before; when none had it, the collection is unchanged (the
    update does not insert).  Applying the same update twice is the same
    as applying it once. *)
Theorem handleUpdateProject_replaces_by_id (updatedProject : BookProject.t)
    (prev : list BookProject.t) :
  let after := App.applyUpdater (UpdReplaceProject updatedProject) prev in
  map BookProject.id after = map BookProject.id prev
  /\ (App.findProject prev (BookProject.id updatedProject) <> None ->
      App.findProject after (BookProject.id updatedProject)
      = Some updatedProject)
  /\ (forall id, id <> BookProject.id updatedProject ->
        App.findProject after id = App.findProject prev id)
  /\ (App.findProject prev (BookProject.id updatedProject) = None ->
      after = prev)
  /\ App.applyUpdater (UpdReplaceProject updatedProject) after = after.
Proof.
  cbv zeta. rewrite !applyUpdater_map. unfold updated.
  repeat split.
  - rewrite map_map. apply map_ext_in. intros p _.
    now destruct (String.eqb_spec (BookProject.id p)
                    (BookProject.id updatedProject)).
  - unfold App.findProject. induction prev as [|p ps IH]; cbn; [easy|].
    destruct (String.eqb_spec (BookProject.id p)
                (BookProject.id updatedProject)) as [Hp|Hp]; cbn.
    + now rewrite String.eqb_refl.
    + intros H. destruct (String.eqb_spec (BookProject.id p)
                            (BookProject.id updatedProject)); [easy|auto].
  - intros id Hid. unfold App.findProject.
    induction prev as [|p ps IH]; cbn; [reflexivity|].
    destruct (String.eqb_spec (BookProject.id p)
                (BookProject.id updatedProject)) as [Hp|Hp]; cbn.
    + destruct (String.eqb_spec (BookProject.id updatedProject) id);
        [congruence|].
      destruct (String.eqb_spec (BookProject.id p) id); [congruence|auto].
    + now rewrite IH.
  - intros Habsent. rewrite <- (map_id prev) at 2. apply map_ext_in.
    intros p Hp.
    now rewrite (proj1 (findProject_none _ _) Habsent p Hp).
  - rewrite map_map. apply map_ext_in. intros p _.
    destruct (String.eqb_spec (BookProject.id p)
                (BookProject.id updatedProject)) as [Hp|Hp].
    + now rewrite String.eqb_refl.
    + now destruct (String.eqb_spec (BookProject.id p)
                      (BookProject.id updatedProject)).
Qed.

(** X13.  A sequel always lands in the series of its original.  The new
    project is put first and becomes the active one, with the editor open,
    no outline, no chapters and one text source named after the original.
    Its series id is the one of the original, or a fresh one that is then
    also stored, with index 1, on the original; its index is the
    original's index plus one, a missing or zero index counting as 1.  So
    the sequel of a sequel continues the count in the same series, while
    two sequels made from the same original get the same index. *)
Theorem sequel_joins_the_series (uuid : nat -> string) (now : Z)
    (originalProject : BookProject.t) (nav : AppHandlers.Nav) (w : World) :
  exists sequel w',
    AppHandlers.handleCreateSequel uuid now originalProject nav w
    = (Returned (AppHandlers.mkNav EDITOR (Some (BookProject.id sequel))), w')
    /\ hd_error (projects w') = Some sequel
    /\ BookProject.outline sequel = None
    /\ BookProject.chapters sequel = []
    /\ map Source.name (BookProject.sources sequel)
       = [("Context: " ++ BookProject.title originalProject)%string]
    /\ BookProject.seriesIndex sequel
       = Some (match BookProject.seriesIndex originalProject with
               | Some i => if i =? 0 then 2 else i + 1
               | None => 2
               end)
    /\ (forall series,
          BookProject.seriesId originalProject = Some series ->
          series <> ""%string ->
          BookProject.seriesId sequel = Some series
          /\ tl (projects w') = projects w)
    /\ (AppHandlers.truthyOption (BookProject.seriesId originalProject)
        = false ->
        BookProject.seriesId sequel = Some (uuid 0%nat)
        /\ forall stored,
             App.findProject (projects w) (BookProject.id originalProject)
             = Some stored ->
             exists original',
               App.findProject (tl (projects w'))
                               (BookProject.id originalProject)
               = Some original'
               /\ BookProject.seriesId original' = Some (uuid 0%nat)
               /\ BookProject.seriesIndex original' = Some 1
               /\ BookProject.title original'
                  = BookProject.title originalProject)
    /\ (forall uuid2 now2 nav2,
          AppHandlers.truthyOption (BookProject.seriesId sequel) = true ->
          exists second w2,
            AppHandlers.handleCreateSequel uuid2 now2 sequel nav2 w'
            = (Returned
                 (AppHandlers.mkNav EDITOR (Some (BookProject.id second))),
               w2)
            /\ BookProject.seriesId second = BookProject.seriesId sequel
            /\ projects w2 = second :: projects w'
            /\ ((forall i, BookProject.seriesIndex originalProject = Some i ->
                            0 <= i) ->
                exists j,
                  BookProject.seriesIndex sequel = Some j
                  /\ BookProject.seriesIndex second = Some (j + 1))).
Proof.
  unfold AppHandlers.handleCreateSequel.
  destruct (AppHandlers.truthyOption (BookProject.seriesId originalProject))
    eqn:Hseries.
  - cbn [negb]. unfold bind, ret, AppHandlers.setProjectsTo. cbv beta iota.
    eexists _, _. split; [reflexivity|]. cbn [projects hd_error tl].
    cbn [BookProject.outline BookProject.chapters BookProject.sources
         BookProject.seriesIndex BookProject.seriesId map Source.name].
    repeat split.
    + destruct (BookProject.seriesIndex originalProject) as [i|];
        [|reflexivity].
      now destruct (i =? 0).
    + rewrite H. cbn. now destruct series.
    + discriminate.
    + discriminate.
    + intros uuid2 now2 nav2 Htruthy.
      cbn [AppHandlers.truthyOption BookProject.seriesId] in *.
      cbn [BookProject.seriesIndex BookProject.seriesId].
      rewrite Htruthy. cbn [negb]. cbv beta iota.
      eexists _, _. split; [reflexivity|].
      cbn [BookProject.seriesId BookProject.seriesIndex projects option_map].
      split; [|split; [reflexivity|]].
      * destruct (BookProject.seriesId originalProject) as [[|c s]|];
          try discriminate. reflexivity.
      * intros Hnonneg. eexists. split; [reflexivity|]. f_equal.
        destruct (BookProject.seriesIndex originalProject) as [i|];
          [|reflexivity].
        specialize (Hnonneg i eq_refl).
        destruct (Z.eqb_spec i 0);
          match goal with
          | |- context [?j =? 0] => destruct (Z.eqb_spec j 0)
          end; lia.
  - cbn [negb]. unfold bind, ret, AppHandlers.setProjectsTo,
      App.handleUpdateProject, App.setProjects. cbv beta iota.
    eexists _, _. split; [reflexivity|]. cbn [projects hd_error tl].
    cbn [BookProject.outline BookProject.chapters BookProject.sources
         BookProject.seriesIndex BookProject.seriesId map Source.name].
    repeat split.
    + destruct (BookProject.seriesIndex originalProject) as [i|];
        [|reflexivity].
      now destruct (i =? 0).
    + rewrite H in Hseries. cbn in Hseries. now destruct series.
    + rewrite H in Hseries. cbn in Hseries. now destruct series.
    + intros stored Hstored.
      pose proof (findProject_replaced
                  (BookProject.mk (BookProject.id originalProject)
                     (BookProject.title originalProject)
                     (BookProject.lastModified originalProject)
                     (BookProject.sources originalProject)
                     (BookProject.outline originalProject)
                     (BookProject.chapters originalProject)
                     (BookProject.currentStep originalProject)
                     (Some (uuid 0%nat)) (Some 1)
                     (BookProject.audioVoice originalProject))
                  (projects w)) as Hfound.
      cbn [BookProject.id] in Hfound.
      eexists. split; [apply Hfound; congruence|].
      repeat split.
    + intros uuid2 now2 nav2 Htruthy.
      cbn [AppHandlers.truthyOption BookProject.seriesId] in *.
      cbn [BookProject.seriesIndex BookProject.seriesId].
      rewrite Htruthy. cbn [negb]. cbv beta iota.
      eexists _, _. split; [reflexivity|].
      cbn [BookProject.seriesId BookProject.seriesIndex projects option_map].
      split; [|split; [reflexivity|]].
      * now destruct (uuid 0%nat).
      * intros Hnonneg. eexists. split; [reflexivity|]. f_equal.
        destruct (BookProject.seriesIndex originalProject) as [i|];
          [|reflexivity].
        specialize (Hnonneg i eq_refl).
        destruct (Z.eqb_spec i 0);
          match goal with
          | |- context [?j =? 0] => destruct (Z.eqb_spec j 0)
          end; lia.
Qed.

(* ================================================================== *)
(** * Properties of the outline builder *)

Lemma numbers_reindexFrom (i : nat) (chapters : list ChapterOutline.t) :
  map ChapterOutline.chapterNumber (OutlineBuilder.reindexFrom i chapters)
  = map (fun k => Z.of_nat k) (seq (S i) (length chapters)).
Proof.
  revert i. induction chapters as [|c rest IH]; intros i; cbn [map seq length
    OutlineBuilder.reindexFrom ChapterOutline.chapterNumber]; [reflexivity|].
  rewrite IH. f_equal. lia.
Qed.

Lemma length_reindexFrom (i : nat) (chapters : list ChapterOutline.t) :
  length (OutlineBuilder.reindexFrom i chapters) = length chapters.
Proof.
  revert i. induction chapters as [|c rest IH]; intros i; cbn; auto.
Qed.

Lemma texts_reindexFrom (i : nat) (chapters : list ChapterOutline.t) :
  map (fun c => (ChapterOutline.title c, ChapterOutline.summary c))
      (OutlineBuilder.reindexFrom i chapters)
  = map (fun c => (ChapterOutline.title c, ChapterOutline.summary c)) chapters.
Proof.
  revert i. induction chapters as [|c rest IH]; intros i; cbn;
    [reflexivity|]. now rewrite IH.
Qed.

Lemma removeAt_spec (i : nat) (index : Z) (chapters : list ChapterOutline.t) :
  OutlineBuilder.removeAt i index chapters
  = if Z.of_nat i <=? index
    then firstn (Z.to_nat index - i) chapters
         ++ skipn (S (Z.to_nat index - i)) chapters
    else chapters.
Proof.
  revert i. induction chapters as [|c rest IH]; intros i;
    cbn [OutlineBuilder.removeAt].
  - destruct (Z.of_nat i <=? index); [|reflexivity].
    now rewrite firstn_nil, skipn_nil.
  - rewrite IH.
    destruct (Z.eqb_spec (Z.of_nat i) index) as [Heq|Hneq].
    + destruct (Z.leb_spec (Z.of_nat (S i)) index); [lia|].
      destruct (Z.leb_spec (Z.of_nat i) index); [|lia].
      replace (Z.to_nat index - i)%nat with 0%nat by lia. reflexivity.
    + destruct (Z.leb_spec (Z.of_nat i) index) as [Hle|Hgt].
      * destruct (Z.leb_spec (Z.of_nat (S i)) index); [|lia].
        replace (Z.to_nat index - i)%nat
          with (S (Z.to_nat index - S i)) by lia.
        reflexivity.
      * destruct (Z.leb_spec (Z.of_nat (S i)) index); [lia|reflexivity].
Qed.

Lemma numbers_setAt index title summary chapters :
  map ChapterOutline.chapterNumber
      (OutlineBuilder.setAt index title summary chapters)
  = map ChapterOutline.chapterNumber chapters.
Proof.
  revert index. induction chapters as [|c rest IH]; intros [|index]; cbn;
    try reflexivity. now rewrite IH.
Qed.

Lemma nth_error_setAt index title summary chapters k :
  nth_error (OutlineBuilder.setAt index title summary chapters) k
  = if (k =? index)%nat
    then option_map
           (fun c => ChapterOutline.mk (ChapterOutline.chapterNumber c)
                       title summary)
           (nth_error chapters k)
    else nth_error chapters k.
Proof.
  revert index k. induction chapters as [|c rest IH]; intros [|index] [|k];
    cbn; try reflexivity.
  - now destruct (k =? index)%nat.
  - apply IH.
Qed.

(** X14.  The outline builder keeps the chapters numbered 1, 2, 3, ... .
    Deleting a chapter, once confirmed, always yields such a numbering,
    whatever the numbers were before: the chapter at the index is removed
    (none when the index is outside the list), the others keep their order,
    titles and summaries, and all are renumbered from 1.  Adding a chapter
    keeps the numbering when it held before: the new chapter is appended
    with the next number.  Saving the edit of a row changes the title and
    summary of that row and nothing else, so keeps all the numbers. *)
Theorem outline_numbering (outline : BookOutline.t) :
  (forall index,
     OutlineBuilder.deleteChapter outline index false = None
     /\ exists outline',
          OutlineBuilder.deleteChapter outline index true = Some outline'
          /\ dense (BookOutline.chapters outline')
          /\ BookOutline.title outline' = BookOutline.title outline
          /\ map (fun c => (ChapterOutline.title c, ChapterOutline.summary c))
                 (BookOutline.chapters outline')
             = map (fun c => (ChapterOutline.title c, ChapterOutline.summary c))
                   (if 0 <=? index
                    then firstn (Z.to_nat index) (BookOutline.chapters outline)
                         ++ skipn (S (Z.to_nat index))
                                  (BookOutline.chapters outline)
                    else BookOutline.chapters outline))
  /\ (dense (BookOutline.chapters outline) ->
      dense (BookOutline.chapters (OutlineBuilder.addChapter outline)))
  /\ BookOutline.chapters (OutlineBuilder.addChapter outline)
     = BookOutline.chapters outline
       ++ [ChapterOutline.mk
             (Z.of_nat (length (BookOutline.chapters outline)) + 1)
             "New Chapter" "Description of the new chapter..."]
  /\ (forall index title summary,
        0 <= index < Z.of_nat (length (BookOutline.chapters outline)) ->
        exists outline',
          OutlineBuilder.saveChapter outline index (Some (title, summary))
          = OutlineBuilder.SavedOutline outline'
          /\ map ChapterOutline.chapterNumber (BookOutline.chapters outline')
             = map ChapterOutline.chapterNumber (BookOutline.chapters outline)
          /\ forall k,
               nth_error (BookOutline.chapters outline') k
               = if (k =? Z.to_nat index)%nat
                 then option_map
                        (fun c => ChapterOutline.mk
                                    (ChapterOutline.chapterNumber c)
                                    title summary)
                        (nth_error (BookOutline.chapters outline) k)
                 else nth_error (BookOutline.chapters outline) k).
Proof.
  split; [|split; [|split]].
  - intros index. split; [reflexivity|].
    eexists. split; [reflexivity|].
    cbn [OutlineBuilder.withChapters BookOutline.chapters BookOutline.title].
    split; [|split; [reflexivity|]].
    + unfold dense. now rewrite numbers_reindexFrom, length_reindexFrom.
    + rewrite texts_reindexFrom, removeAt_spec. cbn [Z.of_nat].
      now rewrite Nat.sub_0_r.
  - unfold dense, OutlineBuilder.addChapter.
    cbn [OutlineBuilder.withChapters BookOutline.chapters].
    intros Hdense. rewrite map_app, length_app, Hdense. cbn [length map].
    rewrite Nat.add_1_r, seq_S, map_app.
    cbn [map ChapterOutline.chapterNumber]. f_equal. f_equal. lia.
  - reflexivity.
  - intros index title summary Hrange.
    unfold OutlineBuilder.saveChapter.
    destruct (Z.leb_spec 0 index); [|lia].
    destruct (Z.ltb_spec index
                (Z.of_nat (length (BookOutline.chapters outline)))); [|lia].
    cbn [andb]. eexists. split; [reflexivity|].
    cbn [OutlineBuilder.withChapters BookOutline.chapters].
    split; [apply numbers_setAt|]. intros k. apply nth_error_setAt.
Qed.

(** Outside the rows of the list [saveChapter] leaves an entry without a
    chapter number; on an outline that is not numbered from 1, [addChapter]
    can reuse a number. *)
Example outline_edge_cases :
  let outline := Sample.outline [2; 3] in
  OutlineBuilder.saveChapter outline 2 (Some ("t", "s")%string) = OutlineBuilder.Malformed
  /\ OutlineBuilder.saveChapter outline (-1) (Some ("t", "s")%string)
     = OutlineBuilder.Malformed
  /\ OutlineBuilder.saveChapter outline 0 None = OutlineBuilder.NotSaved
  /\ map ChapterOutline.chapterNumber
         (BookOutline.chapters (OutlineBuilder.addChapter outline))
     = [2; 3; 3]
  /\ option_map (fun o => map ChapterOutline.chapterNumber
                              (BookOutline.chapters o))
                (OutlineBuilder.deleteChapter outline 7 true)
     = Some [1; 2].
Proof. vm_compute. repeat split; reflexivity. Qed.

(* ================================================================== *)
(** * Properties of the editor *)

Lemma tryCatch_bind {A B} (m : M A) (k : A -> M B)
    (handler : JsError.t -> M B) (w : World) :
  tryCatch (bind m k) handler w
  = match m w with
    | (Returned a, w') => tryCatch (k a) handler w'
    | (Thrown e, w') => handler e w'
    | (OutOfFuel, w') => (OutOfFuel, w')
    end.
Proof. unfold tryCatch, bind. now destruct (m w) as [[a|e|] w']. Qed.

(** The two ways [generateOutline] ends. *)
Lemma generateOutline_run (jsonParse : string -> BookOutline.t + JsError.t)
    (settled : GenAI.Settled) (w : World) :
  (exists outline response text,
     settled = GenAI.Fulfilled response
     /\ GenAI.text response = Some text
     /\ jsonParse text = inl outline
     /\ GeminiServices.generateOutline jsonParse settled w
        = (Returned outline, advance w 1 []))
  \/ (exists e,
        (Gemini.isFatalError e = true
         \/ e = newError "Failed to generate outline.")
        /\ GeminiServices.generateOutline jsonParse settled w
           = (Thrown e,
              advance w 1 [EvConsoleError "Outline generation error:"])).
Proof.
  assert (Hclass : forall e,
             Gemini.isFatalError
               (if Gemini.isFatalError e then e
                else newError "Failed to generate outline.") = true
             \/ (if Gemini.isFatalError e then e
                 else newError "Failed to generate outline.")
                = newError "Failed to generate outline.").
  { intros e. destruct (Gemini.isFatalError e) eqn:E; auto. }
  unfold GeminiServices.generateOutline. rewrite tryCatch_generate.
  destruct settled as [response|e].
  - destruct (GenAI.text response) as [[|c text]|] eqn:Htext; cbn [truthy].
    + rewrite tryCatch_throw, rethrow_fatal, advance_advance.
      right. eexists. split; [apply Hclass|reflexivity].
    + destruct (jsonParse (String c text)) as [outline|e] eqn:Hparse.
      * rewrite tryCatch_ret. left.
        exists outline, response, (String c text). auto.
      * rewrite tryCatch_throw, rethrow_fatal, advance_advance.
        right. eexists. split; [apply Hclass|reflexivity].
    + rewrite tryCatch_throw, rethrow_fatal, advance_advance.
      right. eexists. split; [apply Hclass|reflexivity].
  - rewrite rethrow_fatal, advance_advance.
    right. eexists. split; [apply Hclass|reflexivity].
Qed.

Lemma updateProject_run (now : Z) (project : BookProject.t)
    (updates : Partial.t) (w : World) :
  ProjectEditorHandlers.updateProject now project updates w
  = (Returned tt,
     replay w [EvSetProjects
                 (UpdReplaceProject
                    (ProjectEditorHandlers.spread project updates now))]).
Proof.
  unfold ProjectEditorHandlers.updateProject, App.handleUpdateProject.
  apply setProjects_replay.
Qed.

Lemma reconciled_initialChapters (outline : BookOutline.t) :
  reconciled outline (App.initialChapters outline).
Proof.
  intros n. unfold App.initialChapters. rewrite map_map. cbn. reflexivity.
Qed.

Lemma orElse_not_empty (x : option string) (d : string) :
  d <> ""%string -> orElse x d <> ""%string.
Proof.
  intros Hd. unfold orElse. destruct x as [[|c s]|]; cbn; auto. discriminate.
Qed.

(** X15.  [handleCreateOutline] does nothing for a project without sources.
    Otherwise it calls [generateOutline], which makes one backend request
    and does not write the collection, and ends with [isProcessing] off
    either way.  When [generateOutline] returns an outline, the project the
    handler was called with is written back with that outline, the title of
    the outline, step 1 and an empty chapter array, whatever results it
    had; the error is cleared and the title field shows the new title; the
    auto-start effect stays quiet at step 1, and once "Start Writing" has
    moved that project to step 2 the effect fires, and the run it requests
    starts from one placeholder per chapter of the new outline.  When
    [generateOutline] throws, nothing is written and the message shown is
    the message of the error thrown, or the fixed "Failed to generate
    outline." text when that is missing or empty; it is the message of a
    fatal error or the fixed text, it is never empty, and as long as it is
    shown the auto-start effect does not fire for any project. *)
Theorem new_outline_resets_the_chapters
    (jsonParse : string -> BookOutline.t + JsError.t)
    (settled : GenAI.Settled) (now : Z) (project : BookProject.t)
    (local : ProjectEditorHandlers.Local) (w : World) :
  let run :=
    ProjectEditorHandlers.handleCreateOutline jsonParse settled now project
      local w in
  (BookProject.sources project = [] -> run = (Returned local, w))
  /\ (BookProject.sources project <> [] ->
      match GeminiServices.generateOutline jsonParse settled w with
      | (Returned outline, w1) =>
          let q :=
            BookProject.mk (BookProject.id project)
              (BookOutline.title outline) now
              (BookProject.sources project) (Some outline) [] 1
              (BookProject.seriesId project)
              (BookProject.seriesIndex project)
              (BookProject.audioVoice project) in
          let local' :=
            ProjectEditorHandlers.mkLocal false (BookOutline.title outline)
              (ProjectEditorHandlers.selectedStyle local) None in
          run = (Returned local',
                 replay w1 [EvSetProjects (UpdReplaceProject q)])
          /\ requests w1 = S (requests w)
          /\ projects w1 = projects w
          /\ (forall processing generating error style,
                ProjectEditor.autoStartEffect q processing generating
                  error style = None)
          /\ (forall now' w2 style,
                App.findProject (projects w2) (BookProject.id project)
                <> None ->
                generatingProjectId w2 = None ->
                exists w3 q2,
                  ProjectEditorHandlers.startWriting now' q w2
                  = (Returned tt, w3)
                  /\ App.findProject (projects w3)
                       (BookProject.id project) = Some q2
                  /\ BookProject.outline q2 = Some outline
                  /\ ProjectEditor.autoStartEffect q2
                       (ProjectEditorHandlers.isProcessing local')
                       (ProjectEditor.isGeneratingGlobal w3 q2)
                       (ProjectEditorHandlers.error local') style
                     = Some style
                  /\ startingChapters q2 outline
                     = App.initialChapters outline
                  /\ reconciled outline (startingChapters q2 outline))
      | (Thrown e, w1) =>
          let msg := orElse (JsError.message e)
                            "Failed to generate outline." in
          let local' :=
            ProjectEditorHandlers.mkLocal false
              (ProjectEditorHandlers.localTitle local)
              (ProjectEditorHandlers.selectedStyle local) (Some msg) in
          run = (Returned local', w1)
          /\ requests w1 = S (requests w)
          /\ projects w1 = projects w
          /\ (Gemini.isFatalError e = true
              \/ msg = "Failed to generate outline."%string)
          /\ msg <> ""%string
          /\ forall p processing generating style,
               ProjectEditor.autoStartEffect p processing generating
                 (ProjectEditorHandlers.error local') style
               = None
      | (OutOfFuel, _) => False
      end)
  /\ (forall response outline,
        settled = GenAI.Fulfilled response ->
        truthy (orElse (GenAI.text response) "") = true ->
        jsonParse (orElse (GenAI.text response) "") = inl outline ->
        GeminiServices.generateOutline jsonParse settled w
        = (Returned outline, advance w 1 []))
  /\ (forall e,
        settled = GenAI.Failed e ->
        GeminiServices.generateOutline jsonParse settled w
        = (Thrown (if Gemini.isFatalError e then e
                   else newError "Failed to generate outline."),
           advance w 1 [EvConsoleError "Outline generation error:"])).
Proof.
  cbv zeta.
  assert (Hanswer :
            (forall response outline,
               settled = GenAI.Fulfilled response ->
               truthy (orElse (GenAI.text response) "") = true ->
               jsonParse (orElse (GenAI.text response) "") = inl outline ->
               GeminiServices.generateOutline jsonParse settled w
               = (Returned outline, advance w 1 []))
            /\ (forall e,
                  settled = GenAI.Failed e ->
                  GeminiServices.generateOutline jsonParse settled w
                  = (Thrown (if Gemini.isFatalError e then e
                             else newError "Failed to generate outline."),
                     advance w 1
                       [EvConsoleError "Outline generation error:"]))).
  { unfold GeminiServices.generateOutline. rewrite tryCatch_generate.
    split.
    - intros response outline -> Htext Hparse.
      destruct (GenAI.text response) as [[|c text]|];
        cbn [truthy orElse] in *; try discriminate.
      now rewrite Hparse, tryCatch_ret.
    - intros e ->. now rewrite rethrow_fatal, advance_advance. }
  cut ((BookProject.sources project = [] ->
        ProjectEditorHandlers.handleCreateOutline jsonParse settled now
          project local w = (Returned local, w))
       /\ (BookProject.sources project <> [] ->
           match GeminiServices.generateOutline jsonParse settled w with
           | (Returned outline, w1) =>
               ProjectEditorHandlers.handleCreateOutline jsonParse settled
                 now project local w
               = (Returned
                    (ProjectEditorHandlers.mkLocal false
                       (BookOutline.title outline)
                       (ProjectEditorHandlers.selectedStyle local) None),
                  replay w1
                    [EvSetProjects
                       (UpdReplaceProject
                          (BookProject.mk (BookProject.id project)
                             (BookOutline.title outline) now
                             (BookProject.sources project) (Some outline)
                             [] 1 (BookProject.seriesId project)
                             (BookProject.seriesIndex project)
                             (BookProject.audioVoice project)))])
               /\ requests w1 = S (requests w)
               /\ projects w1 = projects w
               /\ (forall processing generating error style,
                     ProjectEditor.autoStartEffect
                       (BookProject.mk (BookProject.id project)
                          (BookOutline.title outline) now
                          (BookProject.sources project) (Some outline)
                          [] 1 (BookProject.seriesId project)
                          (BookProject.seriesIndex project)
                          (BookProject.audioVoice project))
                       processing generating error style = None)
               /\ (forall now' w2 style,
                     App.findProject (projects w2) (BookProject.id project)
                     <> None ->
                     generatingProjectId w2 = None ->
                     exists w3 q2,
                       ProjectEditorHandlers.startWriting now'
                         (BookProject.mk (BookProject.id project)
                            (BookOutline.title outline) now
                            (BookProject.sources project) (Some outline)
                            [] 1 (BookProject.seriesId project)
                            (BookProject.seriesIndex project)
                            (BookProject.audioVoice project)) w2
                       = (Returned tt, w3)
                       /\ App.findProject (projects w3)
                            (BookProject.id project) = Some q2
                       /\ BookProject.outline q2 = Some outline
                       /\ ProjectEditor.autoStartEffect q2 false
                            (ProjectEditor.isGeneratingGlobal w3 q2)
                            None style
                          = Some style
                       /\ startingChapters q2 outline
                          = App.initialChapters outline
                       /\ reconciled outline (startingChapters q2 outline))
           | (Thrown e, w1) =>
               ProjectEditorHandlers.handleCreateOutline jsonParse settled
                 now project local w
               = (Returned
                    (ProjectEditorHandlers.mkLocal false
                       (ProjectEditorHandlers.localTitle local)
                       (ProjectEditorHandlers.selectedStyle local)
                       (Some (orElse (JsError.message e)
                                "Failed to generate outline."))), w1)
               /\ requests w1 = S (requests w)
               /\ projects w1 = projects w
               /\ (Gemini.isFatalError e = true
                   \/ orElse (JsError.message e)
                        "Failed to generate outline."
                      = "Failed to generate outline."%string)
               /\ orElse (JsError.message e) "Failed to generate outline."
                  <> ""%string
               /\ forall p processing generating style,
                    ProjectEditor.autoStartEffect p processing generating
                      (Some (orElse (JsError.message e)
                               "Failed to generate outline.")) style
                    = None
           | (OutOfFuel, _) => False
           end)).
  { intros [H1 H2]. split; [exact H1|]. split; [exact H2|exact Hanswer]. }
  clear Hanswer.
  unfold ProjectEditorHandlers.handleCreateOutline.
  destruct (BookProject.sources project) as [|s ss] eqn:Hsources;
    cbn [length Nat.eqb].
  { split; [reflexivity|congruence]. }
  split; [discriminate|]. intros _.
  rewrite tryCatch_bind.
  destruct (generateOutline_run jsonParse settled w)
    as [(outline & response & text & Hs & Ht & Hp & Hrun)|(e & He & Hrun)];
    rewrite Hrun.
  - cbv beta. rewrite tryCatch_bind. cbv beta.
    rewrite updateProject_run, tryCatch_ret.
    cbn [ProjectEditorHandlers.isProcessing
         ProjectEditorHandlers.selectedStyle ProjectEditorHandlers.error
         ProjectEditorHandlers.localTitle].
    split.
    { unfold ProjectEditorHandlers.spread, ProjectEditorHandlers.override.
      cbn. now rewrite Hsources. }
    split; [unfold advance; cbn [requests]; lia|].
    split; [reflexivity|].
    split; [reflexivity|].
    intros now' w1 style Hfound Hidle.
    unfold ProjectEditorHandlers.startWriting. rewrite updateProject_run.
    eexists _, _. split; [reflexivity|].
    set (q2 := ProjectEditorHandlers.spread _ _ now').
    cbn [replay projects updates flat_map app fold_left].
    change (BookProject.id project) with (BookProject.id q2).
    split; [now apply findProject_replaced|].
    split; [reflexivity|].
    split.
    { unfold ProjectEditor.isGeneratingGlobal, replay.
      cbn [generatingProjectId]. rewrite Hidle. reflexivity. }
    split; [reflexivity|].
    apply reconciled_initialChapters.
  - unfold ret.
    cbn [ProjectEditorHandlers.isProcessing
         ProjectEditorHandlers.selectedStyle ProjectEditorHandlers.error
         ProjectEditorHandlers.localTitle].
    split; [reflexivity|].
    split; [unfold advance; cbn [requests]; lia|].
    split; [reflexivity|].
    split; [destruct He as [He| ->]; auto|].
    assert (Hne : orElse (JsError.message e) "Failed to generate outline."
                  <> ""%string) by (apply orElse_not_empty; discriminate).
    split; [assumption|].
    intros p processing generating style.
    unfold ProjectEditor.autoStartEffect.
    destruct (orElse (JsError.message e) "Failed to generate outline.");
      [congruence|].
    cbn [truthy negb]. now rewrite andb_false_r.
Qed.


(** Regenerating the outline of a project that has a manuscript: the
    results are dropped with the old outline.  A response without text
    leaves the project as it was and shows the fixed message. *)
Example outline_creation_runs :
  let note := Source.mk "s1" TEXT "Once upon a time" None "Note" None false in
  let project :=
    BookProject.mk "p1" "Title" 0 [note] (Some (Sample.outline [1; 2]))
      [Sample.done 1 "one"; Sample.done 2 "two"] 2 None None None in
  let w := mkWorld [project] None None 0 [] in
  let local := ProjectEditorHandlers.mkLocal false "Title" literary None in
  let jsonParse := fun _ : string =>
    inl (Sample.outline [1; 2; 3]) : BookOutline.t + JsError.t in
  let answer text := GenAI.Fulfilled (GenAI.mkResponse text None None) in
  (let (res, w') :=
     ProjectEditorHandlers.handleCreateOutline jsonParse
       (answer (Some "{...}"%string)) 5000 project local w in
   res = Returned (ProjectEditorHandlers.mkLocal false "Book" literary None)
   /\ projects w'
      = [BookProject.mk "p1" "Book" 5000 [note]
           (Some (Sample.outline [1; 2; 3])) [] 1 None None None]
   /\ requests w' = 1%nat)
  /\ (let (res, w') :=
        ProjectEditorHandlers.handleCreateOutline jsonParse (answer None)
          5000 project local w in
      res = Returned (ProjectEditorHandlers.mkLocal false "Title" literary
                        (Some "Failed to generate outline."%string))
      /\ projects w' = [project]
      /\ requests w' = 1%nat).
Proof. vm_compute. repeat split; reflexivity. Qed.

(** X16.  Moving between the steps never starts a run.  [navigateStep]
    makes at most one write, which changes the step and the modification
    time of the project and nothing else.  It writes when the step asked
    for is an earlier one, whatever it is; going forward it writes only
    when the project has an outline and the step is 1, or the step is 2 and
    the project has chapters.  So for a project on one of the three steps
    the project it writes never satisfies the auto-start effect: step 2 is
    reached this way only with chapters.  The buttons of the step bar only
    go back. *)
Theorem navigation_never_starts_a_run (now : Z) (project : BookProject.t)
    (step : Z) (w : World) :
  BookProject.currentStep project <= 2 ->
  let q :=
    BookProject.mk (BookProject.id project) (BookProject.title project) now
      (BookProject.sources project) (BookProject.outline project)
      (BookProject.chapters project) step (BookProject.seriesId project)
      (BookProject.seriesIndex project) (BookProject.audioVoice project) in
  (exists evs,
     ProjectEditorHandlers.navigateStep now project step w
     = (Returned tt, replay w evs)
     /\ (evs = [] \/ evs = [EvSetProjects (UpdReplaceProject q)])
     /\ (evs <> []
         <-> step < BookProject.currentStep project
             \/ (BookProject.currentStep project < step
                 /\ BookProject.outline project <> None
                 /\ (step = 1
                     \/ (step = 2 /\ BookProject.chapters project <> []))))
     /\ (evs <> [] ->
         forall processing generating error style,
           ProjectEditor.autoStartEffect q processing generating error style
           = None))
  /\ (exists evs,
        ProjectEditorHandlers.stepClick now project step w
        = (Returned tt, replay w evs)
        /\ (evs = [] \/ evs = [EvSetProjects (UpdReplaceProject q)])
        /\ (evs <> [] <-> step < BookProject.currentStep project)).
Proof.
  intros Hsteps q.
  assert (Hback : ProjectEditorHandlers.updateProject now project
                    (Partial.mk None None None None (Some step) None) w
                  = (Returned tt,
                     replay w [EvSetProjects (UpdReplaceProject q)])).
  { now rewrite updateProject_run. }
  assert (Hquiet : forall processing generating error style,
             step <> 2 \/ BookProject.chapters project <> [] ->
             ProjectEditor.autoStartEffect q processing generating error style
             = None).
  { intros processing generating error style Hq.
    unfold ProjectEditor.autoStartEffect, q.
    cbn [BookProject.currentStep BookProject.outline BookProject.chapters].
    destruct Hq as [Hq|Hq].
    - destruct (Z.eqb_spec step 2); [contradiction|reflexivity].
    - destruct (BookProject.chapters project); [contradiction|].
      cbn [length Nat.eqb]. now rewrite !andb_false_r. }
  assert (Hnil : forall m : M unit, m w = (Returned tt, w) ->
             exists evs,
               m w = (Returned tt, replay w evs) /\ evs = []).
  { intros m Hm. exists []. now rewrite replay_nil. }
  split.
  - unfold ProjectEditorHandlers.navigateStep,
      ProjectEditorHandlers.hasOutline.
    destruct (Z.ltb_spec step (BookProject.currentStep project)) as [Hlt|Hge].
    { eexists. split; [exact Hback|]. split; [now right|].
      split; [split; [auto|discriminate]|].
      intros _ processing generating error style. apply Hquiet. left. lia. }
    destruct (Z.eqb_spec step (BookProject.currentStep project)) as [Heq|Hne].
    { exists []. rewrite replay_nil. split; [reflexivity|].
      split; [now left|]. split; [|easy].
      split; [easy|]. intros [H|(H & _)]; lia. }
    unfold bind.
    destruct (Z.eqb_spec step 1) as [H1|H1];
      destruct (Z.eqb_spec step 2) as [H2|H2]; try lia;
      destruct (BookProject.outline project) as [outline|] eqn:Houtline;
      cbn [andb].
    + subst step. rewrite Hback. unfold ret.
      eexists. split; [reflexivity|]. split; [now right|].
      split.
      * split; [intros _|discriminate]. right.
        repeat split; try lia; discriminate.
      * intros _ processing generating error style. apply Hquiet.
        left. lia.
    + exists []. rewrite replay_nil. split; [reflexivity|].
      split; [now left|]. split; [|easy].
      split; [easy|]. intros [H|(_ & H & _)]; [lia|congruence].
    + subst step.
      destruct (BookProject.chapters project) as [|c cs] eqn:Hchapters;
        cbn [length Nat.ltb Nat.leb andb].
      * exists []. rewrite replay_nil. split; [reflexivity|].
        split; [now left|]. split; [|easy].
        split; [easy|].
        intros [H|(_ & _ & [H|[_ H]])]; [lia|lia|congruence].
      * unfold ret. rewrite Hback.
        eexists. split; [reflexivity|]. split; [now right|].
        split.
        -- split; [intros _|discriminate]. right.
           split; [lia|]. split; [discriminate|].
           right. split; [reflexivity|discriminate].
        -- intros _ processing generating error style. apply Hquiet.
           right. discriminate.
    + exists []. rewrite replay_nil. split; [reflexivity|].
      split; [now left|]. split; [|easy].
      split; [easy|]. intros [H|(_ & H & _)]; [lia|congruence].
    + exists []. unfold ret. rewrite replay_nil. split; [reflexivity|].
      split; [now left|]. split; [|easy].
      split; [easy|]. intros [H|(_ & _ & [H|[H _]])]; lia.
    + exists []. rewrite replay_nil. split; [reflexivity|].
      split; [now left|]. split; [|easy].
      split; [easy|]. intros [H|(_ & H & _)]; [lia|congruence].
  - unfold ProjectEditorHandlers.stepClick,
      ProjectEditorHandlers.navigateStep.
    destruct (Z.ltb_spec step (BookProject.currentStep project)) as [Hlt|Hge];
      cbn [orb].
    { eexists. split; [exact Hback|]. split; [now right|].
      split; [auto|discriminate]. }
    destruct (Z.eqb_spec (BookProject.currentStep project) step) as [Heq|Hne].
    + destruct (Z.eqb_spec step (BookProject.currentStep project));
        [|congruence].
      exists []. rewrite replay_nil. split; [reflexivity|].
      split; [now left|]. split; [easy|lia].
    + exists []. unfold ret. rewrite replay_nil. split; [reflexivity|].
      split; [now left|]. split; [easy|lia].
Qed.

Lemma navigation_never_starts_a_run_witness :
  let project := Sample.project [] [1; 2] in
  exists evs,
    ProjectEditorHandlers.navigateStep 5000 project 1 (Sample.world [] [1; 2])
    = (Returned tt, replay (Sample.world [] [1; 2]) evs)
    /\ evs <> [].
Proof.
  intros project.
  destruct (navigation_never_starts_a_run 5000 project 1
              (Sample.world [] [1; 2])) as [(evs & Hrun & _ & Hwrites & _) _].
  - vm_compute. discriminate.
  - exists evs. split; [exact Hrun|]. apply Hwrites. left. reflexivity.
Defined.


Lemma findChapter_absent (cs : list ChapterContent.t) (n : Z) :
  ~ In n (map ChapterContent.chapterNumber cs) -> App.findChapter cs n = None.
Proof.
  unfold App.findChapter. induction cs as [|c cs IH]; cbn; [reflexivity|].
  intros H. destruct (Z.eqb_spec (ChapterContent.chapterNumber c) n);
    [tauto|apply IH; tauto].
Qed.

(** The project found after a run. *)
Lemma startBookGeneration_project (h : Host) (projectId : string)
    (style : WritingStyle) (w : World) (project : BookProject.t)
    (outline : BookOutline.t) :
  App.findProject (projects w) projectId = Some project ->
  BookProject.outline project = Some outline ->
  exists evs w' q,
    App.startBookGeneration h projectId style w = (Returned tt, w')
    /\ trace w' = trace w ++ evs
    /\ generatingProjectId w' = None
    /\ App.findProject (projects w') projectId = Some q
    /\ BookProject.frame q = BookProject.frame project
    /\ shape (BookProject.chapters q) = shape (startingChapters project outline)
    /\ (forall chapOutline,
          In chapOutline (BookOutline.chapters outline) ->
          App.alreadyDone
            (App.findChapter (startingChapters project outline)
               (ChapterOutline.chapterNumber chapOutline)) = false ->
          In (ChapterOutline.chapterNumber chapOutline) (generated evs)
          \/ exists msg, alerts evs = [msg]).
Proof.
  intros Hfind Houtline.
  destruct (startBookGeneration_run h projectId style w project outline
              Hfind Houtline) as (loopEvs & st' & Hloop & Hrun).
  pose proof (findProject_id _ _ _ Hfind) as Hid.
  eexists _, _, _. split; [exact Hrun|]. cbn [trace projects generatingProjectId].
  split; [reflexivity|]. split; [reflexivity|].
  fold (runUpdates project outline loopEvs).
  rewrite fold_applyUpdater, findProject_map, Hfind.
  - cbn [option_map]. split; [reflexivity|].
    destruct (runUpdates_project _ _ _ _ _ _ _ project outline project
                Hloop Hid) as (_ & _ & Hsame).
    destruct (Hsame Hid) as [Hframe Hshape].
    split; [exact Hframe|]. split; [exact Hshape|].
    intros chapOutline Hin Hpending.
    rewrite generated_runEvents, alerts_runEvents.
    destruct (Loop_pending _ _ _ _ _ _ _ _ Hloop Hin Hpending) as [Hg|Hf];
      [now left|right].
    destruct (Loop_alerts _ _ _ _ _ _ _ Hloop eq_refl) as [[Hn _]|[_ Hmsg]];
      [congruence|assumption].
  - intros p.
    now apply (runUpdates_project _ _ _ _ _ _ _ project outline p Hloop Hid).
Qed.

(** X17.  A chapter added in the outline builder to a project that has a
    manuscript is never written.  [handleUpdateOutline] stores the new
    outline and leaves the chapter array and the step as they are, so for a
    project whose chapter array has the numbers of its outline, numbered
    from 1, the added chapter has no entry; the array is not empty, so the
    auto-start effect does not fire; and a run started all the same
    requests the text of the added chapter from the backend, unless a fatal
    error stops it first, and stores nothing for it. *)
Theorem added_chapter_is_never_stored (h : Host) (style : WritingStyle)
    (now : Z) (w : World) (project : BookProject.t) (outline : BookOutline.t) :
  App.findProject (projects w) (BookProject.id project) = Some project ->
  BookProject.outline project = Some outline ->
  BookProject.chapters project <> [] ->
  reconciled outline (BookProject.chapters project) ->
  dense (BookOutline.chapters outline) ->
  let outline' := OutlineBuilder.addChapter outline in
  let n := Z.of_nat (length (BookOutline.chapters outline)) + 1 in
  exists w1 q,
    ProjectEditorHandlers.handleUpdateOutline now project outline' w
    = (Returned tt, w1)
    /\ App.findProject (projects w1) (BookProject.id project) = Some q
    /\ BookProject.outline q = Some outline'
    /\ BookProject.chapters q = BookProject.chapters project
    /\ BookProject.currentStep q = BookProject.currentStep project
    /\ In n (map ChapterOutline.chapterNumber (BookOutline.chapters outline'))
    /\ ~ reconciled outline' (BookProject.chapters q)
    /\ (forall processing generating error style',
          ProjectEditor.autoStartEffect q processing generating error style'
          = None)
    /\ exists evs w2,
         App.startBookGeneration h (BookProject.id project) style w1
         = (Returned tt, w2)
         /\ trace w2 = trace w1 ++ evs
         /\ (In n (generated evs) \/ exists msg, alerts evs = [msg])
         /\ stored (projects w2) (BookProject.id project) n = None.
Proof.
  intros Hfind Houtline Hchapters Hreconciled Hdense outline' n.
  assert (Hnew : In n (map ChapterOutline.chapterNumber
                         (BookOutline.chapters outline'))).
  { unfold outline', OutlineBuilder.addChapter.
    cbn [OutlineBuilder.withChapters BookOutline.chapters].
    rewrite map_app. apply in_or_app. right. now left. }
  assert (Habsent : ~ In n (map ChapterContent.chapterNumber
                              (BookProject.chapters project))).
  { intros Hin. apply Hreconciled in Hin. rewrite Hdense in Hin.
    apply in_map_iff in Hin as (k & Hk & Hin). apply in_seq in Hin.
    unfold n in Hk. lia. }
  unfold ProjectEditorHandlers.handleUpdateOutline.
  rewrite updateProject_run.
  set (q := ProjectEditorHandlers.spread project _ now).
  assert (Hfind1 : App.findProject
                     (projects (replay w [EvSetProjects (UpdReplaceProject q)]))
                     (BookProject.id project) = Some q).
  { cbn [replay projects updates flat_map app fold_left].
    change (BookProject.id project) with (BookProject.id q).
    apply findProject_replaced. cbn [q ProjectEditorHandlers.spread
                                      BookProject.id].
    congruence. }
  assert (Hstart : startingChapters q outline' = BookProject.chapters project).
  { unfold startingChapters.
    cbn [q ProjectEditorHandlers.spread ProjectEditorHandlers.override
         Partial.chapters BookProject.chapters].
    destruct (BookProject.chapters project); [contradiction|reflexivity]. }
  eexists _, q. split; [reflexivity|].
  split; [exact Hfind1|]. split; [reflexivity|]. split; [reflexivity|].
  split; [reflexivity|]. split; [exact Hnew|].
  split; [intros H; apply Habsent, H, Hnew|].
  split.
  { intros processing generating error style'.
    unfold ProjectEditor.autoStartEffect.
    cbn [q ProjectEditorHandlers.spread ProjectEditorHandlers.override
         Partial.chapters BookProject.chapters].
    destruct (BookProject.chapters project); [contradiction|].
    cbn [length Nat.eqb]. now rewrite !andb_false_r. }
  destruct (startBookGeneration_project h (BookProject.id project) style _
              q outline' Hfind1 eq_refl)
    as (evs & w2 & q2 & Hrun & Htrace & _ & Hfind2 & _ & Hshape & Hpending).
  exists evs, w2. split; [exact Hrun|]. split; [exact Htrace|].
  rewrite Hstart in Hshape, Hpending.
  pose proof (findChapter_absent _ _ Habsent) as Hnone.
  split.
  - apply in_map_iff in Hnew as (chapOutline & Hnumber & Hin).
    rewrite <- Hnumber. apply Hpending; [exact Hin|].
    now rewrite Hnumber, Hnone.
  - unfold stored. rewrite Hfind2.
    pose proof (findChapter_shape _ _ n Hshape) as Hentry.
    rewrite Hnone in Hentry.
    now destruct (App.findChapter (BookProject.chapters q2) n).
Qed.

Lemma added_chapter_is_never_stored_witness :
  let cs := [Sample.done 1 "one"] in
  let h := Sample.host (fun _ => Resolved (Some "text"%string)) in
  exists w1 evs w2,
    ProjectEditorHandlers.handleUpdateOutline 5000 (Sample.project cs [1])
      (OutlineBuilder.addChapter (Sample.outline [1])) (Sample.world cs [1])
    = (Returned tt, w1)
    /\ App.startBookGeneration h "p1" standard w1 = (Returned tt, w2)
    /\ trace w2 = trace w1 ++ evs
    /\ (In 2 (generated evs) \/ exists msg, alerts evs = [msg])
    /\ stored (projects w2) "p1" 2 = None.
Proof.
  intros cs h.
  destruct (added_chapter_is_never_stored h standard 5000
              (Sample.world cs [1]) (Sample.project cs [1])
              (Sample.outline [1]))
    as (w1 & q & Hedit & _ & _ & _ & _ & _ & _ & _ & evs & w2 & Hrun
        & Htrace & Hasked & Hstored).
  - reflexivity.
  - reflexivity.
  - discriminate.
  - intros n. simpl. reflexivity.
  - reflexivity.
  - exists w1, evs, w2. repeat split; assumption.
Defined.

(** X18.  The auto-start effect fires once per outline.  A run on a project
    whose outline has at least one chapter always leaves the project with a
    non-empty chapter array, whatever the backend does, and with every
    other field but the modification time as the run found it; so after the
    run the auto-start effect does not fire for that project again, whatever
    the state of the editor.  On an outline without chapters a run on a
    project without chapters makes no request and stores no chapter, and
    the effect fires afterwards exactly when it fired before. *)
Theorem auto_start_fires_once (h : Host) (projectId : string)
    (style : WritingStyle) (w : World) (project : BookProject.t)
    (outline : BookOutline.t) :
  App.findProject (projects w) projectId = Some project ->
  BookProject.outline project = Some outline ->
  exists w' q,
    App.startBookGeneration h projectId style w = (Returned tt, w')
    /\ generatingProjectId w' = None
    /\ App.findProject (projects w') projectId = Some q
    /\ BookProject.frame q = BookProject.frame project
    /\ (BookOutline.chapters outline <> [] ->
        BookProject.chapters q <> []
        /\ forall processing generating error style',
             ProjectEditor.autoStartEffect q processing generating error
               style' = None)
    /\ (BookOutline.chapters outline = [] ->
        BookProject.chapters project = [] ->
        requests w' = requests w
        /\ BookProject.chapters q = []
        /\ forall processing generating error style',
             ProjectEditor.autoStartEffect q processing generating error
               style'
             = ProjectEditor.autoStartEffect project processing generating
                 error style').
Proof.
  intros Hfind Houtline.
  destruct (startBookGeneration_project h projectId style w project outline
              Hfind Houtline)
    as (evs & w' & q & Hrun & Htrace & Hidle & Hfind' & Hframe & Hshape & _).
  exists w', q. split; [exact Hrun|]. split; [exact Hidle|].
  split; [exact Hfind'|]. split; [exact Hframe|].
  assert (Hsteps : BookProject.currentStep q = BookProject.currentStep project
                   /\ BookProject.outline q = BookProject.outline project).
  { unfold BookProject.frame in Hframe. now inversion Hframe. }
  destruct Hsteps as [Hstep Hout].
  split.
  - intros Hchapters.
    assert (Hne : BookProject.chapters q <> []).
    { intros Hq. rewrite Hq in Hshape. unfold startingChapters in Hshape.
      destruct (BookProject.chapters project) as [|c cs];
        cbn [length Nat.ltb Nat.leb] in Hshape; [|discriminate].
      unfold App.initialChapters in Hshape.
      destruct (BookOutline.chapters outline); [contradiction|discriminate]. }
    split; [exact Hne|].
    intros processing generating error style'.
    unfold ProjectEditor.autoStartEffect.
    destruct (BookProject.chapters q); [contradiction|].
    cbn [length Nat.eqb]. now rewrite !andb_false_r.
  - intros Hnone Hempty.
    assert (Hq : BookProject.chapters q = []).
    { unfold startingChapters, App.initialChapters in Hshape.
      rewrite Hempty, Hnone in Hshape. cbn in Hshape.
      now destruct (BookProject.chapters q). }
    split; [|split; [exact Hq|]].
    + destruct (startBookGeneration_run h projectId style w project outline
                  Hfind Houtline) as (loopEvs & st' & Hloop & Hrun').
      rewrite Hrun in Hrun'. injection Hrun' as ->. cbn [requests].
      rewrite Hnone in Hloop. inversion Hloop; subst. cbn. lia.
    + intros processing generating error style'.
      unfold ProjectEditor.autoStartEffect.
      now rewrite Hstep, Hout, Hq, Hempty.
Qed.

Lemma auto_start_fires_once_witness :
  let h := Sample.host (fun _ => Rejected Sample.forbidden) in
  exists w' q,
    App.startBookGeneration h "p1" standard (Sample.world [] [1; 2])
    = (Returned tt, w')
    /\ App.findProject (projects w') "p1" = Some q
    /\ ProjectEditor.autoStartEffect q false false None standard = None.
Proof.
  intros h.
  destruct (auto_start_fires_once h "p1" standard (Sample.world [] [1; 2])
              (Sample.project [] [1; 2]) (Sample.outline [1; 2])
              eq_refl eq_refl)
    as (w' & q & Hrun & _ & Hfind & _ & Hquiet & _).
  exists w', q. split; [exact Hrun|]. split; [exact Hfind|].
  apply Hquiet. discriminate.
Defined.


(* ================================================================== *)
(** * Properties of the notes and of the reader *)

Lemma includes_marker (name : string) :
  includes (name ++ " (Edited)") "(Edited)" = true.
Proof.
  induction name as [|c name IH]; [reflexivity|].
  cbn [String.append includes]. rewrite IH. apply orb_true_r.
Qed.

Lemma editedName_marked (name : string) :
  includes (SourceInput.editedName name) "(Edited)" = true.
Proof.
  unfold SourceInput.editedName.
  destruct (includes name "(Edited)") eqn:E; [exact E|apply includes_marker].
Qed.

Lemma editedName_idempotent (name : string) :
  SourceInput.editedName (SourceInput.editedName name)
  = SourceInput.editedName name.
Proof.
  unfold SourceInput.editedName at 1. now rewrite editedName_marked.
Qed.

(** X19.  Saving a note.  With a blank text [handleSaveNote] hands nothing
    to [onUpdate] and changes nothing.  Saving the edit of a source keeps
    the sources in place with their ids, types, media types and processing
    flags; sources with another id are untouched; the edited source gets the
    text as its transcription when it is a recording, whose audio is kept,
    and as its content otherwise, and its name carries the "(Edited)" marker
    afterwards.  The marker is added once: a second edit replaces the first
    altogether.  Saving a new note appends it, and removing it again by its
    id gives back the list when the id was fresh; [removeSource] drops
    every source with the id and only those. *)
Theorem saving_a_note (newId today : string) (sources : list Source.t)
    (local : SourceInput.Local) :
  SourceInput.handleSaveNote true newId today sources local = (None, local)
  /\ (forall id,
        SourceInput.editingSourceId local = Some id -> id <> ""%string ->
        let text := SourceInput.noteText local in
        exists after,
          SourceInput.handleSaveNote false newId today sources local
          = (Some after, SourceInput.mkLocal "" None false)
          /\ map (fun s => (Source.id s, Source.type s, Source.mimeType s,
                            Source.isProcessing s)) after
             = map (fun s => (Source.id s, Source.type s, Source.mimeType s,
                              Source.isProcessing s)) sources
          /\ Forall2
               (fun s s' =>
                  (Source.id s <> id -> s' = s)
                  /\ (Source.id s = id ->
                      includes (Source.name s') "(Edited)" = true
                      /\ (includes (Source.name s) "(Edited)" = true ->
                          Source.name s' = Source.name s)
                      /\ (Source.type s = AUDIO ->
                          Source.content s' = Source.content s
                          /\ Source.transcription s' = Some text)
                      /\ (Source.type s <> AUDIO ->
                          Source.content s' = text
                          /\ Source.transcription s'
                             = Source.transcription s)))
               sources after
          /\ forall text',
               map (SourceInput.saveEdit id text') after
               = map (SourceInput.saveEdit id text') sources)
  /\ (SourceInput.editingSourceId local = None ->
      let note := SourceInput.newNote newId today (SourceInput.noteText local) in
      SourceInput.handleSaveNote false newId today sources local
      = (Some (sources ++ [note]), SourceInput.mkLocal "" None false)
      /\ ((forall s, In s sources -> Source.id s <> newId) ->
          SourceInput.removeSource newId (sources ++ [note]) = sources))
  /\ (forall id s,
        In s (SourceInput.removeSource id sources)
        <-> In s sources /\ Source.id s <> id).
Proof.
  split; [reflexivity|]. split; [|split].
  - intros id Hid Hne text.
    unfold SourceInput.handleSaveNote. rewrite Hid.
    destruct id as [|c id]; [congruence|]. cbn [truthy].
    eexists. split; [reflexivity|]. fold text.
    set (id' := String c id).
    split; [|split].
    + rewrite map_map. apply map_ext. intros s. unfold SourceInput.saveEdit.
      destruct (String.eqb (Source.id s) id'); cbn [negb]; [|reflexivity].
      now destruct (Source.type s).
    + apply Forall2_map_r. intros s. unfold SourceInput.saveEdit.
      destruct (String.eqb_spec (Source.id s) id') as [Hs|Hs]; cbn [negb].
      * split; [congruence|]. intros _.
        assert (Hkept : includes (Source.name s) "(Edited)" = true ->
                        SourceInput.editedName (Source.name s)
                        = Source.name s).
        { intros H. unfold SourceInput.editedName. now rewrite H. }
        destruct (Source.type s) eqn:Htype; cbn;
          (split; [apply editedName_marked|]);
          (split; [exact Hkept|]); split; intros H; try congruence; auto.
      * split; [reflexivity|congruence].
    + intros text'. rewrite map_map. apply map_ext. intros s.
      unfold SourceInput.saveEdit.
      destruct (String.eqb (Source.id s) id') eqn:Hs; cbn [negb].
      * destruct (Source.type s) eqn:Htype; cbn; rewrite Hs; cbn;
          now rewrite editedName_idempotent.
      * now rewrite Hs.
  - intros Hnone. cbv zeta. unfold SourceInput.handleSaveNote.
    rewrite Hnone. split; [reflexivity|].
    intros Hfresh. unfold SourceInput.removeSource.
    rewrite filter_app. cbn. rewrite String.eqb_refl. cbn.
    rewrite app_nil_r. induction sources as [|s ss IH]; [reflexivity|].
    cbn. destruct (String.eqb_spec (Source.id s) newId) as [Hs|Hs].
    + exfalso. apply (Hfresh s); [now left|exact Hs].
    + cbn. f_equal. apply IH. intros s' Hs'. apply Hfresh. now right.
  - intros id s. unfold SourceInput.removeSource. rewrite filter_In.
    destruct (String.eqb_spec (Source.id s) id); cbn; intuition congruence.
Qed.

(** Editing a recording twice: one marker, the audio kept. *)
Example saving_a_note_runs :
  let recording :=
    Source.mk "s1" AUDIO "UklGRg==" (Some "audio/webm"%string) "Recording"
              (Some "helo"%string) false in
  let first :=
    SourceInput.handleSaveNote false "s2" "1/2/2026" [recording]
      (SourceInput.mkLocal "hello" (Some "s1"%string) true) in
  first
  = (Some [Source.mk "s1" AUDIO "UklGRg==" (Some "audio/webm"%string)
             "Recording (Edited)" (Some "hello"%string) false],
     SourceInput.mkLocal "" None false)
  /\ option_map (map Source.name)
       (fst (SourceInput.handleSaveNote false "s2" "1/2/2026"
               (match fst first with Some l => l | None => [] end)
               (SourceInput.mkLocal "hello!" (Some "s1"%string) true)))
     = Some ["Recording (Edited)"%string].
Proof. vm_compute. split; reflexivity. Qed.


Lemma findChapter_replaced (cs : list ChapterContent.t)
    (updatedChapter : ChapterContent.t) :
  In (ChapterContent.chapterNumber updatedChapter)
     (map ChapterContent.chapterNumber cs) ->
  App.findChapter
    (map (fun c =>
            if ChapterContent.chapterNumber c
               =? ChapterContent.chapterNumber updatedChapter
            then updatedChapter else c) cs)
    (ChapterContent.chapterNumber updatedChapter)
  = Some updatedChapter.
Proof.
  unfold App.findChapter. induction cs as [|c cs IH]; cbn; [easy|].
  destruct (Z.eqb_spec (ChapterContent.chapterNumber c)
              (ChapterContent.chapterNumber updatedChapter)) as [Hc|Hc].
  - now rewrite Z.eqb_refl.
  - destruct (Z.eqb_spec (ChapterContent.chapterNumber c)
                (ChapterContent.chapterNumber updatedChapter)); [easy|].
    intros [H|H]; [congruence|auto].
Qed.

(** X20.  Saving a manual edit.  [saveEditing] hands the current chapter,
    with the edit buffer as its content, to the editor, which writes the
    project back with every chapter of that number replaced by it.  The
    project keeps all its other fields but the modification time, and the
    chapter numbers stay as they are, in order.  When the chapter numbers
    are distinct, exactly the current chapter changes, and only in its
    content; saving an unchanged buffer then changes no chapter.  The stored
    result for that number passes the resumption test of the generator
    exactly when the saved text is non-empty and the chapter was not flagged
    as generating.  Without a current chapter nothing is handed over. *)
Theorem manual_edit_changes_one_chapter (now : Z) (project : BookProject.t)
    (local : BookReader.Local) (w : World) :
  let chapters := BookProject.chapters project in
  (BookReader.currentChapter chapters local = None ->
   BookReader.saveEditing chapters local = (None, local))
  /\ forall c,
       BookReader.currentChapter chapters local = Some c ->
       App.findProject (projects w) (BookProject.id project) <> None ->
       let updatedChapter :=
         ChapterContent.mk (ChapterContent.chapterNumber c)
           (ChapterContent.title c) (BookReader.editContent local)
           (ChapterContent.isGenerating c) in
       exists local' w' q,
         BookReader.saveEditing chapters local = (Some updatedChapter, local')
         /\ BookReader.isEditing local' = false
         /\ ProjectEditorHandlers.onChapterUpdate now project updatedChapter w
            = (Returned tt, w')
         /\ App.findProject (projects w') (BookProject.id project) = Some q
         /\ BookProject.frame q = BookProject.frame project
         /\ map ChapterContent.chapterNumber (BookProject.chapters q)
            = map ChapterContent.chapterNumber chapters
         /\ (forall k c',
               nth_error chapters k = Some c' ->
               nth_error (BookProject.chapters q) k
               = Some (if ChapterContent.chapterNumber c'
                          =? ChapterContent.chapterNumber c
                       then updatedChapter else c'))
         /\ App.alreadyDone
              (stored (projects w') (BookProject.id project)
                 (ChapterContent.chapterNumber c))
            = truthy (BookReader.editContent local)
              && negb (ChapterContent.isGenerating c)
         /\ (NoDup (map ChapterContent.chapterNumber chapters) ->
             (forall k,
                nth_error (BookProject.chapters q) k
                = if (k =? Z.to_nat (BookReader.currentChapterIndex local))%nat
                  then Some updatedChapter
                  else nth_error chapters k)
             /\ (BookReader.editContent local = ChapterContent.content c ->
                 BookProject.chapters q = chapters)).
Proof.
  cbv zeta. split.
  { intros Hnone. unfold BookReader.saveEditing. now rewrite Hnone. }
  intros c Hcurrent Hfound.
  set (updatedChapter := ChapterContent.mk _ _ _ _).
  unfold BookReader.saveEditing. rewrite Hcurrent. fold updatedChapter.
  unfold ProjectEditorHandlers.onChapterUpdate. rewrite updateProject_run.
  set (f := fun c0 : ChapterContent.t =>
              if ChapterContent.chapterNumber c0
                 =? ChapterContent.chapterNumber updatedChapter
              then updatedChapter else c0).
  set (q := ProjectEditorHandlers.spread project _ now).
  assert (Hchapters : BookProject.chapters q
                      = map f (BookProject.chapters project)) by reflexivity.
  assert (Hfind : App.findProject
                    (projects (replay w [EvSetProjects (UpdReplaceProject q)]))
                    (BookProject.id project) = Some q).
  { cbn [replay projects updates flat_map app fold_left].
    change (BookProject.id project) with (BookProject.id q).
    now apply findProject_replaced. }
  assert (Hnth : nth_error (BookProject.chapters project)
                   (Z.to_nat (BookReader.currentChapterIndex local)) = Some c).
  { unfold BookReader.currentChapter in Hcurrent.
    now destruct (BookReader.currentChapterIndex local <? 0). }
  assert (Hgeneral : forall k c',
             nth_error (BookProject.chapters project) k = Some c' ->
             nth_error (BookProject.chapters q) k
             = Some (if ChapterContent.chapterNumber c'
                        =? ChapterContent.chapterNumber c
                     then updatedChapter else c')).
  { intros k c' Hk. rewrite Hchapters, nth_error_map, Hk. reflexivity. }
  eexists _, _, q. split; [reflexivity|]. split; [reflexivity|].
  split; [reflexivity|]. split; [exact Hfind|]. split; [reflexivity|].
  split; [|split; [exact Hgeneral|split]].
  - rewrite Hchapters, map_map. apply map_ext. intros c'. unfold f.
    now destruct (Z.eqb_spec (ChapterContent.chapterNumber c')
                    (ChapterContent.chapterNumber updatedChapter)).
  - unfold stored. rewrite Hfind, Hchapters.
    change (ChapterContent.chapterNumber c)
      with (ChapterContent.chapterNumber updatedChapter).
    unfold f. rewrite findChapter_replaced; [reflexivity|].
    change (ChapterContent.chapterNumber updatedChapter)
      with (ChapterContent.chapterNumber c).
    apply in_map, (nth_error_In _ _ Hnth).
  - intros Hdistinct.
    assert (Hone : forall k,
               nth_error (BookProject.chapters q) k
               = if (k =? Z.to_nat (BookReader.currentChapterIndex local))%nat
                 then Some updatedChapter
                 else nth_error (BookProject.chapters project) k).
    { intros k.
      destruct (Nat.eqb_spec k
                  (Z.to_nat (BookReader.currentChapterIndex local)))
        as [->|Hk].
      - rewrite (Hgeneral _ _ Hnth). now rewrite Z.eqb_refl.
      - destruct (nth_error (BookProject.chapters project) k) as [c'|] eqn:Hc'.
        + rewrite (Hgeneral _ _ Hc').
          destruct (Z.eqb_spec (ChapterContent.chapterNumber c')
                      (ChapterContent.chapterNumber c)) as [Hsame|Hother];
            [|reflexivity].
          exfalso. apply Hk.
          apply (proj1 (NoDup_nth_error _) Hdistinct).
          * rewrite length_map. apply nth_error_Some. congruence.
          * rewrite !nth_error_map, Hc', Hnth. cbn. congruence.
        + rewrite Hchapters, nth_error_map, Hc'. reflexivity. }
    split; [exact Hone|].
    intros Hsame. apply nth_error_ext. intros k. rewrite Hone.
    destruct (Nat.eqb_spec k
                (Z.to_nat (BookReader.currentChapterIndex local)))
      as [->|Hk]; [|reflexivity].
    rewrite Hnth. unfold updatedChapter. rewrite Hsame. now destruct c.
Qed.

(** Correcting a typo in the second of three chapters. *)
Example manual_edit_runs :
  let cs := [Sample.done 1 "one"; Sample.done 2 "tow"; Sample.done 3 "three"] in
  let local := BookReader.mkLocal 1 true "two" "" in
  match BookReader.saveEditing cs local with
  | (Some updatedChapter, _) =>
      option_map BookProject.chapters
        (App.findProject
           (projects
              (snd (ProjectEditorHandlers.onChapterUpdate 5000
                      (Sample.project cs [1; 2; 3]) updatedChapter
                      (Sample.world cs [1; 2; 3])))) "p1")
      = Some [Sample.done 1 "one"; Sample.done 2 "two"; Sample.done 3 "three"]
  | _ => False
  end.
Proof. vm_compute. reflexivity. Qed.

(** X21.  The reader's selection.  On a non-empty chapter array the
    "Previous" and "Next" buttons keep the index of the current chapter
    inside the array, moving it by one and stopping at the ends, so there
    is always a current chapter.  Neither they nor the chapter list leave
    the edit mode or touch the edit buffer: an edit started on one chapter
    and saved after another was selected writes the text of the first into
    the second.  On an empty array "Next" moves the index to -1, where
    there is no current chapter and editing does nothing. *)
Theorem reader_selection (chapters : list ChapterContent.t)
    (local : BookReader.Local) :
  let index := BookReader.currentChapterIndex in
  let len := Z.of_nat (length chapters) in
  (0 <= index local < len ->
   index (BookReader.previous local) = (if index local =? 0 then 0
                                        else index local - 1)
   /\ index (BookReader.next chapters local)
      = (if index local =? len - 1 then len - 1 else index local + 1)
   /\ 0 <= index (BookReader.previous local) < len
   /\ 0 <= index (BookReader.next chapters local) < len
   /\ BookReader.currentChapter chapters local <> None
   /\ BookReader.currentChapter chapters (BookReader.previous local) <> None
   /\ BookReader.currentChapter chapters (BookReader.next chapters local)
      <> None)
  /\ (forall idx a b,
        BookReader.currentChapter chapters local = Some a ->
        nth_error chapters idx = Some b ->
        let moved :=
          BookReader.handleChapterSelect (Z.of_nat idx)
            (BookReader.startEditing chapters local) in
        BookReader.isEditing moved = true
        /\ fst (BookReader.saveEditing chapters moved)
           = Some (ChapterContent.mk (ChapterContent.chapterNumber b)
                     (ChapterContent.title b) (ChapterContent.content a)
                     (ChapterContent.isGenerating b)))
  /\ (chapters = [] -> index local = 0 ->
      index (BookReader.next chapters local) = -1
      /\ BookReader.startEditing chapters (BookReader.next chapters local)
         = BookReader.next chapters local
      /\ fst (BookReader.saveEditing chapters
                (BookReader.next chapters local)) = None).
Proof.
  cbv zeta.
  assert (Hcurrent : forall l,
             0 <= BookReader.currentChapterIndex l
                < Z.of_nat (length chapters) ->
             BookReader.currentChapter chapters l <> None).
  { intros l Hl. unfold BookReader.currentChapter.
    destruct (Z.ltb_spec (BookReader.currentChapterIndex l) 0); [lia|].
    apply nth_error_Some. lia. }
  split; [|split].
  - intros Hrange.
    assert (Hprev : BookReader.currentChapterIndex (BookReader.previous local)
                    = if BookReader.currentChapterIndex local =? 0 then 0
                      else BookReader.currentChapterIndex local - 1).
    { cbn. destruct (Z.eqb_spec (BookReader.currentChapterIndex local) 0);
        lia. }
    assert (Hnext : BookReader.currentChapterIndex
                      (BookReader.next chapters local)
                    = if BookReader.currentChapterIndex local
                         =? Z.of_nat (length chapters) - 1
                      then Z.of_nat (length chapters) - 1
                      else BookReader.currentChapterIndex local + 1).
    { cbn. destruct (Z.eqb_spec (BookReader.currentChapterIndex local)
                       (Z.of_nat (length chapters) - 1)); lia. }
    assert (Hp : 0 <= BookReader.currentChapterIndex
                        (BookReader.previous local)
                 < Z.of_nat (length chapters)).
    { rewrite Hprev.
      destruct (Z.eqb_spec (BookReader.currentChapterIndex local) 0); lia. }
    assert (Hn : 0 <= BookReader.currentChapterIndex
                        (BookReader.next chapters local)
                 < Z.of_nat (length chapters)).
    { rewrite Hnext.
      destruct (Z.eqb_spec (BookReader.currentChapterIndex local)
                  (Z.of_nat (length chapters) - 1)); lia. }
    repeat split; try tauto; try lia; auto.
  - intros idx a b Ha Hb.
    unfold BookReader.startEditing. rewrite Ha.
    unfold BookReader.handleChapterSelect, BookReader.saveEditing,
      BookReader.currentChapter.
    cbn [BookReader.currentChapterIndex BookReader.isEditing
         BookReader.editContent BookReader.polishInstruction].
    destruct (Z.ltb_spec (Z.of_nat idx) 0); [lia|].
    rewrite Nat2Z.id, Hb. split; reflexivity.
  - intros -> Hzero. unfold BookReader.next, BookReader.startEditing,
      BookReader.saveEditing, BookReader.currentChapter.
    cbn [BookReader.currentChapterIndex length Z.of_nat].
    rewrite Hzero. cbn. repeat split; reflexivity.
Qed.

(** Three chapters: "Next" stops at the last, "Previous" at the first. *)
Example reader_selection_runs :
  let cs := [Sample.done 1 "one"; Sample.done 2 "two"; Sample.done 3 "three"] in
  let at_ k := BookReader.mkLocal k false "" "" in
  map (fun k => BookReader.currentChapterIndex (BookReader.next cs (at_ k)))
      [0; 1; 2] = [1; 2; 2]
  /\ map (fun k => BookReader.currentChapterIndex (BookReader.previous (at_ k)))
         [0; 1; 2] = [0; 0; 1]
  /\ fst (BookReader.saveEditing cs
            (BookReader.handleChapterSelect 2
               (BookReader.startEditing cs (at_ 0))))
     = Some (Sample.done 3 "one").
Proof. vm_compute. repeat split; reflexivity. Qed.


(* ================================================================== *)
(** * Properties of the source material of a request *)

Lemma append_assoc (a b c : string) :
  ((a ++ b) ++ c = a ++ (b ++ c))%string.
Proof. induction a as [|x a IH]; cbn; [reflexivity|now rewrite IH]. Qed.

Lemma units_highSurrogate (c : ascii) (rest : string) :
  Prompt.units (Prompt.highSurrogate c rest) = 1%nat.
Proof.
  assert (Hcont : forall x,
             Prompt.isContinuation (ascii_of_N (128 + x mod 64)) = true).
  { intros x. unfold Prompt.isContinuation.
    pose proof (N.mod_lt x 64 ltac:(discriminate)) as Hlt.
    rewrite N_ascii_embedding by lia.
    apply andb_true_iff.
    split; [apply N.leb_le, N.le_add_r|apply N.ltb_lt; lia]. }
  unfold Prompt.highSurrogate. cbv zeta. cbn [Prompt.units].
  unfold Prompt.unitsOf at 2 3. rewrite !Hcont. reflexivity.
Qed.

Lemma units_sliceTo (n : nat) (s : string) :
  Prompt.units (Prompt.sliceTo n s) = Nat.min n (Prompt.units s).
Proof.
  revert n. induction s as [|c rest IH]; intros n;
    cbn [Prompt.sliceTo Prompt.units].
  - now rewrite Nat.min_0_r.
  - unfold Prompt.unitsOf. destruct (Prompt.isContinuation c) eqn:Hc.
    + cbn [Prompt.units]. unfold Prompt.unitsOf. rewrite Hc. apply IH.
    + destruct n as [|n']; [reflexivity|].
      destruct (Prompt.isAstral c) eqn:Ha.
      * destruct n' as [|n''].
        -- rewrite units_highSurrogate. reflexivity.
        -- cbn [Prompt.units]. unfold Prompt.unitsOf.
           rewrite Hc, Ha, IH. reflexivity.
      * cbn [Prompt.units]. unfold Prompt.unitsOf.
        rewrite Hc, Ha, IH. reflexivity.
Qed.

Lemma sliceTo_all (n : nat) (s : string) :
  (Prompt.units s <= n)%nat -> Prompt.sliceTo n s = s.
Proof.
  revert n. induction s as [|c rest IH]; intros n;
    cbn [Prompt.sliceTo Prompt.units]; [reflexivity|].
  unfold Prompt.unitsOf. destruct (Prompt.isContinuation c) eqn:Hc.
  - intros H. f_equal. apply IH. exact H.
  - destruct (Prompt.isAstral c) eqn:Ha; intros H.
    + destruct n as [|[|n'']]; [lia|lia|]. f_equal. apply IH. lia.
    + destruct n as [|n']; [lia|]. f_equal. apply IH. lia.
Qed.

(** Where [sliceTo] cuts. *)
Lemma sliceTo_cut (n : nat) (s : string) :
  exists kept dropped,
    s = (kept ++ dropped)%string
    /\ (forall c rest,
          dropped = String c rest -> Prompt.isContinuation c = false)
    /\ (Prompt.sliceTo n s = kept
        \/ exists c rest,
             dropped = String c rest
             /\ Prompt.isAstral c = true
             /\ S (Prompt.units kept) = n
             /\ Prompt.sliceTo n s
                = (kept ++ Prompt.highSurrogate c rest)%string).
Proof.
  revert n. induction s as [|c rest IH]; intros n; cbn [Prompt.sliceTo].
  - exists EmptyString, EmptyString. split; [reflexivity|].
    split; [discriminate|now left].
  - assert (Hstep : forall k,
               (forall kept, Prompt.units (String c kept)
                             = (k + Prompt.units kept)%nat) ->
               forall m,
               exists kept dropped,
                 String c rest = (kept ++ dropped)%string
                 /\ (forall c0 rest0,
                       dropped = String c0 rest0 ->
                       Prompt.isContinuation c0 = false)
                 /\ (String c (Prompt.sliceTo m rest) = kept
                     \/ exists c0 rest0,
                          dropped = String c0 rest0
                          /\ Prompt.isAstral c0 = true
                          /\ S (Prompt.units kept) = (k + m)%nat
                          /\ String c (Prompt.sliceTo m rest)
                             = (kept ++ Prompt.highSurrogate c0 rest0)%string)).
    { intros k Hk m.
      destruct (IH m) as (kept & dropped & Hs & Hb & Hcut).
      exists (String c kept), dropped.
      split; [cbn; now rewrite <- Hs|]. split; [exact Hb|].
      destruct Hcut as [->|(c0 & rest0 & Hd & Ha & Hu & Hcut)];
        [now left|right].
      exists c0, rest0. split; [exact Hd|]. split; [exact Ha|].
      split; [rewrite Hk; lia|]. cbn. now rewrite Hcut. }
    destruct (Prompt.isContinuation c) eqn:Hc.
    + apply (Hstep 0%nat).
      intros kept. cbn [Prompt.units]. unfold Prompt.unitsOf.
      now rewrite Hc.
    + destruct n as [|n'].
      { exists EmptyString, (String c rest). split; [reflexivity|].
        split; [now intros c0 rest0 [= <- _]|now left]. }
      destruct (Prompt.isAstral c) eqn:Ha.
      * destruct n' as [|n''].
        -- exists EmptyString, (String c rest). split; [reflexivity|].
           split; [now intros c0 rest0 [= <- _]|right].
           exists c, rest. repeat split; assumption || reflexivity.
        -- apply (Hstep 2%nat).
           intros kept. cbn [Prompt.units]. unfold Prompt.unitsOf.
           now rewrite Hc, Ha.
      * apply (Hstep 1%nat).
        intros kept. cbn [Prompt.units]. unfold Prompt.unitsOf.
        now rewrite Hc, Ha.
Qed.

(** X22.  What the sources bring to the requests.  The outline request and
    the chapter requests take their material from the same sources: a
    recording without a transcript brings nothing to either, every other
    source brings one text part, and an image also brings its data, whole,
    with its media type or "image/jpeg" when it has none.  Notes and
    transcripts come under the heading "--- Source: <name> (Notes) ---" or
    "(Transcript)" in the outline request, whole, and after the label
    "[Source: <name>]: " in a chapter request, cut by [slice(0, 5000)].
    The cut counts UTF-16 code units: the excerpt has the 5000 first units
    of the material, or all of them when there are fewer, in which case it
    is the material itself; it is the longest beginning of the material
    that ends between two characters and has at most 5000 units, followed,
    when the next character is a surrogate pair and 4999 units were kept,
    by the first half of that pair.  What lies beyond is seen when the
    outline is made and never when a chapter is written. *)
Theorem source_material_in_requests (sources : list Source.t) :
  Prompt.inline (Prompt.chapterSources sources)
  = Prompt.inline (Prompt.outlineSources sources)
  /\ Prompt.inline (Prompt.chapterSources sources)
     = flat_map (fun s => match Source.type s with
                          | IMAGE => [(Source.content s,
                                       orElse (Source.mimeType s) "image/jpeg")]
                          | _ => []
                          end) sources
  /\ length (Prompt.texts (Prompt.chapterSources sources))
     = length (Prompt.texts (Prompt.outlineSources sources))
  /\ Forall
       (fun s =>
          (Prompt.chapterSource s = [] <-> Prompt.outlineSource s = [])
          /\ (Prompt.chapterSource s = []
              <-> Source.type s = AUDIO
                  /\ orElse (Source.transcription s) "" = ""%string)
          /\ forall material,
               Prompt.material s = Some material ->
               let kind :=
                 match Source.type s with
                 | TEXT => " (Notes) ---"%string
                 | _ => " (Transcript) ---"%string
                 end in
               let excerpt := Prompt.slice material in
               Prompt.outlineSource s
               = [Prompt.Text (Prompt.newline ++ Prompt.newline
                               ++ "--- Source: " ++ Source.name s ++ kind
                               ++ Prompt.newline ++ material)]
               /\ Prompt.chapterSource s
                  = [Prompt.Text (Prompt.newline ++ "[Source: "
                                  ++ Source.name s ++ "]: " ++ excerpt)]
               /\ Prompt.units excerpt
                  = Nat.min 5000 (Prompt.units material)
               /\ ((Prompt.units material <= 5000)%nat ->
                   excerpt = material)
               /\ exists kept dropped,
                    material = (kept ++ dropped)%string
                    /\ (forall c rest,
                          dropped = String c rest ->
                          Prompt.isContinuation c = false)
                    /\ (excerpt = kept
                        \/ exists c rest,
                             dropped = String c rest
                             /\ Prompt.isAstral c = true
                             /\ Prompt.units kept = 4999%nat
                             /\ excerpt
                                = (kept ++ Prompt.highSurrogate c rest)%string))
       sources.
Proof.
  assert (Hinline : forall s,
             Prompt.inline (Prompt.chapterSource s)
             = match Source.type s with
               | IMAGE => [(Source.content s,
                            orElse (Source.mimeType s) "image/jpeg")]
               | _ => []
               end
             /\ Prompt.inline (Prompt.outlineSource s)
                = Prompt.inline (Prompt.chapterSource s)
             /\ length (Prompt.texts (Prompt.chapterSource s))
                = length (Prompt.texts (Prompt.outlineSource s))).
  { intros s. unfold Prompt.chapterSource, Prompt.outlineSource.
    destruct (Source.type s); [|now cbn|now cbn].
    destruct (Source.transcription s) as [[|c t]|]; now cbn. }
  assert (Hiapp : forall a b,
             Prompt.inline (a ++ b) = Prompt.inline a ++ Prompt.inline b)
    by (intros; apply flat_map_app).
  assert (Htapp : forall a b,
             Prompt.texts (a ++ b) = Prompt.texts a ++ Prompt.texts b)
    by (intros; apply flat_map_app).
  assert (Hexcerpt : forall material,
             Prompt.units (Prompt.slice material)
             = Nat.min 5000 (Prompt.units material)
             /\ ((Prompt.units material <= 5000)%nat ->
                 Prompt.slice material = material)
             /\ exists kept dropped,
                  material = (kept ++ dropped)%string
                  /\ (forall c rest,
                        dropped = String c rest ->
                        Prompt.isContinuation c = false)
                  /\ (Prompt.slice material = kept
                      \/ exists c rest,
                           dropped = String c rest
                           /\ Prompt.isAstral c = true
                           /\ Prompt.units kept = 4999%nat
                           /\ Prompt.slice material
                              = (kept ++ Prompt.highSurrogate c rest)%string)).
  { intros material. unfold Prompt.slice.
    split; [apply units_sliceTo|]. split; [apply sliceTo_all|].
    destruct (sliceTo_cut 5000 material)
      as (kept & dropped & Hs & Hb & Hcut).
    exists kept, dropped. split; [exact Hs|]. split; [exact Hb|].
    destruct Hcut as [Hcut|(c & rest & Hd & Ha & Hu & Hcut)];
      [now left|right].
    exists c, rest. repeat split; try assumption.
    injection Hu as Hu. exact Hu. }
  unfold Prompt.chapterSources, Prompt.outlineSources.
  split; [|split; [|split]].
  - induction sources as [|s ss IH]; [reflexivity|]. cbn [flat_map].
    rewrite !Hiapp, IH. f_equal.
    now destruct (Hinline s) as (_ & -> & _).
  - induction sources as [|s ss IH]; [reflexivity|]. cbn [flat_map].
    rewrite Hiapp, IH. f_equal.
    destruct (Hinline s) as (H & _). exact H.
  - induction sources as [|s ss IH]; [reflexivity|]. cbn [flat_map].
    rewrite !Htapp, !length_app, IH. f_equal.
    now destruct (Hinline s) as (_ & _ & H).
  - apply Forall_forall. intros s _.
    unfold Prompt.chapterSource, Prompt.outlineSource, Prompt.material.
    destruct (Source.type s) eqn:Htype.
    + destruct (Source.transcription s) as [[|c t]|] eqn:Ht;
        cbn [truthy orElse].
      * repeat split; auto; try discriminate.
      * split; [split; discriminate|].
        split; [split; [discriminate|intros [_ H]; discriminate]|].
        intros material [= <-]. cbv zeta.
        split; [reflexivity|]. split; [reflexivity|]. apply Hexcerpt.
      * repeat split; auto; try discriminate.
    + split; [split; discriminate|].
      split; [split; [discriminate|intros [H _]; discriminate]|].
      intros material [= <-]. cbv zeta.
      split; [reflexivity|]. split; [reflexivity|]. apply Hexcerpt.
    + split; [split; discriminate|].
      split; [split; [discriminate|intros [H _]; discriminate]|].
      discriminate.
Qed.

(** The cut counts UTF-16 code units, not bytes: three euro signs, of three
    bytes each, cut at two units are two euro signs; a character beyond
    U+FFFF is two units, and a cut through it leaves its high surrogate;
    3000 euro signs are kept whole by [slice]. *)
Example slice_counts_units :
  let bytes :=
    fold_right (fun b s => String (ascii_of_nat b) s) EmptyString in
  let euro := bytes [226; 130; 172]%nat in
  let face := bytes [240; 159; 152; 128]%nat in
  Prompt.units euro = 1%nat
  /\ Prompt.units face = 2%nat
  /\ Prompt.sliceTo 2 (euro ++ euro ++ euro) = (euro ++ euro)%string
  /\ Prompt.sliceTo 2 ("a" ++ face ++ "b")
     = ("a" ++ bytes [237; 160; 189]%nat)%string
  /\ Prompt.sliceTo 3 ("a" ++ face ++ "b") = ("a" ++ face)%string
  /\ Prompt.sliceTo 4 "abcdef" = "abcd"%string
  /\ (let euros := Nat.iter 3000 (String.append euro) EmptyString in
      Prompt.units euros = 3000%nat /\ Prompt.slice euros = euros).
Proof. vm_compute. repeat split; reflexivity. Qed.

(** A note, a recording that was never transcribed and a picture. *)
Example source_material_runs :
  let sources :=
    [Source.mk "s1" TEXT "Once" None "Note" None false;
     Source.mk "s2" AUDIO "UklGRg==" (Some "audio/webm"%string) "Recording"
               None false;
     Source.mk "s3" IMAGE "iVBOR" None "Picture" None false] in
  Prompt.chapterSources sources
  = [Prompt.Text (Prompt.newline ++ "[Source: Note]: Once");
     Prompt.Text (Prompt.newline ++ "[Source: Picture (Image Reference)]");
     Prompt.InlineData "iVBOR" "image/jpeg"]
  /\ Prompt.outlineSources sources
     = [Prompt.Text (Prompt.newline ++ Prompt.newline
                     ++ "--- Source: Note (Notes) ---" ++ Prompt.newline
                     ++ "Once");
        Prompt.Text (Prompt.newline ++ Prompt.newline
                     ++ "--- Source: Picture (Visual Reference) ---");
        Prompt.InlineData "iVBOR" "image/jpeg"].
Proof. vm_compute. split; reflexivity. Qed.

(* ================================================================== *)
(** * Properties of the pipeline on rejections of any kind *)

(** X24.  What the pipeline does with a rejection whose [message] is not a
    string (and has no [includes]).  When its status is 401 or 403,
    [isFatalError] decides on the status, so that [writeChapter] rethrows
    the value after one request and no sleep; the [catch] block of the loop
    logs it and then throws a [TypeError] itself, at [e.message?.includes]:
    no alert is shown and nothing is written for the chapter, and the
    exception ends the loop.  With another status and a truthy message,
    [isFatalError] throws the [TypeError] inside [writeChapter], which gives
    the chapter up after one request; the loop records an ordinary failure
    and goes on.  [startBookGeneration] has no [finally]: when the loop
    throws, the run ends there with the same exception, and neither
    [setGeneratingProjectId(null)] nor [releaseWakeLock] is reached.  On
    [Error] objects, whose message is a string or missing, this pipeline is
    the one of the claims. *)
Theorem rejection_without_a_string_message (h : Host)
    (backend : nat -> Untyped.Settled) (project : BookProject.t)
    (outline : BookOutline.t) (projectId : string) (style : WritingStyle)
    (chapOutline : ChapterOutline.t) (rest : list ChapterOutline.t)
    (st : App.Locals) (w : World) (isTruthy : bool) (code : option Z) :
  let e := Untyped.mkCaught (Untyped.NotAString isTruthy) code in
  let n := ChapterOutline.chapterNumber chapOutline in
  let request :=
    [EvGenerateContent n;
     EvConsoleError (Gemini.attemptFailed 0 chapOutline)] in
  let caught := request ++ [EvConsoleError (App.errorGenerating n)] in
  backend (requests w) = Untyped.Rejected e ->
  App.alreadyDone
    (App.findChapter (App.currentChapters st) n) = false ->
  App.hasFatalError st = false ->
  (Untyped.statusIs e 403 || Untyped.statusIs e 401 = true ->
   let thrown := Untyped.ofError (Untyped.typeError "e.message?.includes") in
   Untyped.writeChapter backend chapOutline outline
     (BookProject.sources project) style w
   = (Untyped.Abrupt e, advance w 1 request)
   /\ Untyped.attemptChapter h backend project outline projectId style
        chapOutline st w
      = (Untyped.Abrupt thrown, advance w 1 caught)
   /\ Untyped.chapterLoop h backend project outline projectId style
        (chapOutline :: rest) st w
      = (Untyped.Abrupt thrown, advance w 1 caught))
  /\ (Untyped.statusIs e 403 || Untyped.statusIs e 401 = false ->
      isTruthy = true ->
      let failed := UpdChapterFailed projectId n false in
      Untyped.writeChapter backend chapOutline outline
        (BookProject.sources project) style w
      = (Untyped.Abrupt (Untyped.ofError (Untyped.typeError "msg.includes")),
         advance w 1 request)
      /\ Untyped.attemptChapter h backend project outline projectId style
           chapOutline st w
         = (Untyped.Normal st, replay w (caught ++ [EvSetProjects failed]))
      /\ Untyped.chapterLoop h backend project outline projectId style
           (chapOutline :: rest) st w
         = Untyped.chapterLoop h backend project outline projectId style
             rest st (replay w (caught ++ [EvSetProjects failed])))
  /\ (forall w0,
        App.findProject (projects w0) projectId = Some project ->
        BookProject.outline project = Some outline ->
        let currentChapters :=
          if (0 <? length (BookProject.chapters project))%nat
          then BookProject.chapters project
          else App.initialChapters outline in
        let started :=
          snd (bind (App.setGeneratingProjectId (Some projectId))
                 (fun _ => bind (App.requestWakeLock h)
                 (fun _ => App.handleUpdateProject
                             (BookProject.withChapters project
                                currentChapters))) w0) in
        Untyped.startBookGeneration h backend projectId style w0
        = match Untyped.chapterLoop h backend project outline projectId
                  style (BookOutline.chapters outline)
                  (App.mkLocals currentChapters false) started with
          | (Untyped.Normal _, w1) =>
              Untyped.lift (bind (App.setGeneratingProjectId None)
                              (fun _ => App.releaseWakeLock h)) w1
          | (Untyped.Abrupt thrown, w1) => (Untyped.Abrupt thrown, w1)
          | (Untyped.NoFuel, w1) => (Untyped.NoFuel, w1)
          end)
  /\ (forall projectId0 style0 w0,
        Untyped.startBookGeneration h (typedBackend h) projectId0 style0 w0
        = Untyped.lift (App.startBookGeneration h projectId0 style0) w0).
Proof.
  intros e n request caught Hbackend Hdone Hfatal.
  assert (Hrequest :
            Untyped.requestContent backend chapOutline w
            = (Untyped.Abrupt e, advance w 1 [EvGenerateContent n])).
  { unfold Untyped.requestContent, advance. rewrite Hbackend.
    now rewrite Nat.add_1_r. }
  assert (Hwrite : forall res,
            Untyped.isFatalError e
              (advance w 1 request)
            = (res, advance w 1 request) ->
            Untyped.writeChapter backend chapOutline outline
              (BookProject.sources project) style w
            = (match res with
               | Untyped.Normal true => Untyped.Abrupt e
               | Untyped.Normal false => Untyped.NoFuel
               | Untyped.Abrupt thrown => Untyped.Abrupt thrown
               | Untyped.NoFuel => Untyped.NoFuel
               end, advance w 1 request) \/ res = Untyped.Normal false).
  { intros res Hres.
    destruct res as [[|]|thrown|]; [| now right| |]; left;
      unfold Untyped.writeChapter, Gemini.maxAttempts;
      cbn [Untyped.retryLoop]; unfold Gemini.maxAttempts;
      cbn [Nat.ltb Nat.leb];
      unfold Untyped.tryCatch; unfold Untyped.bind at 1;
      rewrite Hrequest;
      unfold Untyped.bind at 1, Untyped.lift at 1, consoleError, emit;
      cbv beta iota; unfold Untyped.bind at 1;
      change (mkWorld (projects (advance w 1 [EvGenerateContent n]))
                (generatingProjectId (advance w 1 [EvGenerateContent n]))
                (wakeLockRef (advance w 1 [EvGenerateContent n]))
                (requests (advance w 1 [EvGenerateContent n]))
                (trace (advance w 1 [EvGenerateContent n])
                 ++ [EvConsoleError (Gemini.attemptFailed 0 chapOutline)]))
        with (mkWorld (projects w) (generatingProjectId w) (wakeLockRef w)
                (requests w + 1)
                ((trace w ++ [EvGenerateContent n])
                 ++ [EvConsoleError (Gemini.attemptFailed 0 chapOutline)]));
      rewrite <- app_assoc; cbn [app];
      fold request; fold (advance w 1 request);
      rewrite Hres; reflexivity. }
  assert (Hthrows : forall w1,
            Untyped.isFatal e w1
            = (Untyped.Abrupt
                 (Untyped.ofError (Untyped.typeError "e.message?.includes")),
               w1)) by reflexivity.
  assert (Hcaught : forall w1 thrown,
            Untyped.writeChapter backend chapOutline outline
              (BookProject.sources project) style w
            = (Untyped.Abrupt thrown, w1) ->
            Untyped.attemptChapter h backend project outline projectId style
              chapOutline st w
            = Untyped.bind (Untyped.isFatal thrown)
                (fun isFatal =>
                   Untyped.bind
                     (if isFatal
                      then Untyped.lift
                             (alert (Untyped.generationStopped thrown))
                      else Untyped.ret tt)
                     (fun _ =>
                        Untyped.bind
                          (Untyped.lift
                             (App.setProjects
                                (UpdChapterFailed projectId n isFatal)))
                          (fun _ =>
                             Untyped.ret
                               (App.mkLocals (App.currentChapters st)
                                  (if isFatal then true
                                   else App.hasFatalError st)))))
                (advance w1 0 [EvConsoleError (App.errorGenerating n)])).
  { intros w1 thrown Hw. unfold Untyped.attemptChapter. cbv zeta.
    unfold Untyped.tryCatch. unfold Untyped.bind at 1. rewrite Hw.
    unfold Untyped.bind at 1, Untyped.lift at 1, consoleError, emit, advance.
    cbv beta iota. now rewrite Nat.add_0_r. }
  assert (Hloop : forall res w1,
            Untyped.attemptChapter h backend project outline projectId style
              chapOutline st w = (res, w1) ->
            Untyped.chapterLoop h backend project outline projectId style
              (chapOutline :: rest) st w
            = match res with
              | Untyped.Normal st' =>
                  Untyped.chapterLoop h backend project outline projectId
                    style rest st' w1
              | Untyped.Abrupt thrown => (Untyped.Abrupt thrown, w1)
              | Untyped.NoFuel => (Untyped.NoFuel, w1)
              end).
  { intros res w1 Ha. cbn [Untyped.chapterLoop]. fold n.
    rewrite Hdone, Hfatal. unfold Untyped.bind. rewrite Ha.
    now destruct res. }
  split; [|split; [|split]].
  - intros Hstatus thrown.
    assert (Hf : Untyped.isFatalError e (advance w 1 request)
                 = (Untyped.Normal true, advance w 1 request)).
    { unfold Untyped.isFatalError. now rewrite Hstatus. }
    destruct (Hwrite _ Hf) as [Hw|]; [|discriminate].
    assert (Ha : Untyped.attemptChapter h backend project outline projectId
                   style chapOutline st w
                 = (Untyped.Abrupt thrown, advance w 1 caught)).
    { rewrite (Hcaught _ _ Hw). unfold Untyped.bind at 1. rewrite Hthrows.
      unfold advance, caught. cbn [trace requests projects
                                  generatingProjectId wakeLockRef].
      now rewrite Nat.add_0_r, <- app_assoc. }
    split; [exact Hw|]. split; [exact Ha|]. now rewrite (Hloop _ _ Ha).
  - intros Hstatus -> failed.
    assert (Hf : Untyped.isFatalError e (advance w 1 request)
                 = (Untyped.Abrupt
                      (Untyped.ofError (Untyped.typeError "msg.includes")),
                    advance w 1 request)).
    { unfold Untyped.isFatalError. now rewrite Hstatus. }
    destruct (Hwrite _ Hf) as [Hw|]; [|discriminate].
    assert (Ha : Untyped.attemptChapter h backend project outline projectId
                   style chapOutline st w
                 = (Untyped.Normal st,
                    replay w (caught ++ [EvSetProjects failed]))).
    { rewrite (Hcaught _ _ Hw). unfold Untyped.bind at 1.
      rewrite isFatal_ofError.
      change (App.isFatal (Untyped.typeError "msg.includes")) with false.
      cbv iota. unfold Untyped.bind, Untyped.ret, Untyped.lift,
        App.setProjects, advance, replay, caught, request.
      cbn. rewrite Hfatal, Nat.add_0_r, <- !app_assoc.
      f_equal. f_equal. clear - Hfatal. destruct st. cbn in *. congruence. }
    split; [exact Hw|]. split; [exact Ha|]. now rewrite (Hloop _ _ Ha).
  - intros w0 Hfind Houtline currentChapters started.
    unfold Untyped.startBookGeneration. rewrite Hfind, Houtline.
    fold currentChapters.
    unfold Untyped.bind at 1. unfold Untyped.lift at 1.
    unfold App.setGeneratingProjectId at 1. cbv beta iota.
    unfold Untyped.bind at 1. unfold Untyped.lift at 1.
    rewrite requestWakeLock_run. cbv beta iota.
    unfold Untyped.bind at 1. unfold Untyped.lift at 1.
    unfold App.handleUpdateProject at 1, App.setProjects at 1. cbv beta iota.
    assert (Hstarted :
              started
              = mkWorld
                  (App.applyUpdater
                     (UpdReplaceProject
                        (BookProject.withChapters project currentChapters))
                     (projects w0))
                  (Some projectId)
                  (held h (mkWorld (projects w0) (Some projectId)
                             (wakeLockRef w0) (requests w0)
                             (trace w0
                              ++ [EvSetGeneratingProjectId (Some projectId)])))
                  (requests w0)
                  ((trace w0 ++ [EvSetGeneratingProjectId (Some projectId)])
                   ++ acquireEvents h
                        (mkWorld (projects w0) (Some projectId)
                           (wakeLockRef w0) (requests w0)
                           (trace w0
                            ++ [EvSetGeneratingProjectId (Some projectId)]))
                   ++ [EvSetProjects
                         (UpdReplaceProject
                            (BookProject.withChapters project
                               currentChapters))])).
    { unfold started, bind, App.setGeneratingProjectId.
      rewrite requestWakeLock_run.
      unfold App.handleUpdateProject, App.setProjects.
      cbn [snd projects generatingProjectId wakeLockRef requests trace].
      now rewrite <- !app_assoc. }
    cbn [projects generatingProjectId wakeLockRef requests trace].
    rewrite <- !app_assoc in Hstarted. rewrite <- ?app_assoc.
    rewrite <- Hstarted.
    unfold Untyped.bind at 1.
    destruct (Untyped.chapterLoop h backend project outline projectId style
                (BookOutline.chapters outline)
                (App.mkLocals currentChapters false) started)
      as [[st'|thrown|] w1]; reflexivity.
  - intros projectId0 style0 w0. apply startBookGeneration_typed.
Qed.

Lemma rejection_without_a_string_message_witness :
  let h := Sample.host (fun _ => Resolved (Some "text"%string)) in
  let e := Untyped.mkCaught (Untyped.NotAString true) (Some 403) in
  let backend n :=
    match n with
    | 0%nat => Untyped.Rejected e
    | _ => Untyped.Resolved (Some "text"%string)
    end in
  let st := App.mkLocals [Sample.pending 1; Sample.pending 2] false in
  let w := Sample.world [Sample.pending 1; Sample.pending 2] [1; 2] in
  Untyped.writeChapter backend (Sample.chapter 1) (Sample.outline [1; 2])
    [] standard w
  = (Untyped.Abrupt e,
     advance w 1
       [EvGenerateContent 1;
        EvConsoleError (Gemini.attemptFailed 0 (Sample.chapter 1))])
  /\ fst (Untyped.chapterLoop h backend
            (Sample.project (App.currentChapters st) [1; 2])
            (Sample.outline [1; 2]) "p1" standard
            [Sample.chapter 1; Sample.chapter 2] st w)
     = Untyped.Abrupt
         (Untyped.ofError (Untyped.typeError "e.message?.includes")).
Proof.
  intros h e backend st w.
  destruct (rejection_without_a_string_message h backend
              (Sample.project (App.currentChapters st) [1; 2])
              (Sample.outline [1; 2]) "p1" standard (Sample.chapter 1)
              [Sample.chapter 2] st w true (Some 403)
              eq_refl eq_refl eq_refl) as (Hfatal & _).
  destruct (Hfatal eq_refl) as (Hw & _ & Hloop).
  split; [exact Hw|]. now rewrite Hloop.
Defined.

(** The same rejection at the first request of a run, and one with another
    status. *)
Example rejection_without_a_string_message_runs :
  let h := Sample.host (fun _ => Resolved (Some "text"%string)) in
  let backend code n :=
    match n with
    | 0%nat => Untyped.Rejected
                 (Untyped.mkCaught (Untyped.NotAString true) (Some code))
    | _ => Untyped.Resolved (Some "text"%string)
    end in
  let run code :=
    Untyped.startBookGeneration h (backend code) "p1" standard
      (Sample.world [] [1; 2]) in
  (fst (run 401)
   = Untyped.Abrupt
       (Untyped.ofError (Untyped.typeError "e.message?.includes"))
   /\ generated (trace (snd (run 401))) = [1]
   /\ releases (trace (snd (run 401))) = []
   /\ generatingProjectId (snd (run 401)) = Some "p1"%string)
  /\ (fst (run 500) = Untyped.Normal tt
      /\ generated (trace (snd (run 500))) = [1; 2]
      /\ sleeps (trace (snd (run 500))) = []
      /\ releases (trace (snd (run 500))) = [7%nat]
      /\ generatingProjectId (snd (run 500)) = None
      /\ stored (projects (snd (run 500))) "p1" 1
         = Some (ChapterContent.mk 1 "Chapter"
                   "Generation failed. Please retry." false)).
Proof. vm_compute. repeat split; reflexivity. Qed.
